(** * Hack Academy bot: payment webhook and subscription administration

    A shallow embedding of [webhook_server.py] (signature check, webhook
    handler, activation), of [bot_manager.py] (extend, revoke, cleanup)
    and of the scheduling part of [telegram_bot.py], with the statements
    the specification makes about them.

    Conventions of the embedding.
    - A Python [str] is a [string], read as the bytes of its UTF-8
      encoding, so [s.encode()] yields the characters of [s] as bytes.
      Request bodies are taken to be valid UTF-8.
    - A [datetime] is an integer number of microseconds; the ISO text the
      code stores ([isoformat()]) is represented by the datetime it
      encodes, and [$lt] on two such texts by [<] on the datetimes (for
      naive datetimes the ISO text orders like the instant).  The number
      is counted from 1970-01-01; a [datetime] lies between year 1 and
      year 9999, and date arithmetic on a number of days given by the
      operator raises [OverflowError] outside ([extend_subscription]).
      The readings of the clock are instants of the present, so the
      thirty days the code adds to a reading stay in range.
    - JSON values of a callback are scalars: null, booleans, integers and
      strings.
    - The clock, the Telegram API and the MongoDB server are external: an
      environment gives the reading of each [datetime.now()], and tells
      for each Telegram call and each MongoDB operation whether it
      answers or raises. *)

From Stdlib Require Import ZArith String Ascii List Bool Lia DecimalString DecimalZ.
From stdpp Require Import base option list strings gmap.

Import ListNotations.
Local Open Scope string_scope.
Local Open Scope list_scope.
Local Open Scope Z_scope.

(** ** HMAC-SHA512 ([hmac.new(key, msg, hashlib.sha512).hexdigest()]) *)

Module SHA512.

Definition mask64 : Z := 0xffffffffffffffff.
Definition add64 (a b : Z) : Z := Z.land (a + b) mask64.
Definition rotr (n x : Z) : Z :=
  Z.lor (Z.shiftr x n) (Z.land (Z.shiftl x (64 - n)) mask64).
Definition not64 (x : Z) : Z := Z.lxor x mask64.

Definition Ch (x y z : Z) : Z := Z.lxor (Z.land x y) (Z.land (not64 x) z).
Definition Maj (x y z : Z) : Z :=
  Z.lxor (Z.lxor (Z.land x y) (Z.land x z)) (Z.land y z).
Definition Sigma0 (x : Z) : Z := Z.lxor (Z.lxor (rotr 28 x) (rotr 34 x)) (rotr 39 x).
Definition Sigma1 (x : Z) : Z := Z.lxor (Z.lxor (rotr 14 x) (rotr 18 x)) (rotr 41 x).
Definition sigma0 (x : Z) : Z := Z.lxor (Z.lxor (rotr 1 x) (rotr 8 x)) (Z.shiftr x 7).
Definition sigma1 (x : Z) : Z := Z.lxor (Z.lxor (rotr 19 x) (rotr 61 x)) (Z.shiftr x 6).

Definition K : list Z :=
  [ 0x428a2f98d728ae22; 0x7137449123ef65cd; 0xb5c0fbcfec4d3b2f; 0xe9b5dba58189dbbc;
    0x3956c25bf348b538; 0x59f111f1b605d019; 0x923f82a4af194f9b; 0xab1c5ed5da6d8118;
    0xd807aa98a3030242; 0x12835b0145706fbe; 0x243185be4ee4b28c; 0x550c7dc3d5ffb4e2;
    0x72be5d74f27b896f; 0x80deb1fe3b1696b1; 0x9bdc06a725c71235; 0xc19bf174cf692694;
    0xe49b69c19ef14ad2; 0xefbe4786384f25e3; 0x0fc19dc68b8cd5b5; 0x240ca1cc77ac9c65;
    0x2de92c6f592b0275; 0x4a7484aa6ea6e483; 0x5cb0a9dcbd41fbd4; 0x76f988da831153b5;
    0x983e5152ee66dfab; 0xa831c66d2db43210; 0xb00327c898fb213f; 0xbf597fc7beef0ee4;
    0xc6e00bf33da88fc2; 0xd5a79147930aa725; 0x06ca6351e003826f; 0x142929670a0e6e70;
    0x27b70a8546d22ffc; 0x2e1b21385c26c926; 0x4d2c6dfc5ac42aed; 0x53380d139d95b3df;
    0x650a73548baf63de; 0x766a0abb3c77b2a8; 0x81c2c92e47edaee6; 0x92722c851482353b;
    0xa2bfe8a14cf10364; 0xa81a664bbc423001; 0xc24b8b70d0f89791; 0xc76c51a30654be30;
    0xd192e819d6ef5218; 0xd69906245565a910; 0xf40e35855771202a; 0x106aa07032bbd1b8;
    0x19a4c116b8d2d0c8; 0x1e376c085141ab53; 0x2748774cdf8eeb99; 0x34b0bcb5e19b48a8;
    0x391c0cb3c5c95a63; 0x4ed8aa4ae3418acb; 0x5b9cca4f7763e373; 0x682e6ff3d6b2b8a3;
    0x748f82ee5defb2fc; 0x78a5636f43172f60; 0x84c87814a1f0ab72; 0x8cc702081a6439ec;
    0x90befffa23631e28; 0xa4506cebde82bde9; 0xbef9a3f7b2c67915; 0xc67178f2e372532b;
    0xca273eceea26619c; 0xd186b8c721c0c207; 0xeada7dd6cde0eb1e; 0xf57d4f7fee6ed178;
    0x06f067aa72176fba; 0x0a637dc5a2c898a6; 0x113f9804bef90dae; 0x1b710b35131c471b;
    0x28db77f523047d84; 0x32caab7b40c72493; 0x3c9ebe0a15c9bebc; 0x431d67c49c100d4c;
    0x4cc5d4becb3e42b6; 0x597f299cfc657e2a; 0x5fcb6fab3ad6faec; 0x6c44198c4a475817 ].

Definition H0 : list Z :=
  [ 0x6a09e667f3bcc908; 0xbb67ae8584caa73b; 0x3c6ef372fe94f82b; 0xa54ff53a5f1d36f1;
    0x510e527fade682d1; 0x9b05688c2b3e6c1f; 0x1f83d9abfb41bd6b; 0x5be0cd19137e2179 ].

(** Big-endian conversions between a word and its bytes. *)
Definition be_word (bs : list Z) : Z := fold_left (fun acc b => acc * 256 + b) bs 0.

Fixpoint be_bytes (n : nat) (x : Z) : list Z :=
  match n with
  | O => []
  | S m => be_bytes m (Z.shiftr x 8) ++ [Z.land x 255]
  end.

(** Padding: a one bit, zeros, and the bit length on 128 bits. *)
Definition pad (msg : list Z) : list Z :=
  let len := Z.of_nat (length msg) in
  msg ++ [128] ++ repeat 0 (Z.to_nat ((- (len + 17)) mod 128)) ++ be_bytes 16 (8 * len).

Fixpoint chunks (n : nat) (size : nat) (l : list Z) : list (list Z) :=
  match n with
  | O => []
  | S m => firstn size l :: chunks m size (skipn size l)
  end.

(** Message schedule; [rw] holds the words computed so far, last first. *)
Fixpoint extend (n : nat) (rw : list Z) : list Z :=
  match n with
  | O => rw
  | S m =>
      let w := add64 (add64 (sigma1 (nth 1 rw 0)) (nth 6 rw 0))
                     (add64 (sigma0 (nth 14 rw 0)) (nth 15 rw 0)) in
      extend m (w :: rw)
  end.

Definition schedule (block : list Z) : list Z :=
  rev (extend 64 (rev (map be_word (chunks 16 8 block)))).

Record regs := Regs { ra : Z; rb : Z; rc : Z; rd : Z; re : Z; rf : Z; rg : Z; rh : Z }.

Definition round (s : regs) (kw : Z * Z) : regs :=
  let t1 := add64 (add64 (add64 (rh s) (Sigma1 (re s)))
                         (add64 (Ch (re s) (rf s) (rg s)) (fst kw))) (snd kw) in
  let t2 := add64 (Sigma0 (ra s)) (Maj (ra s) (rb s) (rc s)) in
  Regs (add64 t1 t2) (ra s) (rb s) (rc s) (add64 (rd s) t1) (re s) (rf s) (rg s).

Definition compress (h : regs) (block : list Z) : regs :=
  let s := fold_left round (combine K (schedule block)) h in
  Regs (add64 (ra h) (ra s)) (add64 (rb h) (rb s)) (add64 (rc h) (rc s))
       (add64 (rd h) (rd s)) (add64 (re h) (re s)) (add64 (rf h) (rf s))
       (add64 (rg h) (rg s)) (add64 (rh h) (rh s)).

Definition init : regs :=
  Regs (nth 0 H0 0) (nth 1 H0 0) (nth 2 H0 0) (nth 3 H0 0)
       (nth 4 H0 0) (nth 5 H0 0) (nth 6 H0 0) (nth 7 H0 0).

Definition digest (msg : list Z) : list Z :=
  let p := pad msg in
  let s := fold_left compress (chunks (length p / 128) 128 p) init in
  flat_map (be_bytes 8) [ra s; rb s; rc s; rd s; re s; rf s; rg s; rh s].

Definition block_size : nat := 128.

(** HMAC (RFC 2104) over SHA-512. *)
Definition hmac (key msg : list Z) : list Z :=
  let k0 := if (block_size <? length key)%nat then digest key else key in
  let k := k0 ++ repeat 0 (block_size - length k0) in
  digest (map (Z.lxor 0x5c) k ++ digest (map (Z.lxor 0x36) k ++ msg)).

End SHA512.

Definition bytes_of_string (s : string) : list Z :=
  map (fun c => Z.of_N (N_of_ascii c)) (list_ascii_of_string s).

Definition hex_digit (n : Z) : ascii :=
  if n <? 10 then ascii_of_N (Z.to_N (48 + n)) else ascii_of_N (Z.to_N (87 + n)).

Fixpoint hex_of_bytes (bs : list Z) : string :=
  match bs with
  | [] => EmptyString
  | b :: r =>
      String (hex_digit (Z.land (Z.shiftr b 4) 15))
             (String (hex_digit (Z.land b 15)) (hex_of_bytes r))
  end.

(** [hmac.new(key, msg, hashlib.sha512).hexdigest()] *)
Definition hmac_sha512_hexdigest (key msg : string) : string :=
  hex_of_bytes (SHA512.hmac (bytes_of_string key) (bytes_of_string msg)).

Definition sha512_hexdigest (msg : string) : string :=
  hex_of_bytes (SHA512.digest (bytes_of_string msg)).

#[global] Arguments hmac_sha512_hexdigest : simpl never.
#[global] Arguments sha512_hexdigest : simpl never.

(** ** Values, documents and the two collections *)

(** A [datetime], in microseconds since 1970-01-01, and the length in
    microseconds of a [timedelta] of [d] days.  Whether such a
    [timedelta] exists, and whether a date plus it is still a date, is
    decided by [timedelta] and [datetime_add] below, which raise as
    Python does; the code applies the length itself only to the constant
    thirty. *)
Definition time : Type := Z.
Definition microseconds_per_day : Z := 86400000000.
Definition timedelta_days (d : Z) : Z := d * microseconds_per_day.

(** [datetime.min] (0001-01-01 00:00:00) and [datetime.max]
    (9999-12-31 23:59:59.999999); the largest number of days of a
    [timedelta]. *)
Definition datetime_min : time := -62135596800000000.
Definition datetime_max : time := 253402300799999999.
Definition max_timedelta_days : Z := 999999999.

(** [timedelta(days=days)] exists, and so does [base + timedelta(days=days)]. *)
Definition in_range (base : time) (days : Z) : bool :=
  (Z.abs days <=? max_timedelta_days)
  && (datetime_min <=? base + timedelta_days days)
  && (base + timedelta_days days <=? datetime_max).

(** Scalar values of a JSON callback and of a document field. *)
Inductive value : Type :=
| VNone
| VBool (b : bool)
| VInt (n : Z)
| VStr (s : string).

#[global] Instance value_eq_dec : EqDecision value.
Proof. solve_decision. Defined.

(** Python truth value ([if not x]). *)
Definition truthy (v : value) : bool :=
  match v with
  | VNone => false
  | VBool b => b
  | VInt n => negb (n =? 0)
  | VStr s => negb (s =? EmptyString)%string
  end.

(** [v in [s1, ..., sn]] for string literals. *)
Definition value_in (v : value) (l : list string) : bool :=
  match v with
  | VStr s => existsb (String.eqb s) l
  | _ => false
  end.

(** [d.get(k)] on a parsed JSON object. *)
Definition dict_get (d : gmap string value) (k : string) : value :=
  default VNone (d !! k).

(** A document of [db.users]; a field the code may not have written yet
    is an [option]. *)
Record User : Type := mkUser {
  user_id : Z;
  username : string;
  first_seen : time;
  last_interaction : time;
  subscription_plan : option string;
  subscription_start : option time;
  subscription_end : option time;
  status : option string;
  revoked_at : option time;
  expired_at : option time
}.

#[global] Instance User_eq_dec : EqDecision User.
Proof. solve_decision. Defined.

(** A document of [db.payments] (inserted by [plan_callback] with status
    [waiting]); [amount] is in hundredths. *)
Record Payment : Type := mkPayment {
  p_user_id : Z;
  p_plan : string;
  payment_id : value;
  amount : Z;
  p_status : value;
  created_at : time;
  payment_url : value;
  webhook_data : option (gmap string value);
  updated_at : option time
}.

#[global] Instance Payment_eq_dec : EqDecision Payment.
Proof. solve_decision. Defined.

(** [update_one]: the first document that matches; [update_many]: all. *)
Fixpoint update_one {A : Type} (flt : A -> bool) (upd : A -> A) (l : list A) : list A :=
  match l with
  | [] => []
  | x :: r => if flt x then upd x :: r else x :: update_one flt upd r
  end.

Definition update_many {A : Type} (flt : A -> bool) (upd : A -> A) (l : list A) : list A :=
  map (fun x => if flt x then upd x else x) l.

Definition find_one {A : Type} (flt : A -> bool) (l : list A) : option A := List.find flt l.

#[global] Arguments find_one : simpl never.

(** [modified_count] of an update: the matched documents the update changed. *)
Definition modified_one {A : Type} `{EqDecision A}
    (flt : A -> bool) (upd : A -> A) (l : list A) : nat :=
  match find_one flt l with
  | Some x => if decide (upd x = x) then 0%nat else 1%nat
  | None => 0%nat
  end.

Definition modified_many {A : Type} `{EqDecision A}
    (flt : A -> bool) (upd : A -> A) (l : list A) : nat :=
  length (filter (fun x => flt x = true /\ upd x <> x) l).

(** ** Plans and channels *)

(** The [plans] table, with the default prices, in hundredths. *)
Record plan_info : Type := mkPlan { name : string; price : Z; channel : string }.

Definition plans : gmap string plan_info :=
  list_to_map
    [ ("beginner", mkPlan "Beginner to Mid" 1799 "beginner");
      ("mid", mkPlan "Mid to Pro" 2499 "mid");
      ("complete", mkPlan "Complete Pack" 1999 "complete") ].

#[global] Arguments plans : simpl never.

(** ** The world outside the handler *)

Inductive message : Type :=
| Welcome (plan_name : string) (valid_until : time)
| Subscription_expired.

Inductive tg_call : Type :=
| UnbanChatMember (chat_id : string) (uid : Z)
| BanChatMember (chat_id : string) (uid : Z)
| SendMessage (chat_id : Z) (text : message).

Inductive exn : Type :=
| AttributeError | KeyError | ValueError | IndexError | TypeError
| TelegramError | PyMongoError | BadRequest | ConflictingIdError | OverflowError.

#[global] Instance exn_eq_dec : EqDecision exn.
Proof. solve_decision. Defined.

Inductive level : Type := ERROR | INFO | STDOUT.

Inductive log_msg : Type :=
| Error_verifying_signature (e : exn)
| Channel_id_not_found (plan : string)
| Error_adding_user_to_channel (e : exn)
| Successfully_activated (uid : Z) (plan : string)
| Error_handling_successful_payment (e : exn)
| No_signature_found
| Invalid_signature
| Received_webhook (d : option (gmap string value))
| No_order_id
| Invalid_order_id_format (order_id : value)
| Error_parsing_order_id (order_id : value) (e : exn)
| Payment_confirmed (uid : Z) (plan : string)
| Successfully_processed (uid : Z)
| Failed_to_process (uid : Z)
| Payment_not_completed (st : value) (uid : Z) (plan : string)
| Error_processing_webhook (e : exn)
| User_not_found (uid : Z)
| Extended_subscription (uid : Z) (days : Z) (new_end : time)
| Access_revoked (uid : Z)
| Cleaned_up (n : nat)
| Error_removing_user_from_channel (e : exn)
| Handled_subscription_expiry (uid : Z)
| Error_handling_subscription_expiry (e : exn).

(** A job of the bot's scheduler ([telegram_bot.py], [add_job] with
    [DateTrigger(run_date)] and [args=[user_id, plan]]). *)
Record Job : Type := mkJob { job_id : string; run_date : time; job_user : Z; job_plan : string }.

(** Environment variables and the answers of the outside world.  The
    [n]-th reading of [datetime.now()] is [clock n], an instant of the
    present (thirty days after it is a date). *)
Record Env : Type := mkEnv {
  IPN_SECRET_KEY : option string;
  BEGINNER_CHANNEL_ID : option string;
  MID_CHANNEL_ID : option string;
  COMPLETE_CHANNEL_ID : option string;
  clock : nat -> time;
  telegram_answers : nat -> tg_call -> bool;
  mongo_answers : nat -> bool
}.

Definition channels (env : Env) : gmap string (option string) :=
  list_to_map
    [ ("beginner", BEGINNER_CHANNEL_ID env);
      ("mid", MID_CHANNEL_ID env);
      ("complete", COMPLETE_CHANNEL_ID env) ].

#[global] Arguments channels : simpl never.

(** Modelled from the spec: the channel membership collaborator (the
    Telegram server is not part of the repository).  [grantMembership] is
    the unban call and [revokeMembership] the ban call; [members] holds
    the (channel, user) pairs that have access. *)
Definition membership_effect (c : tg_call) (m : gset (string * Z)) : gset (string * Z) :=
  match c with
  | UnbanChatMember ch u => {[ (ch, u) ]} ∪ m
  | BanChatMember ch u => m ∖ {[ (ch, u) ]}
  | SendMessage _ _ => m
  end.

Record World : Type := mkWorld {
  users : list User;
  payments : list Payment;
  members : gset (string * Z);
  tg_calls : list (tg_call * bool);
  jobs : list Job;
  logs : list (level * log_msg);
  clock_reads : nat;
  db_ops : nat
}.

(** ** A state and exception monad for the handlers *)

Definition M (A : Type) : Type := World -> World * (exn + A).

Definition ret {A : Type} (a : A) : M A := fun w => (w, inr a).

Definition raise {A : Type} (e : exn) : M A := fun w => (w, inl e).

Definition bind {A B : Type} (c : M A) (k : A -> M B) : M B :=
  fun w =>
    match c w with
    | (w', inl e) => (w', inl e)
    | (w', inr a) => k a w'
    end.

(** [try: c except <caught> as e: h e] *)
Definition try_except {A : Type} (caught : exn -> bool) (c : M A) (h : exn -> M A) : M A :=
  fun w =>
    match c w with
    | (w', inl e) => if caught e then h e w' else (w', inl e)
    | (w', inr a) => (w', inr a)
    end.

(** [except Exception] *)
Definition Exception : exn -> bool := fun _ => true.

Declare Scope py_scope.
Delimit Scope py_scope with py.
Notation "x <- c ;; k" := (bind c (fun x => k))
  (at level 100, c at next level, right associativity) : py_scope.
Notation "c ;; k" := (bind c (fun _ => k))
  (at level 100, k at level 200, right associativity) : py_scope.
Local Open Scope py_scope.

Definition or_raise {A : Type} (e : exn) (o : option A) : M A :=
  match o with
  | Some a => ret a
  | None => raise e
  end.

Definition log (l : level) (m : log_msg) : M unit :=
  fun w =>
    (mkWorld (users w) (payments w) (members w) (tg_calls w) (jobs w)
             (logs w ++ [(l, m)]) (clock_reads w) (db_ops w), inr tt).

(** ** Strings: [split] and [int] *)

(** [s.split(sep)] for a one-character separator. *)
Fixpoint split_on (sep : ascii) (s : string) : list string :=
  match s with
  | EmptyString => [EmptyString]
  | String c r =>
      if Ascii.eqb c sep then EmptyString :: split_on sep r
      else match split_on sep r with
           | h :: t => String c h :: t
           | [] => [String c EmptyString]
           end
  end.

(** The code points of a text, from its UTF-8 bytes; [None] for bytes
    that encode no text. *)
Definition continuation (b : N) : bool := ((128 <=? b) && (b <=? 191))%N.

Fixpoint code_points (l : list N) : option (list N) :=
  match l with
  | [] => Some []
  | b :: r =>
      if (b <? 128)%N then cons b <$> code_points r
      else if (b <? 224)%N then
        match r with
        | c1 :: r1 =>
            if (194 <=? b)%N && continuation c1
            then cons ((b - 192) * 64 + (c1 - 128))%N <$> code_points r1
            else None
        | [] => None
        end
      else if (b <? 240)%N then
        match r with
        | c1 :: c2 :: r2 =>
            let cp := ((b - 224) * 4096 + (c1 - 128) * 64 + (c2 - 128))%N in
            if continuation c1 && continuation c2 && (2048 <=? cp)%N
               && negb ((55296 <=? cp) && (cp <=? 57343))%N
            then cons cp <$> code_points r2
            else None
        | _ => None
        end
      else
        match r with
        | c1 :: c2 :: c3 :: r3 =>
            let cp := ((b - 240) * 262144 + (c1 - 128) * 4096
                       + (c2 - 128) * 64 + (c3 - 128))%N in
            if (b <? 248)%N && continuation c1 && continuation c2 && continuation c3
               && (65536 <=? cp)%N && (cp <=? 1114111)%N
            then cons cp <$> code_points r3
            else None
        | _ => None
        end
  end.

(** The whitespace of Unicode above ASCII ([str.isspace]). *)
Definition unicode_space (cp : N) : bool :=
  ((cp =? 133) || (cp =? 160) || (cp =? 5760) || (8192 <=? cp) && (cp <=? 8202)
   || (cp =? 8232) || (cp =? 8233) || (cp =? 8239) || (cp =? 8287) || (cp =? 12288))%N.

(** The decimal digits of Unicode 14.0.0, the database of CPython 3.11:
    each code point of the list is a digit zero, followed by the digits
    one to nine of its script. *)
Definition decimal_zeros : list N :=
  [ 48; 1632; 1776; 1984; 2406; 2534; 2662; 2790;
    2918; 3046; 3174; 3302; 3430; 3558; 3664; 3792;
    3872; 4160; 4240; 6112; 6160; 6470; 6608; 6784;
    6800; 6992; 7088; 7232; 7248; 42528; 43216; 43264;
    43472; 43504; 43600; 44016; 65296; 66720; 68912; 69734;
    69872; 69942; 70096; 70384; 70736; 70864; 71248; 71360;
    71472; 71904; 72016; 72784; 73040; 73120; 92768; 92864;
    93008; 120782; 120792; 120802; 120812; 120822; 123200; 123632;
    125264; 130032 ]%N.

Definition unicode_decimal (cp : N) : option N :=
  match List.find (fun z => (z <=? cp) && (cp <? z + 10))%N decimal_zeros with
  | Some z => Some (cp - z)%N
  | None => None
  end.

(** What [int] makes of a code point before it reads the number: ASCII
    is kept, a Unicode space becomes a space, a Unicode decimal digit its
    ASCII digit, and anything else a question mark. *)
Definition to_ascii (cp : N) : N :=
  if (cp <? 127)%N then cp
  else if unicode_space cp then 32%N
  else match unicode_decimal cp with
       | Some d => (48 + d)%N
       | None => 63%N
       end.

(** The whitespace [int] skips around the number: tab to carriage return,
    and the space. *)
Definition is_space (c : N) : bool := ((9 <=? c) && (c <=? 13) || (c =? 32))%N.

Definition is_digit (c : N) : bool := ((48 <=? c) && (c <=? 57))%N.

Fixpoint lstrip (l : list N) : list N :=
  match l with
  | c :: r => if is_space c then lstrip r else l
  | [] => []
  end.

Definition strip (l : list N) : list N := rev (lstrip (rev (lstrip l))).

(** The digits that follow a digit, with single underscores between
    digits. *)
Fixpoint digits_from (l : list N) (acc : Z) : option Z :=
  match l with
  | [] => Some acc
  | c :: r =>
      if is_digit c then digits_from r (10 * acc + (Z.of_N c - 48))
      else if (c =? 95)%N then
        match r with
        | d :: r' =>
            if is_digit d then digits_from r' (10 * acc + (Z.of_N d - 48)) else None
        | [] => None
        end
      else None
  end.

Definition digits_value (l : list N) : option Z :=
  match l with
  | c :: r => if is_digit c then digits_from r (Z.of_N c - 48) else None
  | [] => None
  end.

(** [int(s)] on a [str]: the text brought to ASCII, then surrounding
    whitespace, an optional sign, and decimal digits with single
    underscores between them; [None] is [ValueError].  The limit of the
    interpreter on the number of digits is not modelled. *)
Definition py_int (s : string) : option Z :=
  match code_points (map N_of_ascii (list_ascii_of_string s)) with
  | Some cps =>
      match strip (map to_ascii cps) with
      | c :: ds =>
          if (c =? 43)%N then digits_value ds
          else if (c =? 45)%N then Z.opp <$> digits_value ds
          else digits_value (c :: ds)
      | [] => None
      end
  | None => None
  end.

(** [hmac.compare_digest(a, b)] on two [str]: [TypeError] unless both are
    ASCII. *)
Definition is_ascii (s : string) : bool :=
  forallb (fun c => (N_of_ascii c <? 128)%N) (list_ascii_of_string s).

Definition compare_digest (a b : string) : M bool :=
  if is_ascii a && is_ascii b then ret (a =? b)%string else raise TypeError.

(** ** HTTP requests and responses *)

(** A request: the signature header, the raw body ([get_data]) and what
    [get_json()] makes of the body: [None] when it raises, [Some None]
    when the body is JSON but not an object, [Some (Some d)] for the
    object [d]. *)
Record Request : Type := mkRequest {
  x_nowpayments_sig : option string;
  raw_body : string;
  json_body : option (option (gmap string value))
}.

Inductive Body : Type :=
| error_body (msg : string)
| status_body (st : string).

Record Response : Type := mkResponse { body : Body; status_code : Z }.

Definition success_response : Response := mkResponse (status_body "success") 200.

Section Handlers.

Variable env : Env.

(** ** Primitives: clock, Telegram, MongoDB *)

(** [datetime.now()] *)
Definition now : M time :=
  fun w =>
    (mkWorld (users w) (payments w) (members w) (tg_calls w) (jobs w)
             (logs w) (S (clock_reads w)) (db_ops w),
     inr (clock env (clock_reads w))).

(** A call of the Telegram Bot API: it answers or raises. *)
Definition telegram (c : tg_call) : M unit :=
  fun w =>
    let ok := telegram_answers env (length (tg_calls w)) c in
    (mkWorld (users w) (payments w)
             (if ok then membership_effect c (members w) else members w)
             (tg_calls w ++ [(c, ok)]) (jobs w) (logs w) (clock_reads w) (db_ops w),
     if ok then inr tt else inl TelegramError).

(** An operation on the store: it is carried out, or raises. *)
Definition mongo {A : Type} (op : World -> World * A) : M A :=
  fun w =>
    let w1 := mkWorld (users w) (payments w) (members w) (tg_calls w) (jobs w)
                      (logs w) (clock_reads w) (S (db_ops w)) in
    if mongo_answers env (db_ops w)
    then let '(w2, a) := op w1 in (w2, inr a)
    else (w1, inl PyMongoError).

Definition set_users (f : list User -> list User) (w : World) : World :=
  mkWorld (f (users w)) (payments w) (members w) (tg_calls w) (jobs w)
          (logs w) (clock_reads w) (db_ops w).

Definition set_payments (f : list Payment -> list Payment) (w : World) : World :=
  mkWorld (users w) (f (payments w)) (members w) (tg_calls w) (jobs w)
          (logs w) (clock_reads w) (db_ops w).

(** [users_collection.update_one(flt, {'$set': ...})], returning
    [modified_count]. *)
Definition users_update_one (flt : User -> bool) (upd : User -> User) : M nat :=
  mongo (fun w => (set_users (update_one flt upd) w, modified_one flt upd (users w))).

Definition users_update_many (flt : User -> bool) (upd : User -> User) : M nat :=
  mongo (fun w => (set_users (update_many flt upd) w, modified_many flt upd (users w))).

Definition users_find_one (flt : User -> bool) : M (option User) :=
  mongo (fun w => (w, find_one flt (users w))).

Definition payments_update_one (flt : Payment -> bool) (upd : Payment -> Payment) : M nat :=
  mongo (fun w => (set_payments (update_one flt upd) w, modified_one flt upd (payments w))).

(** Filters [{'user_id': uid}] and [{'payment_id': pid}]. *)
Definition by_user_id (uid : Z) (u : User) : bool := user_id u =? uid.
Definition by_payment_id (pid : value) (p : Payment) : bool := bool_decide (payment_id p = pid).


(** ** [webhook_server.py] *)

(** [verify_ipn_signature(data, signature)]; [os.getenv] gives [None]
    for a variable that is not set, and [None.encode()] raises. *)
Definition verify_ipn_signature (data signature : string) : M bool :=
  try_except Exception
    (secret_key <- or_raise AttributeError (IPN_SECRET_KEY env) ;;
     let expected_signature := hmac_sha512_hexdigest secret_key data in
     compare_digest signature expected_signature)
    (fun e => log ERROR (Error_verifying_signature e) ;; ret false).

(** [add_user_to_channel(user_id, plan)] *)
Definition add_user_to_channel (uid : Z) (plan : string) : M bool :=
  try_except Exception
    (info <- or_raise KeyError (plans !! plan) ;;
     channel_id <- or_raise KeyError (channels env !! channel info) ;;
     match channel_id with
     | None => log ERROR (Channel_id_not_found plan) ;; ret false
     | Some chat =>
         if (chat =? EmptyString)%string then log ERROR (Channel_id_not_found plan) ;; ret false
         else
           telegram (UnbanChatMember chat uid) ;;
           t <- now ;;
           telegram (SendMessage uid (Welcome (name info) (t + timedelta_days 30))) ;;
           ret true
     end)
    (fun e => log ERROR (Error_adding_user_to_channel e) ;; ret false).

(** The [$set] of an activation. *)
Definition activate (plan : string) (start finish : time) (u : User) : User :=
  mkUser (user_id u) (username u) (first_seen u) (last_interaction u)
         (Some plan) (Some start) (Some finish) (Some "active")
         (revoked_at u) (expired_at u).

(** [handle_successful_payment(user_id, plan)] *)
Definition handle_successful_payment (uid : Z) (plan : string) : M bool :=
  try_except Exception
    (success <- add_user_to_channel uid plan ;;
     if success then
       t <- now ;;
       let subscription_end := t + timedelta_days 30 in
       start <- now ;;
       users_update_one (by_user_id uid) (activate plan start subscription_end) ;;
       log INFO (Successfully_activated uid plan) ;;
       ret true
     else ret false)
    (fun e => log ERROR (Error_handling_successful_payment e) ;; ret false).

Definition error_response (msg : string) (code : Z) : Response :=
  mkResponse (error_body msg) code.

(** The parsing of [order_id] in [payment_webhook]; the result is the
    response of an early return, or the user id and the plan. *)
Definition parse_order_id (order_id : value) : M (Response + Z * string) :=
  try_except (fun e => bool_decide (e = ValueError) || bool_decide (e = IndexError))
    (parts <- match order_id with
              | VStr s => ret (split_on "_"%char s)
              | _ => raise AttributeError
              end ;;
     match parts with
     | p0 :: p1 :: p2 :: p3 :: _ =>
         if (p0 =? "hack")%string && (p1 =? "academy")%string then
           uid <- or_raise ValueError (py_int p2) ;;
           ret (inr (uid, p3))
         else
           log ERROR (Invalid_order_id_format order_id) ;;
           ret (inl (error_response "Invalid order_id format" 400))
     | _ =>
         log ERROR (Invalid_order_id_format order_id) ;;
         ret (inl (error_response "Invalid order_id format" 400))
     end)
    (fun e =>
       log ERROR (Error_parsing_order_id order_id e) ;;
       ret (inl (error_response "Error parsing order_id" 400))).

(** The [$set] of the payment update. *)
Definition record_callback (st : value) (d : gmap string value) (t : time)
    (p : Payment) : Payment :=
  mkPayment (p_user_id p) (p_plan p) (payment_id p) (amount p)
            st (created_at p) (payment_url p) (Some d) (Some t).

(** [payment_webhook()] *)
Definition payment_webhook (req : Request) : M Response :=
  try_except Exception
    (match x_nowpayments_sig req with
     | None =>
         log ERROR No_signature_found ;; ret (error_response "No signature" 400)
     | Some signature =>
         if (signature =? EmptyString)%string then
           log ERROR No_signature_found ;; ret (error_response "No signature" 400)
         else
           let raw_data := raw_body req in
           ok <- verify_ipn_signature raw_data signature ;;
           if negb ok then
             log ERROR Invalid_signature ;; ret (error_response "Invalid signature" 400)
           else
             webhook_data <- or_raise BadRequest (json_body req) ;;
             log INFO (Received_webhook webhook_data) ;;
             data <- or_raise AttributeError webhook_data ;;
             let payment_status := dict_get data "payment_status" in
             let order_id := dict_get data "order_id" in
             if negb (truthy order_id) then
               log ERROR No_order_id ;; ret (error_response "No order_id" 400)
             else
               parsed <- parse_order_id order_id ;;
               match parsed with
               | inl early => ret early
               | inr (uid, plan) =>
                   t <- now ;;
                   payments_update_one (by_payment_id (dict_get data "payment_id"))
                                       (record_callback payment_status data t) ;;
                   (if value_in payment_status ["finished"; "confirmed"] then
                      log INFO (Payment_confirmed uid plan) ;;
                      success <- handle_successful_payment uid plan ;;
                      if success then log INFO (Successfully_processed uid)
                      else log ERROR (Failed_to_process uid)
                    else if value_in payment_status ["failed"; "refunded"; "expired"] then
                      log INFO (Payment_not_completed payment_status uid plan)
                    else ret tt) ;;
                   ret success_response
               end
     end)
    (fun e =>
       log ERROR (Error_processing_webhook e) ;;
       ret (error_response "Internal server error" 500)).

(** ** [bot_manager.py] *)

Definition extended (new_end : time) (u : User) : User :=
  mkUser (user_id u) (username u) (first_seen u) (last_interaction u)
         (subscription_plan u) (subscription_start u) (Some new_end) (Some "active")
         (revoked_at u) (expired_at u).

(** [timedelta(days=days)] and [t + delta] on a [datetime]. *)
Definition timedelta (days : Z) : M Z :=
  if Z.abs days <=? max_timedelta_days then ret (timedelta_days days)
  else raise OverflowError.

Definition datetime_add (t : time) (delta : Z) : M time :=
  if (datetime_min <=? t + delta) && (t + delta <=? datetime_max) then ret (t + delta)
  else raise OverflowError.

(** [BotManager.extend_subscription(user_id, days)] *)
Definition extend_subscription (uid : Z) (days : Z) : M unit :=
  user <- users_find_one (by_user_id uid) ;;
  match user with
  | None => log STDOUT (User_not_found uid)
  | Some u =>
      new_end_date <- match subscription_end u with
                      | Some current_end =>
                          delta <- timedelta days ;;
                          datetime_add current_end delta
                      | None =>
                          t <- now ;;
                          delta <- timedelta days ;;
                          datetime_add t delta
                      end ;;
      users_update_one (by_user_id uid) (extended new_end_date) ;;
      log STDOUT (Extended_subscription uid days new_end_date)
  end.

Definition revoked (t : time) (u : User) : User :=
  mkUser (user_id u) (username u) (first_seen u) (last_interaction u)
         (subscription_plan u) (subscription_start u) (subscription_end u)
         (Some "revoked") (Some t) (expired_at u).

(** [BotManager.revoke_access(user_id)] *)
Definition revoke_access (uid : Z) : M unit :=
  t <- now ;;
  modified_count <- users_update_one (by_user_id uid) (revoked t) ;;
  if (0 <? modified_count)%nat then log STDOUT (Access_revoked uid)
  else log STDOUT (User_not_found uid).

Definition expired (t : time) (u : User) : User :=
  mkUser (user_id u) (username u) (first_seen u) (last_interaction u)
         (subscription_plan u) (subscription_start u) (subscription_end u)
         (Some "expired") (revoked_at u) (Some t).

(** The filter [{'subscription_end': {'$lt': now}, 'status': 'active'}]. *)
Definition overdue (t : time) (u : User) : bool :=
  match subscription_end u with
  | Some e => e <? t
  | None => false
  end && bool_decide (status u = Some "active").

(** [BotManager.cleanup_expired()] *)
Definition cleanup_expired : M unit :=
  t <- now ;;
  expired_at <- now ;;
  modified_count <- users_update_many (overdue t) (expired expired_at) ;;
  log STDOUT (Cleaned_up modified_count).

End Handlers.

(** ** [telegram_bot.py]: activation with a scheduled expiry, and the expiry *)

(** [str(n)] for an integer. *)
Definition str_of_int (n : Z) : string := NilZero.string_of_int (Z.to_int n).

Module TelegramBot.
Section Bot.

Variable env : Env.

(** [HackAcademyBot.add_user_to_channel(user_id, plan)]: the statements
    of the webhook server, on a bot built for the call. *)
Definition add_user_to_channel (uid : Z) (plan : string) : M bool :=
  try_except Exception
    (info <- or_raise KeyError (plans !! plan) ;;
     channel_id <- or_raise KeyError (channels env !! channel info) ;;
     match channel_id with
     | None => log ERROR (Channel_id_not_found plan) ;; ret false
     | Some chat =>
         if (chat =? EmptyString)%string then log ERROR (Channel_id_not_found plan) ;; ret false
         else
           telegram env (UnbanChatMember chat uid) ;;
           t <- now env ;;
           telegram env (SendMessage uid (Welcome (name info) (t + timedelta_days 30))) ;;
           ret true
     end)
    (fun e => log ERROR (Error_adding_user_to_channel e) ;; ret false).

(** [HackAcademyBot.remove_user_from_channel(user_id, plan)] *)
Definition remove_user_from_channel (uid : Z) (plan : string) : M bool :=
  try_except Exception
    (info <- or_raise KeyError (plans !! plan) ;;
     channel_id <- or_raise KeyError (channels env !! channel info) ;;
     match channel_id with
     | None => ret false
     | Some chat =>
         if (chat =? EmptyString)%string then ret false
         else telegram env (BanChatMember chat uid) ;; ret true
     end)
    (fun e => log ERROR (Error_removing_user_from_channel e) ;; ret false).

(** [scheduler.add_job(..., id=...)]: an id that is taken is refused. *)
Definition add_job (j : Job) : M unit :=
  fun w =>
    if existsb (fun j' => (job_id j' =? job_id j)%string) (jobs w)
    then (w, inl ConflictingIdError)
    else (mkWorld (users w) (payments w) (members w) (tg_calls w) (jobs w ++ [j])
                  (logs w) (clock_reads w) (db_ops w), inr tt).

(** [HackAcademyBot.handle_successful_payment(user_id, plan)] *)
Definition handle_successful_payment (uid : Z) (plan : string) : M bool :=
  try_except Exception
    (success <- add_user_to_channel uid plan ;;
     if success then
       t <- now env ;;
       let subscription_end := t + timedelta_days 30 in
       start <- now env ;;
       users_update_one env (by_user_id uid) (activate plan start subscription_end) ;;
       add_job (mkJob ("expiry_" ++ str_of_int uid ++ "_" ++ plan)%string
                      subscription_end uid plan) ;;
       log INFO (Successfully_activated uid plan) ;;
       ret true
     else ret false)
    (fun e => log ERROR (Error_handling_successful_payment e) ;; ret false).

(** [HackAcademyBot.handle_subscription_expiry(user_id, plan)], what an
    expiry job runs. *)
Definition handle_subscription_expiry (uid : Z) (plan : string) : M unit :=
  try_except Exception
    (remove_user_from_channel uid plan ;;
     t <- now env ;;
     users_update_one env (by_user_id uid) (expired t) ;;
     telegram env (SendMessage uid Subscription_expired) ;;
     log INFO (Handled_subscription_expiry uid))
    (fun e => log ERROR (Error_handling_subscription_expiry e)).

End Bot.
End TelegramBot.

#[global] Arguments verify_ipn_signature : simpl never.
#[global] Arguments add_user_to_channel : simpl never.
#[global] Arguments handle_successful_payment : simpl never.
#[global] Arguments parse_order_id : simpl never.
#[global] Arguments payment_webhook : simpl never.

Definition empty_world : World := mkWorld [] [] ∅ [] [] [] 0 0.

(** A view of [parse_order_id] as a function: the user id and the plan an
    order id decodes to. *)
Definition order_of (order_id : value) : option (Z * string) :=
  match snd (parse_order_id order_id empty_world) with
  | inr (inr x) => Some x
  | _ => None
  end.

(** Two worlds that differ at most in what was logged. *)
Definition same_but_logs (w w' : World) : Prop :=
  users w' = users w /\ payments w' = payments w /\ members w' = members w /\
  tg_calls w' = tg_calls w /\ jobs w' = jobs w /\
  clock_reads w' = clock_reads w /\ db_ops w' = db_ops w.

(** [w] with more log entries. *)
Definition add_logs (l : list (level * log_msg)) (w : World) : World :=
  mkWorld (users w) (payments w) (members w) (tg_calls w) (jobs w)
          (logs w ++ l) (clock_reads w) (db_ops w).

(** The world in which the handler goes on after the payment update of an
    accepted callback [d]: the callback is logged, the clock was read
    once and the store was written once. *)
Definition recorded (env : Env) (d : gmap string value) (w : World) : World :=
  mkWorld (users w)
          (update_one (by_payment_id (dict_get d "payment_id"))
                      (record_callback (dict_get d "payment_status") d
                                       (clock env (clock_reads w)))
                      (payments w))
          (members w) (tg_calls w) (jobs w)
          (logs w ++ [(INFO, Received_webhook (Some d))])
          (S (clock_reads w)) (S (db_ops w)).

(** A request whose signature header is the HMAC of its body under the
    configured secret. *)
Definition validly_signed (env : Env) (req : Request) : Prop :=
  exists k, IPN_SECRET_KEY env = Some k /\
            x_nowpayments_sig req = Some (hmac_sha512_hexdigest k (raw_body req)).

(** What the handler logs after [handle_successful_payment] answered. *)
Definition outcome_entry (uid : Z) (r : exn + bool) : level * log_msg :=
  match r with
  | inr true => (INFO, Successfully_processed uid)
  | _ => (ERROR, Failed_to_process uid)
  end.

(** The world in which [handle_successful_payment] is called. *)
Definition confirmed_world (env : Env) (d : gmap string value) (uid : Z) (plan : string)
    (w : World) : World :=
  add_logs [(INFO, Payment_confirmed uid plan)] (recorded env d w).

(** [n] deliveries of the same request, one after the other. *)
Fixpoint deliver (env : Env) (req : Request) (n : nat) (w : World) : World :=
  match n with
  | O => w
  | S m => fst (payment_webhook env req (deliver env req m w))
  end.

(** The delivery of the accepted callback [d] in the world [w] activates
    the user: the status is confirmed or finished and the grant, made in
    the world in which [handle_successful_payment] is called, succeeds. *)
Definition activating (env : Env) (d : gmap string value) (uid : Z) (plan : string)
    (w : World) : bool :=
  value_in (dict_get d "payment_status") ["finished"; "confirmed"]
  && bool_decide (snd (add_user_to_channel env uid plan (confirmed_world env d uid plan w))
                  = inr true).

Definition forget_updated_at (p : Payment) : Payment :=
  mkPayment (p_user_id p) (p_plan p) (payment_id p) (amount p)
            (p_status p) (created_at p) (payment_url p) (webhook_data p) None.

Definition is_unban (c : tg_call * bool) : bool :=
  match fst c with
  | UnbanChatMember _ _ => true
  | _ => false
  end.

(** ** A scenario: user 42 buys the plan mid, payment p-100 *)

Definition dq : string := String (ascii_of_nat 34) EmptyString.

Definition quoted (s : string) : string := (dq ++ s ++ dq)%string.

(** The JSON text and the parsed object of a callback. *)
Definition callback_text (pid st order : string) : string :=
  ("{" ++ quoted "payment_id" ++ ":" ++ quoted pid ++ ","
       ++ quoted "payment_status" ++ ":" ++ quoted st ++ ","
       ++ quoted "order_id" ++ ":" ++ quoted order ++ "}")%string.

Definition callback_object (pid st order : string) : gmap string value :=
  list_to_map [ ("payment_id", VStr pid); ("payment_status", VStr st);
                ("order_id", VStr order) ].

Definition signed_callback (secret pid st order : string) : Request :=
  mkRequest (Some (hmac_sha512_hexdigest secret (callback_text pid st order)))
            (callback_text pid st order)
            (Some (Some (callback_object pid st order))).

(** The clock gives one more second at each reading. *)
Definition demo_env (tg : bool) : Env :=
  mkEnv (Some "s3cr3t") (Some "-1001") (Some "-1002") (Some "-1003")
        (fun n => 1717000000000000 + 1000000 * Z.of_nat n)
        (fun _ _ => tg) (fun _ => true).

Definition user42 : User := mkUser 42 "alice" 1716000000000000 1716000000000000
                                   None None None None None None.

Definition payment100 (st : string) : Payment :=
  mkPayment 42 "mid" (VStr "p-100") 2499 (VStr st) 1716000000000000
            (VStr "https://nowpayments.io/payment/?iid=100") None None.

Definition demo_world (st : string) : World :=
  mkWorld [user42] [payment100 st] ∅ [] [] [] 0 0.

Definition confirmed100 : Request :=
  signed_callback "s3cr3t" "p-100" "confirmed" "hack_academy_42_mid_171700000".

Definition malformed100 : Request :=
  signed_callback "s3cr3t" "p-100" "confirmed" "order-42-mid".

Definition failed100 : Request :=
  signed_callback "s3cr3t" "p-100" "failed" "hack_academy_42_mid_171700000".

Definition unknown_plan100 : Request :=
  signed_callback "s3cr3t" "p-100" "confirmed" "hack_academy_42_gold_171700000".

(** User 42 as the bot's activation leaves it: active, in the channel of
    the plan mid, with the expiry job pending. *)
Definition active_world : World :=
  fst (TelegramBot.handle_successful_payment (demo_env true) 42 "mid"
         (demo_world "confirmed")).

Definition active42 : User :=
  activate "mid" 1717000002000000 (1717000001000000 + timedelta_days 30) user42.

(** Three users at the cleanup: one active and overdue, one active with
    time left, one that never subscribed. *)
Definition overdue_world : World :=
  mkWorld [ activate "mid" 1714000000000000 1716592000000000 user42;
            activate "beginner" 1716000000000000 1718592000000000
                     (mkUser 43 "bob" 1715000000000000 1715000000000000
                             None None None None None None);
            mkUser 44 "carol" 1715000000000000 1715000000000000
                   None None None None None None ]
          [] ∅ [] [] [] 0 0.

(** Unfolding of the monad and of the primitives. *)
Ltac unfold_monad :=
  unfold users_update_one, users_update_many, users_find_one, payments_update_one in *;
  unfold try_except, bind, or_raise, ret, raise, log, now, telegram, mongo,
    set_users, set_payments, Exception in *.

(** ** Further notions, for the properties beyond the specification *)

(** [create_nowpayments_payment]: the order id sent to the gateway,
    [f"hack_academy_{user_id}_{plan}_{int(datetime.now().timestamp())}"],
    with [ts] for the integer timestamp. *)
Definition make_order_id (uid : Z) (plan : string) (ts : Z) : string :=
  ("hack_academy_" ++ str_of_int uid ++ "_" ++ plan ++ "_" ++ str_of_int ts)%string.

Definition underscore_free (s : string) : bool :=
  forallb (fun c => negb (Ascii.eqb c "_")) (list_ascii_of_string s).

Definition is_ban (c : tg_call * bool) : bool :=
  match fst c with
  | BanChatMember _ _ => true
  | _ => false
  end.

(** What a run of the webhook handler keeps: the documents of the two
    collections and their keys, the jobs, and the channel accesses that
    were there; the calls it adds are no bans. *)
Definition webhook_frame (w w' : World) : Prop :=
  map user_id (users w') = map user_id (users w)
  /\ map payment_id (payments w') = map payment_id (payments w)
  /\ jobs w' = jobs w
  /\ members w ⊆ members w'
  /\ exists l, tg_calls w' = tg_calls w ++ l /\ List.filter is_ban l = [].

(** The world in which the handler ends when the store raises on the
    payment update of an accepted callback [d]. *)
Definition store_down_world (env : Env) (d : gmap string value) (w : World) : World :=
  mkWorld (users w) (payments w) (members w) (tg_calls w) (jobs w)
          (logs w ++ [(INFO, Received_webhook (Some d));
                      (ERROR, Error_processing_webhook PyMongoError)])
          (S (clock_reads w)) (S (db_ops w)).

(** The channel of a plan: the id configured for a plan of the table,
    when there is one and it is not empty. *)
Definition channel_of (env : Env) (plan : string) : option string :=
  match plans !! plan with
  | Some info =>
      match channels env !! channel info with
      | Some (Some chat) => if (chat =? EmptyString)%string then None else Some chat
      | _ => None
      end
  | None => None
  end.

(** The environment of the scenario, with given answers of Telegram and
    of the store. *)
Definition service_env (tg : nat -> tg_call -> bool) (db : nat -> bool) : Env :=
  mkEnv (Some "s3cr3t") (Some "-1001") (Some "-1002") (Some "-1003")
        (fun n => 1717000000000000 + 1000000 * Z.of_nat n) tg db.

(** The confirmed callback of p-100 under the signature of another body,
    and a signed body that is not JSON. *)
Definition tampered100 : Request :=
  mkRequest (x_nowpayments_sig failed100) (raw_body confirmed100) (json_body confirmed100).

Definition garbled100 : Request :=
  mkRequest (Some (hmac_sha512_hexdigest "s3cr3t" "payment_id=p-100"))
            "payment_id=p-100" None.

(** The text with the given UTF-8 bytes. *)
Definition text_of_bytes (l : list Z) : string :=
  string_of_list_ascii (map (fun b => ascii_of_N (Z.to_N b)) l).

(** The value of a decimal numeral read from the left, from [acc]. *)
Fixpoint uint_value (d : Decimal.uint) (acc : Z) : Z :=
  match d with
  | Decimal.Nil => acc
  | Decimal.D0 l => uint_value l (10 * acc)
  | Decimal.D1 l => uint_value l (10 * acc + 1)
  | Decimal.D2 l => uint_value l (10 * acc + 2)
  | Decimal.D3 l => uint_value l (10 * acc + 3)
  | Decimal.D4 l => uint_value l (10 * acc + 4)
  | Decimal.D5 l => uint_value l (10 * acc + 5)
  | Decimal.D6 l => uint_value l (10 * acc + 6)
  | Decimal.D7 l => uint_value l (10 * acc + 7)
  | Decimal.D8 l => uint_value l (10 * acc + 8)
  | Decimal.D9 l => uint_value l (10 * acc + 9)
  end.

(** * Properties *)

(** ** Test vectors of the hash *)

Example sha512_abc :
  sha512_hexdigest "abc" =
  "ddaf35a193617abacc417349ae20413112e6fa4e89a97ea20a9eeee64b55d39a2192992a274fc1a836ba3c23a3feebbd454d4423643ce80e2a9ac94fa54ca49f".
Proof. vm_compute. reflexivity. Qed.

Example hmac_rfc4231_case2 :
  hmac_sha512_hexdigest "Jefe" "what do ya want for nothing?" =
  "164b7a7bfcf819e2e395fbe73b56e0a387bd64222e831fd610270cd7ea2505549758bf75c05a994a6d034f65f8f0e6fdcaeab1a34d4a6b4b636e070a38bce737".
Proof. vm_compute. reflexivity. Qed.

(** ** The signature check *)

Lemma hex_digit_ascii (x : Z) : (N_of_ascii (hex_digit (Z.land x 15)) <? 128)%N = true.
Proof.
  assert (H : 0 <= Z.land x 15 < 16).
  { change 15 with (Z.ones 4). rewrite Z.land_ones by lia. apply Z.mod_pos_bound. lia. }
  assert (Hc : Z.land x 15 ∈ [0;1;2;3;4;5;6;7;8;9;10;11;12;13;14;15]).
  { rewrite !elem_of_cons. lia. }
  revert Hc. generalize (Z.land x 15). intros n Hn.
  rewrite !elem_of_cons in Hn. rewrite elem_of_nil in Hn.
  repeat (destruct Hn as [-> | Hn]; [reflexivity |]). destruct Hn.
Qed.

Lemma hex_of_bytes_ascii (bs : list Z) : is_ascii (hex_of_bytes bs) = true.
Proof.
  unfold is_ascii. induction bs as [| b r IH]; [reflexivity |].
  cbn [hex_of_bytes list_ascii_of_string forallb].
  rewrite !hex_digit_ascii. exact IH.
Qed.

Lemma hmac_hexdigest_ascii (k m : string) : is_ascii (hmac_sha512_hexdigest k m) = true.
Proof. apply hex_of_bytes_ascii. Qed.

Lemma hmac_hexdigest_nonempty (k m : string) :
  (hmac_sha512_hexdigest k m =? EmptyString)%string = false.
Proof.
  unfold hmac_sha512_hexdigest, SHA512.hmac.
  generalize (bytes_of_string m). generalize (bytes_of_string k). intros kb mb.
  match goal with |- context [SHA512.digest ?x] => generalize x end.
  intros l. unfold SHA512.digest.
  match goal with |- context [fold_left SHA512.compress ?a ?b] =>
    generalize (fold_left SHA512.compress a b) end.
  intros s. reflexivity.
Qed.

Lemma same_but_logs_add (l : list (level * log_msg)) (w : World) :
  same_but_logs w (add_logs l w).
Proof. repeat split. Qed.

Lemma add_logs_nil (w : World) : add_logs [] w = w.
Proof. destruct w. unfold add_logs. cbn. by rewrite app_nil_r. Qed.

Lemma verify_ipn_signature_run (env : Env) (data signature : string) (w : World) :
  exists l, verify_ipn_signature env data signature w =
    (add_logs l w,
     inr (match IPN_SECRET_KEY env with
          | Some k => (signature =? hmac_sha512_hexdigest k data)%string
          | None => false
          end))
    /\ (match IPN_SECRET_KEY env with
        | Some k => (signature =? hmac_sha512_hexdigest k data)%string
        | None => false
        end = true -> l = []).
Proof.
  unfold verify_ipn_signature, try_except, bind, or_raise, compare_digest.
  destruct (IPN_SECRET_KEY env) as [k |]; cbn.
  - rewrite hmac_hexdigest_ascii, andb_true_r.
    destruct (is_ascii signature) eqn:Ha; cbn.
    + exists []. by rewrite add_logs_nil.
    + exists [(ERROR, Error_verifying_signature TypeError)]. split.
      * f_equal. f_equal.
        destruct (String.eqb_spec signature (hmac_sha512_hexdigest k data)) as [-> |]; [| done].
        by rewrite hmac_hexdigest_ascii in Ha.
      * destruct (String.eqb_spec signature (hmac_sha512_hexdigest k data)) as [-> |]; [| done].
        by rewrite hmac_hexdigest_ascii in Ha.
  - exists [(ERROR, Error_verifying_signature AttributeError)]. split; [done | done].
Qed.

(** C3: [verify_ipn_signature] never raises and leaves the state alone
    (it only logs); it answers [True] exactly when the secret is set and
    the signature is the hexadecimal HMAC-SHA512 of the data under it, so
    it answers [False] when the secret is missing, when the header is not
    ASCII, and on a mismatch. *)
Theorem verify_ipn_signature_correct (env : Env) (data signature : string) (w : World) :
  exists (w' : World) (b : bool),
    verify_ipn_signature env data signature w = (w', inr b)
    /\ same_but_logs w w'
    /\ (b = true <->
        exists k, IPN_SECRET_KEY env = Some k /\ signature = hmac_sha512_hexdigest k data)
    /\ (IPN_SECRET_KEY env = None -> b = false)
    /\ (is_ascii signature = false -> b = false)
    /\ (forall k, IPN_SECRET_KEY env = Some k ->
                  signature <> hmac_sha512_hexdigest k data -> b = false).
Proof.
  destruct (verify_ipn_signature_run env data signature w) as (l & Hrun & _).
  eexists _, _. split; [exact Hrun |]. split; [apply same_but_logs_add |].
  destruct (IPN_SECRET_KEY env) as [k |].
  - destruct (String.eqb_spec signature (hmac_sha512_hexdigest k data)) as [Heq | Hne].
    + repeat split; try done.
      * intros _. by exists k.
      * intros Hna. by rewrite Heq, hmac_hexdigest_ascii in Hna.
      * intros k' [= <-] Hk'. done.
    + repeat split; try done.
      intros (k' & [= <-] & Hk'). done.
  - repeat split; try done. intros (k' & Hk' & _). done.
Qed.

(** ** The order id *)

Lemma add_logs_app (l1 l2 : list (level * log_msg)) (w : World) :
  add_logs l2 (add_logs l1 w) = add_logs (l1 ++ l2) w.
Proof. unfold add_logs. cbn. by rewrite app_assoc. Qed.

Lemma parse_order_id_world (v : value) (w : World) :
  parse_order_id v w =
  (add_logs (logs (fst (parse_order_id v empty_world))) w,
   snd (parse_order_id v empty_world)).
Proof.
  unfold parse_order_id, try_except, bind, or_raise, ret, raise, log.
  destruct v as [| b | n | s]; cbn; try by rewrite add_logs_nil.
  destruct (split_on "_" s) as [| p0 [| p1 [| p2 [| p3 rest]]]]; cbn; try done.
  destruct (p0 =? "hack")%string, (p1 =? "academy")%string; cbn; try done.
  destruct (py_int p2); cbn; [by rewrite add_logs_nil | done].
Qed.

Lemma order_of_Some (v : value) (x : Z * string) (w : World) :
  order_of v = Some x -> parse_order_id v w = (w, inr (inr x)).
Proof.
  unfold order_of. rewrite (parse_order_id_world v w).
  unfold parse_order_id, try_except, bind, or_raise, ret, raise, log.
  destruct v as [| b | n | s]; cbn; try done.
  destruct (split_on "_" s) as [| p0 [| p1 [| p2 [| p3 rest]]]]; cbn; try done.
  destruct (p0 =? "hack")%string, (p1 =? "academy")%string; cbn; try done.
  destruct (py_int p2); cbn; [| done].
  intros [= <-]. by rewrite add_logs_nil.
Qed.

Lemma order_of_Some_truthy (v : value) (x : Z * string) :
  order_of v = Some x -> truthy v = true.
Proof.
  unfold order_of, parse_order_id, try_except, bind, or_raise, ret, raise, log.
  destruct v as [| b | n | s]; cbn; try done.
  destruct s; [done | reflexivity].
Qed.

(** The order ids that decode: [hack_academy_<integer>_<plan>], with
    anything after a further underscore. *)
Lemma order_of_spec (v : value) (uid : Z) (plan : string) :
  order_of v = Some (uid, plan) <->
  exists s p2 rest,
    v = VStr s
    /\ split_on "_" s = "hack" :: "academy" :: p2 :: plan :: rest
    /\ py_int p2 = Some uid.
Proof.
  unfold order_of, parse_order_id, try_except, bind, or_raise, ret, raise, log.
  split.
  - destruct v as [| b | n | s]; cbn; try done.
    destruct (split_on "_" s) as [| p0 [| p1 [| p2 [| p3 rest]]]] eqn:Hsplit;
      cbn; try done.
    destruct (String.eqb_spec p0 "hack") as [-> |]; cbn; [| done].
    destruct (String.eqb_spec p1 "academy") as [-> |]; cbn; [| done].
    destruct (py_int p2) as [n |] eqn:Hint; cbn; [| done].
    intros [= <- <-]. by exists s, p2, rest.
  - intros (s & p2 & rest & -> & Hsplit & Hint). cbn. rewrite Hsplit. cbn.
    by rewrite Hint.
Qed.

(** An order id that does not decode ends the handler early: with a 400
    response when it is a string, with [AttributeError] otherwise. *)
Lemma order_of_None (v : value) (w : World) :
  order_of v = None ->
  exists l, (exists msg, parse_order_id v w = (add_logs l w, inr (inl (error_response msg 400)))
                         /\ exists s, v = VStr s)
            \/ (parse_order_id v w = (add_logs l w, inl AttributeError)
                /\ forall s, v <> VStr s).
Proof.
  unfold order_of. rewrite (parse_order_id_world v w).
  unfold parse_order_id, try_except, bind, or_raise, ret, raise, log.
  destruct v as [| b | n | s]; cbn; try (intros _; eexists; right; split; done).
  destruct (split_on "_" s) as [| p0 [| p1 [| p2 [| p3 rest]]]]; cbn;
    try (intros _; eexists; left; eexists; split; [reflexivity | by eexists]).
  destruct (p0 =? "hack")%string, (p1 =? "academy")%string; cbn;
    try (intros _; eexists; left; eexists; split; [reflexivity | by eexists]).
  destruct (py_int p2); cbn; [done |].
  intros _; eexists; left; eexists; split; [reflexivity | by eexists].
Qed.

Lemma last_two {A : Type} (l : list A) (a b : A) : last (l ++ [a; b]) = Some b.
Proof. change [a; b] with ([a] ++ [b]). rewrite app_assoc. apply last_snoc. Qed.

(** The two answers to a string that does not decode: the user id is no
    integer, or the string has not the four parts or not the prefix. *)
Lemma order_of_None_str (s : string) (w : World) :
  order_of (VStr s) = None ->
  (exists p2 p3 rest,
      split_on "_" s = "hack" :: "academy" :: p2 :: p3 :: rest
      /\ py_int p2 = None
      /\ parse_order_id (VStr s) w
         = (add_logs [(ERROR, Error_parsing_order_id (VStr s) ValueError)] w,
            inr (inl (error_response "Error parsing order_id" 400))))
  \/ ((forall p2 p3 rest, split_on "_" s <> "hack" :: "academy" :: p2 :: p3 :: rest)
      /\ parse_order_id (VStr s) w
         = (add_logs [(ERROR, Invalid_order_id_format (VStr s))] w,
            inr (inl (error_response "Invalid order_id format" 400)))).
Proof.
  unfold order_of, parse_order_id, try_except, bind, or_raise, ret, raise, log. cbn.
  destruct (split_on "_" s) as [| p0 [| p1 [| p2 [| p3 rest]]]] eqn:Hsplit; cbn;
    try (intros _; right; split; [intros ? ? ?; discriminate | reflexivity]).
  destruct (String.eqb_spec p0 "hack") as [-> | Hp0]; cbn;
    [| intros _; right; split; [intros ? ? ? [= ? ?]; done | reflexivity]].
  destruct (String.eqb_spec p1 "academy") as [-> | Hp1]; cbn;
    [| intros _; right; split; [intros ? ? ? [= ? ?]; done | reflexivity]].
  destruct (py_int p2) as [n |] eqn:Hint; cbn; [done |].
  intros _. left. exists p2, p3, rest. done.
Qed.

(** ** Granting access and activating *)

(** [add_user_to_channel] never raises and touches neither collection. *)
Lemma add_user_to_channel_run (env : Env) (uid : Z) (plan : string) (w : World) :
  exists (w' : World) (b : bool),
    add_user_to_channel env uid plan w = (w', inr b)
    /\ users w' = users w /\ payments w' = payments w /\ jobs w' = jobs w
    /\ db_ops w' = db_ops w.
Proof.
  unfold add_user_to_channel. unfold_monad.
  destruct (plans !! plan) as [info |]; cbn; [| by eexists _, _].
  destruct (channels env !! channel info) as [[chat |] |]; cbn; try by eexists _, _.
  destruct (chat =? EmptyString)%string; cbn; [by eexists _, _ |].
  destruct (telegram_answers env (length (tg_calls w)) _); cbn; [| by eexists _, _].
  destruct (telegram_answers env _ _); cbn; by eexists _, _.
Qed.

(** The grant when the plan is known, its channel is configured and the
    two Telegram calls answer. *)
Lemma add_user_to_channel_granted (env : Env) (uid : Z) (plan : string) (w : World)
    (info : plan_info) (chat : string) :
  plans !! plan = Some info ->
  channels env !! channel info = Some (Some chat) ->
  chat <> EmptyString ->
  (forall n c, telegram_answers env n c = true) ->
  add_user_to_channel env uid plan w =
  (mkWorld (users w) (payments w) ({[ (chat, uid) ]} ∪ members w)
           ((tg_calls w ++ [(UnbanChatMember chat uid, true)])
              ++ [(SendMessage uid (Welcome (name info)
                                      (clock env (clock_reads w) + timedelta_days 30)), true)])
           (jobs w) (logs w) (S (clock_reads w)) (db_ops w),
   inr true).
Proof.
  intros Hplan Hchan Hne Htg.
  unfold add_user_to_channel. unfold_monad. rewrite Hplan. cbn. rewrite Hchan. cbn.
  destruct (String.eqb_spec chat EmptyString) as [-> |]; [done |]. cbn.
  rewrite !Htg. cbn. rewrite ?Htg. reflexivity.
Qed.

(** [handle_successful_payment] never raises; it leaves the payments and
    the jobs alone, and the users too unless it answers [True]. *)
Lemma handle_successful_payment_run (env : Env) (uid : Z) (plan : string) (w : World) :
  exists (w' : World) (b : bool),
    handle_successful_payment env uid plan w = (w', inr b)
    /\ payments w' = payments w /\ jobs w' = jobs w
    /\ (users w' = users w
        \/ b = true /\ exists start finish,
             users w' = update_one (by_user_id uid) (activate plan start finish) (users w)).
Proof.
  unfold handle_successful_payment.
  destruct (add_user_to_channel_run env uid plan w)
    as (wa & b & Hrun & Hu & Hp & Hj & Hdb).
  unfold try_except at 1. unfold bind at 1. rewrite Hrun.
  destruct b; unfold_monad; cbn.
  - destruct (mongo_answers env (db_ops wa)); cbn.
    + eexists _, _. split; [reflexivity |]. cbn. rewrite Hu, Hp, Hj.
      split; [done |]. split; [done |]. right. split; [done |]. by eexists _, _.
    + eexists _, _. split; [reflexivity |]. cbn. rewrite Hu, Hp, Hj. auto.
  - eexists _, _. split; [reflexivity |]. auto.
Qed.

(** The two ways in which [handle_successful_payment] answers [False]:
    the grant fails, or the store raises on the activation. *)
Lemma handle_successful_payment_fails (env : Env) (uid : Z) (plan : string) (w : World) :
  snd (add_user_to_channel env uid plan w) = inr false
  \/ mongo_answers env (db_ops w) = false ->
  exists w' : World,
    handle_successful_payment env uid plan w = (w', inr false)
    /\ users w' = users w /\ payments w' = payments w /\ jobs w' = jobs w
    /\ tg_calls w' = tg_calls (fst (add_user_to_channel env uid plan w))
    /\ members w' = members (fst (add_user_to_channel env uid plan w)).
Proof.
  intros Hfail. unfold handle_successful_payment.
  destruct (add_user_to_channel_run env uid plan w)
    as (wa & b & Hrun & Hu & Hp & Hj & Hdb).
  unfold try_except at 1. unfold bind at 1. rewrite Hrun in *. cbn [fst snd] in *.
  destruct b; unfold_monad; cbn.
  - destruct Hfail as [[=] | Hm]. rewrite Hdb, Hm. cbn.
    eexists. split; [reflexivity |]. cbn. auto.
  - eexists. split; [reflexivity |]. auto.
Qed.

(** The activation itself, when the grant succeeded and the store answers. *)
Lemma handle_successful_payment_activates (env : Env) (uid : Z) (plan : string)
    (w wa : World) :
  add_user_to_channel env uid plan w = (wa, inr true) ->
  mongo_answers env (db_ops w) = true ->
  handle_successful_payment env uid plan w =
  (mkWorld (update_one (by_user_id uid)
                       (activate plan (clock env (S (clock_reads wa)))
                                 (clock env (clock_reads wa) + timedelta_days 30))
                       (users w))
           (payments w) (members wa) (tg_calls wa) (jobs w)
           (logs wa ++ [(INFO, Successfully_activated uid plan)])
           (S (S (clock_reads wa))) (S (db_ops w)),
   inr true).
Proof.
  intros Hrun Hm. unfold handle_successful_payment.
  destruct (add_user_to_channel_run env uid plan w)
    as (wa' & b & Hrun' & Hu & Hp & Hj & Hdb).
  rewrite Hrun in Hrun'. injection Hrun' as <- <-.
  unfold try_except at 1. unfold bind at 1. rewrite Hrun.
  unfold_monad; cbn. rewrite Hdb, Hm. cbn. by rewrite Hu, Hp, Hj.
Qed.

(** ** The handler on an accepted callback *)

Lemma bind_ok {A B : Type} (c : M A) (k : A -> M B) (w w' : World) (a : A) :
  c w = (w', inr a) -> bind c k w = k a w'.
Proof. intros H. unfold bind. by rewrite H. Qed.

Lemma bind_raise {A B : Type} (c : M A) (k : A -> M B) (w w' : World) (e : exn) :
  c w = (w', inl e) -> bind c k w = (w', inl e).
Proof. intros H. unfold bind. by rewrite H. Qed.

Lemma try_ok {A : Type} (caught : exn -> bool) (c : M A) (h : exn -> M A)
    (w w' : World) (a : A) :
  c w = (w', inr a) -> try_except caught c h w = (w', inr a).
Proof. intros H. unfold try_except. by rewrite H. Qed.

Lemma try_caught {A : Type} (c : M A) (h : exn -> M A) (w w' : World) (e : exn) :
  c w = (w', inl e) -> try_except Exception c h w = h e w'.
Proof. intros H. unfold try_except. by rewrite H. Qed.

Lemma verify_valid (env : Env) (req : Request) (w : World) (k : string) :
  IPN_SECRET_KEY env = Some k ->
  verify_ipn_signature env (raw_body req) (hmac_sha512_hexdigest k (raw_body req)) w
  = (w, inr true).
Proof.
  intros Hk.
  destruct (verify_ipn_signature_run env (raw_body req)
              (hmac_sha512_hexdigest k (raw_body req)) w) as (l & Hrun & Hl).
  rewrite Hk, String.eqb_refl in *. rewrite Hl in Hrun by done.
  by rewrite add_logs_nil in Hrun.
Qed.

(** The part of the handler that follows the signature check and the
    JSON parsing. *)
Lemma payment_webhook_signed (env : Env) (req : Request) (w : World)
    (d : gmap string value) :
  validly_signed env req ->
  json_body req = Some (Some d) ->
  payment_webhook env req w =
  try_except Exception
    (log INFO (Received_webhook (Some d)) ;;
     if negb (truthy (dict_get d "order_id")) then
       log ERROR No_order_id ;; ret (error_response "No order_id" 400)
     else
       parsed <- parse_order_id (dict_get d "order_id") ;;
       match parsed with
       | inl early => ret early
       | inr (uid, plan) =>
           t <- now env ;;
           payments_update_one env (by_payment_id (dict_get d "payment_id"))
                               (record_callback (dict_get d "payment_status") d t) ;;
           (if value_in (dict_get d "payment_status") ["finished"; "confirmed"] then
              log INFO (Payment_confirmed uid plan) ;;
              success <- handle_successful_payment env uid plan ;;
              if success then log INFO (Successfully_processed uid)
              else log ERROR (Failed_to_process uid)
            else if value_in (dict_get d "payment_status") ["failed"; "refunded"; "expired"] then
              log INFO (Payment_not_completed (dict_get d "payment_status") uid plan)
            else ret tt) ;;
           ret success_response
       end)
    (fun e =>
       log ERROR (Error_processing_webhook e) ;;
       ret (error_response "Internal server error" 500)) w.
Proof.
  intros (k & Hk & Hsig) Hjson. unfold payment_webhook.
  rewrite Hsig, hmac_hexdigest_nonempty, Hjson.
  unfold try_except. rewrite (bind_ok _ _ _ _ _ (verify_valid env req w k Hk)).
  reflexivity.
Qed.

Lemma payment_webhook_accepted (env : Env) (req : Request) (w : World)
    (d : gmap string value) (uid : Z) (plan : string) :
  validly_signed env req ->
  json_body req = Some (Some d) ->
  order_of (dict_get d "order_id") = Some (uid, plan) ->
  mongo_answers env (db_ops w) = true ->
  payment_webhook env req w =
  (if value_in (dict_get d "payment_status") ["finished"; "confirmed"] then
     let r := handle_successful_payment env uid plan (confirmed_world env d uid plan w) in
     add_logs [outcome_entry uid (snd r)] (fst r)
   else if value_in (dict_get d "payment_status") ["failed"; "refunded"; "expired"] then
     add_logs [(INFO, Payment_not_completed (dict_get d "payment_status") uid plan)]
              (recorded env d w)
   else recorded env d w,
   inr success_response).
Proof.
  intros Hsig Hjson Horder Hm.
  rewrite (payment_webhook_signed env req w d Hsig Hjson).
  apply try_ok.
  rewrite (order_of_Some_truthy _ _ Horder). cbn [negb].
  unfold bind at 1. cbn [log].
  rewrite (bind_ok _ _ _ _ _ (order_of_Some _ _ _ Horder)).
  erewrite bind_ok; [| reflexivity].
  erewrite bind_ok;
    [| unfold payments_update_one, mongo, set_payments; cbn; rewrite Hm; reflexivity].
  fold (recorded env d w).
  destruct (value_in (dict_get d "payment_status") ["finished"; "confirmed"]).
  - destruct (handle_successful_payment_run env uid plan (confirmed_world env d uid plan w))
      as (w2 & b & Hrun & _).
    rewrite Hrun. cbn [fst snd].
    erewrite bind_ok; [reflexivity |].
    erewrite bind_ok; [| reflexivity].
    fold (add_logs [(INFO, Payment_confirmed uid plan)] (recorded env d w)).
    fold (confirmed_world env d uid plan w).
    rewrite (bind_ok _ _ _ _ _ Hrun).
    destruct b; reflexivity.
  - destruct (value_in (dict_get d "payment_status") ["failed"; "refunded"; "expired"]).
    + reflexivity.
    + unfold bind, ret, recorded, add_logs. cbn. reflexivity.
Qed.

(** ** Updates of a collection *)

Lemma find_one_update_one {A : Type} (flt : A -> bool) (upd : A -> A) (l : list A) :
  (forall x, flt x = true -> flt (upd x) = true) ->
  find_one flt (update_one flt upd l) = upd <$> find_one flt l.
Proof.
  intros Hkeep. unfold find_one. induction l as [| x r IH]; [reflexivity |].
  cbn. destruct (flt x) eqn:Hx; cbn.
  - by rewrite (Hkeep x Hx).
  - by rewrite Hx.
Qed.

Lemma update_one_no_match {A : Type} (flt : A -> bool) (upd : A -> A) (l : list A) :
  find_one flt l = None -> update_one flt upd l = l.
Proof.
  unfold find_one. induction l as [| x r IH]; [reflexivity |].
  cbn. destruct (flt x); [done |]. intros H. by rewrite IH.
Qed.

Lemma update_one_absorb {A : Type} (flt : A -> bool) (f g : A -> A) (l : list A) :
  (forall x, flt x = true -> flt (f x) = true) ->
  (forall x, g (f x) = g x) ->
  update_one flt g (update_one flt f l) = update_one flt g l.
Proof.
  intros Hkeep Hgf. induction l as [| x r IH]; [reflexivity |].
  cbn. destruct (flt x) eqn:Hx; cbn.
  - by rewrite (Hkeep x Hx), Hgf.
  - by rewrite Hx, IH.
Qed.

Lemma by_payment_id_record (pid st : value) (d : gmap string value) (t : time) (p : Payment) :
  by_payment_id pid (record_callback st d t p) = by_payment_id pid p.
Proof. reflexivity. Qed.

Lemma by_user_id_activate (uid : Z) (plan : string) (s f : time) (u : User) :
  by_user_id uid (activate plan s f u) = by_user_id uid u.
Proof. reflexivity. Qed.

(** ** A failed grant *)

(** C9: when the grant or the activation of a confirmed or finished
    payment fails, the handler still answers 200 with status success; the
    payment record was given the status of the callback before the grant
    was attempted, the users are as they were, and the failure shows in
    the log only.  The grant fails when [add_user_to_channel] answers
    [False]; the activation fails when the store raises on the update of
    the user, its second operation in the handler. *)
Theorem failed_activation_still_acknowledged (env : Env) (req : Request) (w : World)
    (d : gmap string value) (uid : Z) (plan : string) :
  validly_signed env req ->
  json_body req = Some (Some d) ->
  order_of (dict_get d "order_id") = Some (uid, plan) ->
  value_in (dict_get d "payment_status") ["finished"; "confirmed"] = true ->
  mongo_answers env (db_ops w) = true ->
  snd (add_user_to_channel env uid plan (confirmed_world env d uid plan w)) = inr false
  \/ mongo_answers env (S (db_ops w)) = false ->
  exists w' : World,
    payment_webhook env req w = (w', inr success_response)
    /\ payments (confirmed_world env d uid plan w) = payments w'
    /\ payments w' =
       update_one (by_payment_id (dict_get d "payment_id"))
                  (record_callback (dict_get d "payment_status") d (clock env (clock_reads w)))
                  (payments w)
    /\ (forall p, find_one (by_payment_id (dict_get d "payment_id")) (payments w) = Some p ->
                  exists p', find_one (by_payment_id (dict_get d "payment_id")) (payments w')
                             = Some p'
                             /\ p_status p' = dict_get d "payment_status")
    /\ users w' = users w
    /\ last (logs w') = Some (ERROR, Failed_to_process uid).
Proof.
  intros Hsig Hjson Horder Hst Hm Hfail.
  rewrite (payment_webhook_accepted env req w d uid plan Hsig Hjson Horder Hm), Hst.
  destruct (handle_successful_payment_fails env uid plan (confirmed_world env d uid plan w) Hfail)
    as (w2 & Hrun & Hu & Hp & _).
  cbv zeta. rewrite Hrun. cbn [fst snd outcome_entry].
  eexists. split; [reflexivity |]. cbn [add_logs payments users logs].
  rewrite Hp, Hu. repeat split.
  - intros p Hfind. eexists. split.
    + cbn [confirmed_world recorded add_logs payments].
      rewrite find_one_update_one by done. rewrite Hfind. reflexivity.
    + reflexivity.
  - apply last_snoc.
Qed.

Lemma failed_activation_still_acknowledged_witness :
  exists w' : World,
    payment_webhook (demo_env false) confirmed100 (demo_world "waiting")
    = (w', inr success_response)
    /\ payments (confirmed_world (demo_env false)
                   (callback_object "p-100" "confirmed" "hack_academy_42_mid_171700000")
                   42 "mid" (demo_world "waiting")) = payments w'
    /\ payments w' =
       update_one (by_payment_id (dict_get (callback_object "p-100" "confirmed"
                                              "hack_academy_42_mid_171700000") "payment_id"))
                  (record_callback
                     (dict_get (callback_object "p-100" "confirmed"
                                  "hack_academy_42_mid_171700000") "payment_status")
                     (callback_object "p-100" "confirmed" "hack_academy_42_mid_171700000")
                     (clock (demo_env false) (clock_reads (demo_world "waiting"))))
                  (payments (demo_world "waiting"))
    /\ (forall p,
          find_one (by_payment_id (dict_get (callback_object "p-100" "confirmed"
                                               "hack_academy_42_mid_171700000") "payment_id"))
                   (payments (demo_world "waiting")) = Some p ->
          exists p',
            find_one (by_payment_id (dict_get (callback_object "p-100" "confirmed"
                                                 "hack_academy_42_mid_171700000") "payment_id"))
                     (payments w') = Some p'
            /\ p_status p' = dict_get (callback_object "p-100" "confirmed"
                                         "hack_academy_42_mid_171700000") "payment_status")
    /\ users w' = users (demo_world "waiting")
    /\ last (logs w') = Some (ERROR, Failed_to_process 42).
Proof.
  apply (failed_activation_still_acknowledged (demo_env false) confirmed100
           (demo_world "waiting")
           (callback_object "p-100" "confirmed" "hack_academy_42_mid_171700000") 42 "mid").
  - exists "s3cr3t". split; reflexivity.
  - reflexivity.
  - vm_compute. reflexivity.
  - vm_compute. reflexivity.
  - reflexivity.
  - left. vm_compute. reflexivity.
Defined.

(** The calls [add_user_to_channel] issues: at most one unban. *)
Lemma add_user_to_channel_calls (env : Env) (uid : Z) (plan : string) (w : World) :
  exists l, tg_calls (fst (add_user_to_channel env uid plan w)) = tg_calls w ++ l
            /\ (length (List.filter is_unban l) <= 1)%nat.
Proof.
  unfold add_user_to_channel. unfold_monad.
  assert (Hnone : forall l : list (tg_call * bool),
             exists l', l = l ++ l' /\ (length (List.filter is_unban l') <= 1)%nat).
  { intros l. exists []. split; [by rewrite app_nil_r | cbn; lia]. }
  destruct (plans !! plan) as [info |]; cbn; [| apply Hnone].
  destruct (channels env !! channel info) as [[chat |] |]; cbn; try apply Hnone.
  destruct (chat =? EmptyString)%string; cbn; [apply Hnone |].
  destruct (telegram_answers env (length (tg_calls w)) _); cbn.
  - destruct (telegram_answers env _ _); cbn; eexists; rewrite <- app_assoc;
      (split; [reflexivity | cbn; lia]).
  - eexists. split; [reflexivity | cbn; lia].
Qed.

(** C2, as the code has it: when the grant fails the handler has tried it
    once and does not try again: the payment record has the status of
    the callback, no user is changed, no job is queued, the failure is
    the last line of the log, and the answer is 200 with status
    success. *)
Theorem failed_grant_is_not_retried (env : Env) (req : Request) (w : World)
    (d : gmap string value) (uid : Z) (plan : string) :
  validly_signed env req ->
  json_body req = Some (Some d) ->
  order_of (dict_get d "order_id") = Some (uid, plan) ->
  value_in (dict_get d "payment_status") ["finished"; "confirmed"] = true ->
  mongo_answers env (db_ops w) = true ->
  snd (add_user_to_channel env uid plan (confirmed_world env d uid plan w)) = inr false ->
  exists w' : World,
    payment_webhook env req w = (w', inr success_response)
    /\ payments w' =
       update_one (by_payment_id (dict_get d "payment_id"))
                  (record_callback (dict_get d "payment_status") d (clock env (clock_reads w)))
                  (payments w)
    /\ (forall p, find_one (by_payment_id (dict_get d "payment_id")) (payments w) = Some p ->
                  exists p', find_one (by_payment_id (dict_get d "payment_id")) (payments w')
                             = Some p'
                             /\ p_status p' = dict_get d "payment_status")
    /\ users w' = users w
    /\ jobs w' = jobs w
    /\ (exists l, tg_calls w' = tg_calls w ++ l
                  /\ (length (List.filter is_unban l) <= 1)%nat)
    /\ last (logs w') = Some (ERROR, Failed_to_process uid).
Proof.
  intros Hsig Hjson Horder Hst Hm Hfail.
  rewrite (payment_webhook_accepted env req w d uid plan Hsig Hjson Horder Hm), Hst.
  destruct (handle_successful_payment_fails env uid plan (confirmed_world env d uid plan w)
              (or_introl Hfail)) as (w2 & Hrun & Hu & Hp & Hj & Htg & _).
  cbv zeta. rewrite Hrun. cbn [fst snd outcome_entry].
  eexists. split; [reflexivity |]. cbn [add_logs payments users jobs tg_calls logs].
  rewrite Hp, Hu, Hj, Htg.
  split; [reflexivity |]. split.
  { intros p Hfind. eexists. split.
    - cbn [confirmed_world recorded add_logs payments].
      rewrite find_one_update_one by done. rewrite Hfind. reflexivity.
    - reflexivity. }
  split; [reflexivity |]. split; [reflexivity |]. split.
  - exact (add_user_to_channel_calls env uid plan (confirmed_world env d uid plan w)).
  - apply last_snoc.
Qed.

Lemma failed_grant_is_not_retried_witness :
  exists w' : World,
    payment_webhook (demo_env false) confirmed100 (demo_world "waiting")
    = (w', inr success_response)
    /\ payments w' =
       update_one (by_payment_id (dict_get (callback_object "p-100" "confirmed" "hack_academy_42_mid_171700000") "payment_id"))
                  (record_callback
                     (dict_get (callback_object "p-100" "confirmed" "hack_academy_42_mid_171700000") "payment_status")
                     (callback_object "p-100" "confirmed" "hack_academy_42_mid_171700000")
                     (clock (demo_env false) (clock_reads (demo_world "waiting"))))
                  (payments (demo_world "waiting"))
    /\ (forall p,
          find_one (by_payment_id (dict_get (callback_object "p-100" "confirmed" "hack_academy_42_mid_171700000") "payment_id"))
                   (payments (demo_world "waiting")) = Some p ->
          exists p',
            find_one (by_payment_id (dict_get (callback_object "p-100" "confirmed" "hack_academy_42_mid_171700000") "payment_id")) (payments w') = Some p'
            /\ p_status p' = dict_get (callback_object "p-100" "confirmed" "hack_academy_42_mid_171700000") "payment_status")
    /\ users w' = users (demo_world "waiting")
    /\ jobs w' = jobs (demo_world "waiting")
    /\ (exists l, tg_calls w' = tg_calls (demo_world "waiting") ++ l
                  /\ (length (List.filter is_unban l) <= 1)%nat)
    /\ last (logs w') = Some (ERROR, Failed_to_process 42).
Proof.
  apply (failed_grant_is_not_retried (demo_env false) confirmed100 (demo_world "waiting")
           (callback_object "p-100" "confirmed" "hack_academy_42_mid_171700000") 42 "mid").
  - exists "s3cr3t". split; reflexivity.
  - reflexivity.
  - vm_compute. reflexivity.
  - vm_compute. reflexivity.
  - reflexivity.
  - vm_compute. reflexivity.
Defined.

(** C2 fails as stated: the channel API raises, and the handler ends with
    the payment confirmed, user 42 not active, one failed unban and
    nothing queued to try again. *)
Lemma failed_grant_left_silent :
  let w' := fst (payment_webhook (demo_env false) confirmed100 (demo_world "waiting")) in
  snd (payment_webhook (demo_env false) confirmed100 (demo_world "waiting"))
  = inr success_response
  /\ p_status <$> find_one (by_payment_id (VStr "p-100")) (payments w')
     = Some (VStr "confirmed")
  /\ status <$> find_one (by_user_id 42) (users w') = Some None
  /\ tg_calls w' = [(UnbanChatMember "-1002" 42, false)]
  /\ jobs w' = [].
Proof. vm_compute. repeat split. Qed.

(** ** A callback for a payment that was never recorded *)




(** ** Order ids that do not decode *)

(** C4, as the code has it: a validly signed callback whose order id is
    missing, empty, or a string that is not of the form
    [hack_academy_<integer>_<plan>...] changes no state, and the answer
    is an error with status 400, not the success acknowledgement.  The
    message is [No order_id] for a missing or empty order id,
    [Error parsing order_id] when the four parts and the prefix are
    there and the user id is no integer, [Invalid order_id format]
    otherwise; the same error is the last line of the log. *)
Theorem malformed_order_id_rejected (env : Env) (req : Request) (w : World)
    (d : gmap string value) :
  validly_signed env req ->
  json_body req = Some (Some d) ->
  order_of (dict_get d "order_id") = None ->
  truthy (dict_get d "order_id") = false \/ (exists s, dict_get d "order_id" = VStr s) ->
  exists (w' : World) (msg : string),
    payment_webhook env req w = (w', inr (error_response msg 400))
    /\ error_response msg 400 <> success_response
    /\ same_but_logs w w'
    /\ (truthy (dict_get d "order_id") = false
        /\ msg = "No order_id"
        /\ last (logs w') = Some (ERROR, No_order_id)
        \/ truthy (dict_get d "order_id") = true
           /\ exists s,
                dict_get d "order_id" = VStr s
                /\ ((exists p2 p3 rest,
                        split_on "_" s = "hack" :: "academy" :: p2 :: p3 :: rest
                        /\ py_int p2 = None
                        /\ msg = "Error parsing order_id"
                        /\ last (logs w')
                           = Some (ERROR, Error_parsing_order_id (VStr s) ValueError))
                    \/ ((forall p2 p3 rest,
                            split_on "_" s <> "hack" :: "academy" :: p2 :: p3 :: rest)
                        /\ msg = "Invalid order_id format"
                        /\ last (logs w') = Some (ERROR, Invalid_order_id_format (VStr s))))).
Proof.
  intros Hsig Hjson Horder Hshape.
  rewrite (payment_webhook_signed env req w d Hsig Hjson).
  destruct (truthy (dict_get d "order_id")) eqn:Htruthy; cbn [negb].
  - destruct Hshape as [[=] | (s & Hs)]. rewrite Hs in *.
    destruct (order_of_None_str s (add_logs [(INFO, Received_webhook (Some d))] w) Horder)
      as [(p2 & p3 & rest & Hsplit & Hint & Hrun) | (Hsplit & Hrun)].
    + eexists _, _. split.
      * apply try_ok. unfold bind at 1. cbn [log].
        fold (add_logs [(INFO, Received_webhook (Some d))] w).
        rewrite (bind_ok _ _ _ _ _ Hrun). reflexivity.
      * split; [discriminate |].
        split; [rewrite add_logs_app; apply same_but_logs_add |].
        right. split; [reflexivity |]. exists s. split; [reflexivity |].
        left. exists p2, p3, rest. repeat split; [exact Hsplit | exact Hint |].
        rewrite add_logs_app. cbn [add_logs logs app]. apply last_two.
    + eexists _, _. split.
      * apply try_ok. unfold bind at 1. cbn [log].
        fold (add_logs [(INFO, Received_webhook (Some d))] w).
        rewrite (bind_ok _ _ _ _ _ Hrun). reflexivity.
      * split; [discriminate |].
        split; [rewrite add_logs_app; apply same_but_logs_add |].
        right. split; [reflexivity |]. exists s. split; [reflexivity |].
        right. repeat split; [exact Hsplit |].
        rewrite add_logs_app. cbn [add_logs logs app]. apply last_two.
  - eexists _, _. split; [reflexivity |].
    split; [discriminate |]. split; [repeat split |].
    left. repeat split. cbn. rewrite <- app_assoc. apply last_two.
Qed.

Lemma malformed_order_id_rejected_witness :
  exists (w' : World) (msg : string),
    payment_webhook (demo_env true) malformed100 (demo_world "waiting")
    = (w', inr (error_response msg 400))
    /\ error_response msg 400 <> success_response
    /\ same_but_logs (demo_world "waiting") w'
    /\ (truthy (dict_get (callback_object "p-100" "confirmed" "order-42-mid") "order_id") = false
        /\ msg = "No order_id"
        /\ last (logs w') = Some (ERROR, No_order_id)
        \/ truthy (dict_get (callback_object "p-100" "confirmed" "order-42-mid") "order_id")
           = true
           /\ exists s,
                dict_get (callback_object "p-100" "confirmed" "order-42-mid") "order_id"
                = VStr s
                /\ ((exists p2 p3 rest,
                        split_on "_" s = "hack" :: "academy" :: p2 :: p3 :: rest
                        /\ py_int p2 = None
                        /\ msg = "Error parsing order_id"
                        /\ last (logs w')
                           = Some (ERROR, Error_parsing_order_id (VStr s) ValueError))
                    \/ ((forall p2 p3 rest,
                            split_on "_" s <> "hack" :: "academy" :: p2 :: p3 :: rest)
                        /\ msg = "Invalid order_id format"
                        /\ last (logs w') = Some (ERROR, Invalid_order_id_format (VStr s))))).
Proof.
  apply (malformed_order_id_rejected (demo_env true) malformed100 (demo_world "waiting")
           (callback_object "p-100" "confirmed" "order-42-mid")).
  - exists "s3cr3t". split; reflexivity.
  - reflexivity.
  - vm_compute. reflexivity.
  - right. exists "order-42-mid". vm_compute. reflexivity.
Defined.

(** C4 fails as stated: the order id [order-42-mid] is answered with
    status 400 and an error body, not with the success acknowledgement. *)
Lemma malformed_order_id_not_acknowledged :
  snd (payment_webhook (demo_env true) malformed100 (demo_world "waiting"))
  = inr (error_response "Invalid order_id format" 400)
  /\ error_response "Invalid order_id format" 400 <> success_response.
Proof. split; [vm_compute; reflexivity | discriminate]. Qed.

(** ** The status of a payment record *)

(** C5, as the code has it: an accepted callback writes its status into
    the payment record with its payment id, whatever status the record
    had; the other records are not touched. *)
Theorem payment_status_is_overwritten (env : Env) (req : Request) (w : World)
    (d : gmap string value) (uid : Z) (plan : string) :
  validly_signed env req ->
  json_body req = Some (Some d) ->
  order_of (dict_get d "order_id") = Some (uid, plan) ->
  mongo_answers env (db_ops w) = true ->
  exists w' : World,
    payment_webhook env req w = (w', inr success_response)
    /\ payments w' =
       update_one (by_payment_id (dict_get d "payment_id"))
                  (record_callback (dict_get d "payment_status") d (clock env (clock_reads w)))
                  (payments w)
    /\ forall p, find_one (by_payment_id (dict_get d "payment_id")) (payments w) = Some p ->
                 exists p', find_one (by_payment_id (dict_get d "payment_id")) (payments w')
                            = Some p'
                            /\ p_status p' = dict_get d "payment_status".
Proof.
  intros Hsig Hjson Horder Hm.
  rewrite (payment_webhook_accepted env req w d uid plan Hsig Hjson Horder Hm).
  assert (Hp : exists w' : World,
             (if value_in (dict_get d "payment_status") ["finished"; "confirmed"] then
                let r := handle_successful_payment env uid plan
                           (confirmed_world env d uid plan w) in
                add_logs [outcome_entry uid (snd r)] (fst r)
              else if value_in (dict_get d "payment_status") ["failed"; "refunded"; "expired"]
                   then add_logs [(INFO, Payment_not_completed (dict_get d "payment_status")
                                           uid plan)] (recorded env d w)
                   else recorded env d w) = w'
             /\ payments w' = payments (recorded env d w)).
  { destruct (value_in (dict_get d "payment_status") ["finished"; "confirmed"]).
    - destruct (handle_successful_payment_run env uid plan (confirmed_world env d uid plan w))
        as (w2 & b & Hrun & Hp & _).
      cbv zeta. rewrite Hrun. eexists. split; [reflexivity |]. exact Hp.
    - destruct (value_in (dict_get d "payment_status") ["failed"; "refunded"; "expired"]);
        by eexists. }
  destruct Hp as (w' & -> & Hp). exists w'. split; [reflexivity |].
  rewrite Hp. cbn [recorded payments]. split; [reflexivity |].
  intros p Hfind. eexists. split.
  - rewrite find_one_update_one by done. rewrite Hfind. reflexivity.
  - reflexivity.
Qed.

Lemma payment_status_is_overwritten_witness :
  exists w' : World,
    payment_webhook (demo_env true) failed100 (demo_world "confirmed")
    = (w', inr success_response)
    /\ payments w' =
       update_one (by_payment_id (dict_get (callback_object "p-100" "failed"
                                              "hack_academy_42_mid_171700000") "payment_id"))
                  (record_callback
                     (dict_get (callback_object "p-100" "failed"
                                  "hack_academy_42_mid_171700000") "payment_status")
                     (callback_object "p-100" "failed" "hack_academy_42_mid_171700000")
                     (clock (demo_env true) (clock_reads (demo_world "confirmed"))))
                  (payments (demo_world "confirmed"))
    /\ forall p,
         find_one (by_payment_id (dict_get (callback_object "p-100" "failed"
                                              "hack_academy_42_mid_171700000") "payment_id"))
                  (payments (demo_world "confirmed")) = Some p ->
         exists p',
           find_one (by_payment_id (dict_get (callback_object "p-100" "failed"
                                                "hack_academy_42_mid_171700000") "payment_id"))
                    (payments w') = Some p'
           /\ p_status p' = dict_get (callback_object "p-100" "failed"
                                        "hack_academy_42_mid_171700000") "payment_status".
Proof.
  apply (payment_status_is_overwritten (demo_env true) failed100 (demo_world "confirmed")
           (callback_object "p-100" "failed" "hack_academy_42_mid_171700000") 42 "mid").
  - exists "s3cr3t". split; reflexivity.
  - reflexivity.
  - vm_compute. reflexivity.
  - reflexivity.
Defined.

(** C5 fails as stated: payment p-100 is confirmed, a callback with the
    status failed arrives, and the record ends with the status failed. *)
Lemma confirmed_payment_reverts :
  p_status <$> find_one (by_payment_id (VStr "p-100")) (payments (demo_world "confirmed"))
  = Some (VStr "confirmed")
  /\ p_status <$> find_one (by_payment_id (VStr "p-100"))
                    (payments (fst (payment_webhook (demo_env true) failed100
                                      (demo_world "confirmed"))))
     = Some (VStr "failed").
Proof. split; vm_compute; reflexivity. Qed.

(** ** Repeated deliveries *)

Lemma add_user_to_channel_true (env : Env) (uid : Z) (plan : string) (w wa : World) :
  add_user_to_channel env uid plan w = (wa, inr true) ->
  clock_reads wa = S (clock_reads w).
Proof.
  unfold add_user_to_channel. unfold_monad.
  destruct (plans !! plan) as [info |]; cbn; [| intros H; discriminate H].
  destruct (channels env !! channel info) as [[chat |] |]; cbn;
    try (intros H; discriminate H).
  destruct (chat =? EmptyString)%string; cbn; [intros H; discriminate H |].
  destruct (telegram_answers env (length (tg_calls w)) _); cbn;
    [| intros H; discriminate H].
  destruct (telegram_answers env _ _); cbn; [| intros H; discriminate H].
  intros [= <-]. reflexivity.
Qed.

(** One delivery of an accepted callback, the store answering. *)
Lemma one_delivery (env : Env) (req : Request) (w : World)
    (d : gmap string value) (uid : Z) (plan : string) :
  validly_signed env req ->
  json_body req = Some (Some d) ->
  order_of (dict_get d "order_id") = Some (uid, plan) ->
  (forall k, mongo_answers env k = true) ->
  snd (payment_webhook env req w) = inr success_response
  /\ payments (fst (payment_webhook env req w)) =
     update_one (by_payment_id (dict_get d "payment_id"))
                (record_callback (dict_get d "payment_status") d (clock env (clock_reads w)))
                (payments w)
  /\ jobs (fst (payment_webhook env req w)) = jobs w
  /\ users (fst (payment_webhook env req w))
     = (if activating env d uid plan w
        then update_one (by_user_id uid)
                        (activate plan (clock env (3 + clock_reads w))
                                  (clock env (2 + clock_reads w) + 30 * microseconds_per_day))
                        (users w)
        else users w).
Proof.
  intros Hsig Hjson Horder Hm.
  rewrite (payment_webhook_accepted env req w d uid plan Hsig Hjson Horder (Hm _)).
  cbn [fst snd]. split; [reflexivity |]. unfold activating.
  destruct (value_in (dict_get d "payment_status") ["finished"; "confirmed"]); cbn [andb].
  - cbv zeta.
    destruct (add_user_to_channel_run env uid plan (confirmed_world env d uid plan w))
      as (wa & b & Hrun & _).
    rewrite Hrun. cbn [snd]. destruct b.
    + rewrite bool_decide_eq_true_2 by reflexivity.
      rewrite (handle_successful_payment_activates env uid plan _ _ Hrun (Hm _)).
      rewrite (add_user_to_channel_true env uid plan _ _ Hrun).
      cbn [fst snd add_logs payments jobs users confirmed_world recorded clock_reads].
      done.
    + rewrite bool_decide_eq_false_2 by discriminate.
      destruct (handle_successful_payment_fails env uid plan
                  (confirmed_world env d uid plan w))
        as (w2 & Hrun2 & Hu & Hp & Hj & _).
      { left. by rewrite Hrun. }
      rewrite Hrun2. cbn [fst snd add_logs payments jobs users]. rewrite Hu, Hp, Hj. done.
  - destruct (value_in (dict_get d "payment_status") ["failed"; "refunded"; "expired"]);
      cbn; auto.
Qed.

Lemma forget_updated_at_update_one (flt : Payment -> bool) (st : value)
    (d : gmap string value) (t t' : time) (l : list Payment) :
  map forget_updated_at (update_one flt (record_callback st d t) l)
  = map forget_updated_at (update_one flt (record_callback st d t') l).
Proof.
  induction l as [| x r IH]; [reflexivity |].
  cbn. destruct (flt x); cbn; [reflexivity | by rewrite IH].
Qed.

(** C1, as the code has it: there is no guard on the status a payment
    record already has.  Every delivery of an accepted callback is
    answered with the success acknowledgement and is processed again.
    After [m + 1] deliveries the payment record has the status of the
    callback and, as [updated_at], the time of the last delivery; apart
    from [updated_at] the payments are those after one delivery; no job
    is queued.  The last delivery rewrites the user whenever it is
    activating: the status is active, the start is the time of the
    activation of that delivery and the end thirty days after the time
    it read for it; otherwise it leaves the users as they were.  So the
    users after [m + 1] deliveries are those after one delivery unless a
    later delivery was activating, and then they carry the start and the
    end of that later delivery. *)
Theorem redelivery_is_processed_again (env : Env) (req : Request) (w : World)
    (d : gmap string value) (uid : Z) (plan : string) (m : nat) :
  validly_signed env req ->
  json_body req = Some (Some d) ->
  order_of (dict_get d "order_id") = Some (uid, plan) ->
  (forall k, mongo_answers env k = true) ->
  (forall k, snd (payment_webhook env req (deliver env req k w)) = inr success_response)
  /\ payments (deliver env req (S m) w) =
     update_one (by_payment_id (dict_get d "payment_id"))
                (record_callback (dict_get d "payment_status") d
                                 (clock env (clock_reads (deliver env req m w))))
                (payments w)
  /\ (forall p, find_one (by_payment_id (dict_get d "payment_id")) (payments w) = Some p ->
                exists p', find_one (by_payment_id (dict_get d "payment_id"))
                                    (payments (deliver env req (S m) w)) = Some p'
                           /\ p_status p' = dict_get d "payment_status"
                           /\ updated_at p' = Some (clock env (clock_reads (deliver env req m w))))
  /\ map forget_updated_at (payments (deliver env req (S m) w))
     = map forget_updated_at (payments (deliver env req 1 w))
  /\ jobs (deliver env req (S m) w) = jobs w
  /\ (activating env d uid plan (deliver env req m w) = false ->
      users (deliver env req (S m) w) = users (deliver env req m w))
  /\ (activating env d uid plan (deliver env req m w) = true ->
      users (deliver env req (S m) w)
      = update_one (by_user_id uid)
                   (activate plan (clock env (3 + clock_reads (deliver env req m w)))
                             (clock env (2 + clock_reads (deliver env req m w))
                              + 30 * microseconds_per_day))
                   (users (deliver env req m w))
      /\ forall u, find_one (by_user_id uid) (users w) = Some u ->
           exists u', find_one (by_user_id uid) (users (deliver env req (S m) w)) = Some u'
                      /\ status u' = Some "active"
                      /\ subscription_plan u' = Some plan
                      /\ subscription_start u'
                         = Some (clock env (3 + clock_reads (deliver env req m w)))
                      /\ subscription_end u'
                         = Some (clock env (2 + clock_reads (deliver env req m w))
                                 + 30 * microseconds_per_day))
  /\ (users (deliver env req (S m) w) = users (deliver env req 1 w)
      \/ exists j, (1 <= j <= m)%nat
           /\ activating env d uid plan (deliver env req j w) = true
           /\ users (deliver env req (S m) w)
              = update_one (by_user_id uid)
                           (activate plan (clock env (3 + clock_reads (deliver env req j w)))
                                     (clock env (2 + clock_reads (deliver env req j w))
                                      + 30 * microseconds_per_day))
                           (users (deliver env req 1 w))).
Proof.
  intros Hsig Hjson Horder Hm.
  pose proof (fun w0 => one_delivery env req w0 d uid plan Hsig Hjson Horder Hm) as Hone.
  assert (Hpay : forall k,
             payments (deliver env req (S k) w) =
             update_one (by_payment_id (dict_get d "payment_id"))
                        (record_callback (dict_get d "payment_status") d
                                         (clock env (clock_reads (deliver env req k w))))
                        (payments w)).
  { induction k as [| k IH].
    - apply (Hone w).
    - destruct (Hone (deliver env req (S k) w)) as (_ & Hp & _).
      change (deliver env req (S (S k)) w)
        with (fst (payment_webhook env req (deliver env req (S k) w))).
      rewrite Hp, IH. by apply update_one_absorb. }
  assert (Hjobs : forall k, jobs (deliver env req k w) = jobs w).
  { induction k as [| k IH]; [reflexivity |].
    destruct (Hone (deliver env req k w)) as (_ & _ & Hj & _).
    cbn [deliver]. by rewrite Hj. }
  assert (Hstep : forall k,
             users (deliver env req (S k) w)
             = (if activating env d uid plan (deliver env req k w)
                then update_one (by_user_id uid)
                       (activate plan (clock env (3 + clock_reads (deliver env req k w)))
                                 (clock env (2 + clock_reads (deliver env req k w))
                                  + 30 * microseconds_per_day))
                       (users (deliver env req k w))
                else users (deliver env req k w))).
  { intros k. apply (Hone (deliver env req k w)). }
  assert (Hfind : forall u, find_one (by_user_id uid) (users w) = Some u ->
             forall k, exists u0, find_one (by_user_id uid) (users (deliver env req k w))
                                  = Some u0).
  { intros u Hu. induction k as [| k [u0 IH]]; [by exists u |].
    rewrite Hstep. destruct (activating env d uid plan (deliver env req k w)).
    - rewrite find_one_update_one by done. rewrite IH. by eexists.
    - by exists u0. }
  split; [intros k; apply (Hone (deliver env req k w)) |].
  split; [apply Hpay |].
  split.
  { intros p Hp. rewrite Hpay, find_one_update_one by done. rewrite Hp.
    eexists. split; [reflexivity |]. done. }
  split; [rewrite !Hpay; apply forget_updated_at_update_one |].
  split; [apply Hjobs |].
  split; [intros Hact; by rewrite Hstep, Hact |].
  split.
  { intros Hact. rewrite Hstep, Hact. split; [reflexivity |].
    intros u Hu. destruct (Hfind u Hu m) as [u0 Hu0].
    rewrite find_one_update_one by done. rewrite Hu0.
    eexists. split; [reflexivity |]. done. }
  clear Hpay Hjobs Hfind.
  induction m as [| m IH]; [by left |].
  rewrite (Hstep (S m)).
  destruct (activating env d uid plan (deliver env req (S m) w)) eqn:Hact.
  - right. exists (S m). split; [lia |]. split; [exact Hact |].
    destruct IH as [-> | (j & _ & _ & ->)]; [reflexivity |].
    by apply update_one_absorb.
  - destruct IH as [IH | (j & Hj & Hactj & IH)]; [by left |].
    right. exists j. split; [lia |]. by split.
Qed.

Lemma redelivery_is_processed_again_witness :
  let env := demo_env true in
  let w := demo_world "waiting" in
  let d := callback_object "p-100" "confirmed" "hack_academy_42_mid_171700000" in
  (forall k, snd (payment_webhook env confirmed100 (deliver env confirmed100 k w)) = inr success_response)
  /\ payments (deliver env confirmed100 2 w) =
     update_one (by_payment_id (dict_get d "payment_id"))
                (record_callback (dict_get d "payment_status") d
                                 (clock env (clock_reads (deliver env confirmed100 1 w))))
                (payments w)
  /\ (forall p, find_one (by_payment_id (dict_get d "payment_id")) (payments w) = Some p ->
                exists p', find_one (by_payment_id (dict_get d "payment_id"))
                                    (payments (deliver env confirmed100 2 w)) = Some p'
                           /\ p_status p' = dict_get d "payment_status"
                           /\ updated_at p' = Some (clock env (clock_reads (deliver env confirmed100 1 w))))
  /\ map forget_updated_at (payments (deliver env confirmed100 2 w))
     = map forget_updated_at (payments (deliver env confirmed100 1 w))
  /\ jobs (deliver env confirmed100 2 w) = jobs w
  /\ (activating env d 42 "mid" (deliver env confirmed100 1 w) = false ->
      users (deliver env confirmed100 2 w) = users (deliver env confirmed100 1 w))
  /\ (activating env d 42 "mid" (deliver env confirmed100 1 w) = true ->
      users (deliver env confirmed100 2 w)
      = update_one (by_user_id 42)
                   (activate "mid" (clock env (3 + clock_reads (deliver env confirmed100 1 w)))
                             (clock env (2 + clock_reads (deliver env confirmed100 1 w))
                              + 30 * microseconds_per_day))
                   (users (deliver env confirmed100 1 w))
      /\ forall u, find_one (by_user_id 42) (users w) = Some u ->
           exists u', find_one (by_user_id 42) (users (deliver env confirmed100 2 w)) = Some u'
                      /\ status u' = Some "active"
                      /\ subscription_plan u' = Some "mid"
                      /\ subscription_start u'
                         = Some (clock env (3 + clock_reads (deliver env confirmed100 1 w)))
                      /\ subscription_end u'
                         = Some (clock env (2 + clock_reads (deliver env confirmed100 1 w))
                                 + 30 * microseconds_per_day))
  /\ (users (deliver env confirmed100 2 w) = users (deliver env confirmed100 1 w)
      \/ exists j, (1 <= j <= 1)%nat
           /\ activating env d 42 "mid" (deliver env confirmed100 j w) = true
           /\ users (deliver env confirmed100 2 w)
              = update_one (by_user_id 42)
                           (activate "mid" (clock env (3 + clock_reads (deliver env confirmed100 j w)))
                                     (clock env (2 + clock_reads (deliver env confirmed100 j w))
                                      + 30 * microseconds_per_day))
                           (users (deliver env confirmed100 1 w))).
Proof.
  intros env w d.
  apply (redelivery_is_processed_again (demo_env true) confirmed100 (demo_world "waiting")
           (callback_object "p-100" "confirmed" "hack_academy_42_mid_171700000") 42 "mid" 1).
  - exists "s3cr3t". split; reflexivity.
  - reflexivity.
  - vm_compute. reflexivity.
  - intros k. reflexivity.
Defined.

(** C1 fails as stated: the second delivery of the confirmed callback of
    p-100 is answered with success, but it moves the end of the
    subscription of user 42 and the [updated_at] of the payment, so the
    state after two deliveries is not the state after one. *)
Lemma second_delivery_changes_state :
  let w1 := deliver (demo_env true) confirmed100 1 (demo_world "waiting") in
  let w2 := deliver (demo_env true) confirmed100 2 (demo_world "waiting") in
  p_status <$> find_one (by_payment_id (VStr "p-100")) (payments w1) = Some (VStr "confirmed")
  /\ snd (payment_webhook (demo_env true) confirmed100 w1) = inr success_response
  /\ users w2 <> users w1
  /\ payments w2 <> payments w1
  /\ subscription_end <$> find_one (by_user_id 42) (users w1)
     = Some (Some (1717000002000000 + timedelta_days 30))
  /\ subscription_end <$> find_one (by_user_id 42) (users w2)
     = Some (Some (1717000006000000 + timedelta_days 30)).
Proof.
  vm_compute. repeat split; intros H; discriminate H.
Qed.

(** ** Administration: extend, revoke, cleanup *)

Lemma in_range_true (base : time) (days : Z) :
  in_range base days = true ->
  (Z.abs days <=? max_timedelta_days) = true
  /\ ((datetime_min <=? base + timedelta_days days)
      && (base + timedelta_days days <=? datetime_max)) = true.
Proof.
  unfold in_range. intros H. apply andb_true_iff in H as [H H3].
  apply andb_true_iff in H as [H1 H2]. by rewrite H1, H2, H3.
Qed.

Lemma in_range_false (base : time) (days : Z) :
  in_range base days = false ->
  (Z.abs days <=? max_timedelta_days) = false
  \/ (Z.abs days <=? max_timedelta_days) = true
     /\ ((datetime_min <=? base + timedelta_days days)
         && (base + timedelta_days days <=? datetime_max)) = false.
Proof.
  unfold in_range. destruct (Z.abs days <=? max_timedelta_days); [| by left].
  cbn. intros H. right. done.
Qed.

Lemma extend_subscription_run (env : Env) (uid days : Z) (w : World) (u : User) :
  find_one (by_user_id uid) (users w) = Some u ->
  mongo_answers env (db_ops w) = true ->
  mongo_answers env (S (db_ops w)) = true ->
  in_range (match subscription_end u with
            | Some current_end => current_end
            | None => clock env (clock_reads w)
            end) days = true ->
  exists w' : World,
    extend_subscription env uid days w = (w', inr tt)
    /\ users w' =
       update_one (by_user_id uid)
                  (extended (match subscription_end u with
                             | Some current_end => current_end
                             | None => clock env (clock_reads w)
                             end + timedelta_days days))
                  (users w)
    /\ db_ops w' = S (S (db_ops w))
    /\ payments w' = payments w /\ members w' = members w
    /\ tg_calls w' = tg_calls w /\ jobs w' = jobs w.
Proof.
  intros Hu Hm1 Hm2 Hr. apply in_range_true in Hr as [Hd Hr].
  unfold extend_subscription, timedelta, datetime_add. unfold_monad.
  rewrite Hm1. cbn. rewrite Hu.
  destruct (subscription_end u) as [current_end |]; cbn; rewrite Hd; cbn; rewrite Hr; cbn;
    rewrite Hm2; cbn; eexists; (split; [reflexivity | done]).
Qed.

Lemma extend_subscription_overflow (env : Env) (uid days : Z) (w : World) (u : User) :
  find_one (by_user_id uid) (users w) = Some u ->
  mongo_answers env (db_ops w) = true ->
  in_range (match subscription_end u with
            | Some current_end => current_end
            | None => clock env (clock_reads w)
            end) days = false ->
  exists w' : World,
    extend_subscription env uid days w = (w', inl OverflowError)
    /\ users w' = users w /\ logs w' = logs w
    /\ payments w' = payments w /\ members w' = members w
    /\ tg_calls w' = tg_calls w /\ jobs w' = jobs w.
Proof.
  intros Hu Hm1 Hr.
  unfold extend_subscription, timedelta, datetime_add. unfold_monad.
  rewrite Hm1. cbn. rewrite Hu.
  destruct (in_range_false _ _ Hr) as [Hd | [Hd Hr']];
    destruct (subscription_end u) as [current_end |]; cbn; rewrite Hd; cbn;
    rewrite ?Hr'; cbn; eexists; (split; [reflexivity | done]).
Qed.

(** C7, within the range of dates: for an existing user,
    [extend_subscription] sets the end of the subscription to the
    current end plus [days] days when there is one, to now plus [days]
    days otherwise, and sets the status to active, provided [days] is a
    number of days a [timedelta] can hold (at most 999999999 in
    absolute value) and the new end is a date between year 1 and year
    9999.  For every other [days] it raises [OverflowError] before the
    update, prints nothing, and leaves every user as it was. *)
Theorem extend_subscription_sets_end (env : Env) (uid days : Z) (w : World) (u : User) :
  find_one (by_user_id uid) (users w) = Some u ->
  mongo_answers env (db_ops w) = true ->
  mongo_answers env (S (db_ops w)) = true ->
  (Z.abs days <= 999999999
   /\ datetime_min <= match subscription_end u with
                      | Some current_end => current_end + days * microseconds_per_day
                      | None => clock env (clock_reads w) + days * microseconds_per_day
                      end <= datetime_max ->
   exists (w' : World) (u' : User),
     extend_subscription env uid days w = (w', inr tt)
     /\ find_one (by_user_id uid) (users w') = Some u'
     /\ subscription_end u' =
        Some (match subscription_end u with
              | Some current_end => current_end + days * microseconds_per_day
              | None => clock env (clock_reads w) + days * microseconds_per_day
              end)
     /\ status u' = Some "active")
  /\ (~ (Z.abs days <= 999999999
         /\ datetime_min <= match subscription_end u with
                            | Some current_end => current_end + days * microseconds_per_day
                            | None => clock env (clock_reads w) + days * microseconds_per_day
                            end <= datetime_max) ->
      exists w' : World,
        extend_subscription env uid days w = (w', inl OverflowError)
        /\ users w' = users w /\ logs w' = logs w).
Proof.
  intros Hu Hm1 Hm2.
  set (base := match subscription_end u with
               | Some current_end => current_end
               | None => clock env (clock_reads w)
               end).
  assert (Hbase : match subscription_end u with
                  | Some current_end => current_end + days * microseconds_per_day
                  | None => clock env (clock_reads w) + days * microseconds_per_day
                  end = base + timedelta_days days).
  { unfold base. by destruct (subscription_end u). }
  rewrite Hbase.
  assert (Hiff : in_range base days = true
                 <-> Z.abs days <= 999999999
                     /\ datetime_min <= base + timedelta_days days <= datetime_max).
  { unfold in_range, max_timedelta_days. rewrite !andb_true_iff, !Z.leb_le. tauto. }
  split.
  - intros Hr. apply Hiff in Hr.
    destruct (extend_subscription_run env uid days w u Hu Hm1 Hm2 Hr)
      as (w' & Hrun & Hus & _).
    exists w', (extended (base + timedelta_days days) u).
    split; [exact Hrun |]. rewrite Hus, find_one_update_one by done. rewrite Hu. done.
  - intros Hr.
    assert (Hf : in_range base days = false).
    { destruct (in_range base days); [| reflexivity]. destruct Hr. by apply Hiff. }
    destruct (extend_subscription_overflow env uid days w u Hu Hm1 Hf)
      as (w' & Hrun & Hus & Hl & _).
    by exists w'.
Qed.

Lemma extend_subscription_sets_end_witness :
  exists (w' : World) (u' : User),
    extend_subscription (demo_env true) 42 10 active_world = (w', inr tt)
    /\ find_one (by_user_id 42) (users w') = Some u'
    /\ subscription_end u' =
       Some (1717000001000000 + timedelta_days 30 + 10 * microseconds_per_day)
    /\ status u' = Some "active".
Proof.
  apply (extend_subscription_sets_end (demo_env true) 42 10 active_world active42);
    vm_compute; try reflexivity.
  repeat split; intros H; discriminate H.
Defined.

(** C7 fails without the bound: an extension by 3000000 days of a
    revoked user whose subscription ends in 2024 raises [OverflowError]
    (the new end would be past year 9999); the end of the subscription
    is not moved and the status is not set to active. *)
Lemma extend_subscription_overflows :
  let w := fst (revoke_access (demo_env true) 42 active_world) in
  let r := extend_subscription (demo_env true) 42 3000000 w in
  (status <$> find_one (by_user_id 42) (users w),
   subscription_end <$> find_one (by_user_id 42) (users w))
  = (Some (Some "revoked"), Some (Some (1717000001000000 + 30 * microseconds_per_day)))
  /\ snd r = inl OverflowError
  /\ status <$> find_one (by_user_id 42) (users (fst r)) = Some (Some "revoked")
  /\ subscription_end <$> find_one (by_user_id 42) (users (fst r))
     <> Some (Some (1717000001000000 + 30 * microseconds_per_day
                    + 3000000 * microseconds_per_day))
  /\ users (fst r) = users w.
Proof.
  vm_compute. repeat split. intros H. discriminate H.
Qed.

(** C6, as the code has it: for an existing user, [revoke_access] sets
    the status to revoked and records the time; it does not call the
    channel and does not touch the jobs of the scheduler, so the
    membership and a pending expiry stay as they were. *)
Theorem revoke_access_marks_revoked (env : Env) (uid : Z) (w : World) (u : User) :
  find_one (by_user_id uid) (users w) = Some u ->
  mongo_answers env (db_ops w) = true ->
  exists (w' : World) (u' : User),
    revoke_access env uid w = (w', inr tt)
    /\ find_one (by_user_id uid) (users w') = Some u'
    /\ status u' = Some "revoked"
    /\ revoked_at u' = Some (clock env (clock_reads w))
    /\ users w' = update_one (by_user_id uid) (revoked (clock env (clock_reads w))) (users w)
    /\ members w' = members w
    /\ tg_calls w' = tg_calls w
    /\ jobs w' = jobs w.
Proof.
  intros Hu Hm.
  unfold revoke_access. unfold_monad. cbn. rewrite Hm. cbn.
  destruct (modified_one (by_user_id uid) (revoked (clock env (clock_reads w))) (users w));
    cbn.
  - eexists _, _. split; [reflexivity |]. cbn.
    rewrite find_one_update_one by done. rewrite Hu. cbn. done.
  - eexists _, _. split; [reflexivity |]. cbn.
    rewrite find_one_update_one by done. rewrite Hu. cbn. done.
Qed.

Lemma revoke_access_marks_revoked_witness :
  exists (w' : World) (u' : User),
    revoke_access (demo_env true) 42 active_world = (w', inr tt)
    /\ find_one (by_user_id 42) (users w') = Some u'
    /\ status u' = Some "revoked"
    /\ revoked_at u' = Some (clock (demo_env true) (clock_reads active_world))
    /\ users w' = update_one (by_user_id 42)
                             (revoked (clock (demo_env true) (clock_reads active_world)))
                             (users active_world)
    /\ members w' = members active_world
    /\ tg_calls w' = tg_calls active_world
    /\ jobs w' = jobs active_world.
Proof.
  apply (revoke_access_marks_revoked (demo_env true) 42 active_world active42);
    vm_compute; reflexivity.
Defined.

(** C6 fails as stated: user 42 is active, in the channel of the plan
    mid, with an expiry job pending; after [revoke_access] the status is
    revoked, but the user is still in the channel, no ban was sent, and
    the job is still there. *)
Lemma revoke_access_keeps_membership_and_job :
  let w' := fst (revoke_access (demo_env true) 42 active_world) in
  status <$> find_one (by_user_id 42) (users active_world) = Some (Some "active")
  /\ status <$> find_one (by_user_id 42) (users w') = Some (Some "revoked")
  /\ ("-1002", 42) ∈ members w'
  /\ tg_calls w' = tg_calls active_world
  /\ Forall (fun c => forall ch, fst c <> BanChatMember ch 42) (tg_calls w')
  /\ jobs w' = [mkJob "expiry_42_mid" (1717000001000000 + timedelta_days 30) 42 "mid"].
Proof.
  vm_compute. repeat split. repeat constructor; discriminate.
Qed.

(** C8: [cleanup_expired] marks as expired exactly the users that were
    active with an end of subscription before now: each of them gets the
    status expired and the time of the cleanup in [expired_at], with
    nothing else changed, and every other user is left as it was. *)
Theorem cleanup_expired_exact (env : Env) (w : World) :
  mongo_answers env (db_ops w) = true ->
  exists w' : World,
    cleanup_expired env w = (w', inr tt)
    /\ length (users w') = length (users w)
    /\ forall (i : nat) (u : User),
         users w !! i = Some u ->
         (status u = Some "active"
          /\ (exists e, subscription_end u = Some e /\ e < clock env (clock_reads w)) ->
          exists u', users w' !! i = Some u'
                     /\ status u' = Some "expired"
                     /\ expired_at u' = Some (clock env (S (clock_reads w)))
                     /\ u' = expired (clock env (S (clock_reads w))) u)
         /\ (~ (status u = Some "active"
                /\ exists e, subscription_end u = Some e /\ e < clock env (clock_reads w)) ->
             users w' !! i = Some u).
Proof.
  intros Hm. unfold cleanup_expired. unfold_monad. cbn. rewrite Hm. cbn.
  eexists. split; [reflexivity |]. cbn. unfold update_many.
  split; [by rewrite length_map |].
  intros i u Hi. rewrite list_lookup_fmap, Hi. cbn. unfold overdue. split.
  - intros (Hst & e & He & Hlt). rewrite He, Hst.
    rewrite bool_decide_eq_true_2 by done.
    destruct (Z.ltb_spec e (clock env (clock_reads w))); [| lia].
    cbn. eexists. split; [reflexivity |]. done.
  - intros Hnot. destruct (subscription_end u) as [e |] eqn:He; [| done].
    destruct (Z.ltb_spec e (clock env (clock_reads w))); [| done].
    cbn. case_bool_decide; [| done]. destruct Hnot. split; [done |]. by exists e.
Qed.

Lemma cleanup_expired_exact_witness :
  exists w' : World,
    cleanup_expired (demo_env true) overdue_world = (w', inr tt)
    /\ length (users w') = length (users overdue_world)
    /\ forall (i : nat) (u : User),
         users overdue_world !! i = Some u ->
         (status u = Some "active"
          /\ (exists e, subscription_end u = Some e
                        /\ e < clock (demo_env true) (clock_reads overdue_world)) ->
          exists u', users w' !! i = Some u'
                     /\ status u' = Some "expired"
                     /\ expired_at u' = Some (clock (demo_env true)
                                                (S (clock_reads overdue_world)))
                     /\ u' = expired (clock (demo_env true)
                                        (S (clock_reads overdue_world))) u)
         /\ (~ (status u = Some "active"
                /\ exists e, subscription_end u = Some e
                             /\ e < clock (demo_env true) (clock_reads overdue_world)) ->
             users w' !! i = Some u).
Proof.
  apply (cleanup_expired_exact (demo_env true) overdue_world). reflexivity.
Defined.

(** ** Worked examples *)

(** The signature check on the callback of p-100: the right signature is
    accepted; one changed character in the body or in the signature, or a
    missing secret, and it is refused. *)
Example verify_accepts_signed :
  snd (verify_ipn_signature (demo_env true) (raw_body confirmed100)
         (hmac_sha512_hexdigest "s3cr3t" (raw_body confirmed100)) empty_world)
  = inr true.
Proof. vm_compute. reflexivity. Qed.

Example verify_rejects_changed_body :
  snd (verify_ipn_signature (demo_env true) (raw_body failed100)
         (hmac_sha512_hexdigest "s3cr3t" (raw_body confirmed100)) empty_world)
  = inr false.
Proof. vm_compute. reflexivity. Qed.

Example verify_rejects_changed_signature :
  snd (verify_ipn_signature (demo_env true) (raw_body confirmed100)
         (String "0" (hmac_sha512_hexdigest "s3cr3t" (raw_body confirmed100))) empty_world)
  = inr false.
Proof. vm_compute. reflexivity. Qed.

Example verify_without_secret :
  verify_ipn_signature
    (mkEnv None None None None (fun _ => 0) (fun _ _ => true) (fun _ => true))
    (raw_body confirmed100) (hmac_sha512_hexdigest "s3cr3t" (raw_body confirmed100))
    empty_world
  = (add_logs [(ERROR, Error_verifying_signature AttributeError)] empty_world, inr false).
Proof. vm_compute. reflexivity. Qed.

(** The scenario of the specification: the confirmed callback of p-100
    makes the payment confirmed and user 42 active on the plan mid for 30
    days, in the channel of that plan. *)
Example confirmed_callback_activates :
  let w' := fst (payment_webhook (demo_env true) confirmed100 (demo_world "waiting")) in
  snd (payment_webhook (demo_env true) confirmed100 (demo_world "waiting"))
  = inr success_response
  /\ p_status <$> find_one (by_payment_id (VStr "p-100")) (payments w')
     = Some (VStr "confirmed")
  /\ find_one (by_user_id 42) (users w')
     = Some (activate "mid" 1717000003000000 (1717000002000000 + timedelta_days 30) user42)
  /\ ("-1002", 42) ∈ members w'.
Proof. vm_compute. repeat split. Qed.

(** An order id with a plan that does not exist passes the parsing: the
    payment record is updated, the grant fails on the lookup of the plan,
    and the answer is the success acknowledgement. *)
Example unknown_plan_is_recorded :
  let w' := fst (payment_webhook (demo_env true) unknown_plan100 (demo_world "waiting")) in
  order_of (VStr "hack_academy_42_gold_171700000") = Some (42, "gold")
  /\ snd (payment_webhook (demo_env true) unknown_plan100 (demo_world "waiting"))
     = inr success_response
  /\ p_status <$> find_one (by_payment_id (VStr "p-100")) (payments w')
     = Some (VStr "confirmed")
  /\ users w' = [user42]
  /\ In (ERROR, Error_adding_user_to_channel KeyError) (logs w').
Proof. vm_compute. repeat split. auto 10. Qed.

(** A non-string order id ends in the [except] clause of the handler. *)
Example numeric_order_id_is_an_internal_error :
  snd (payment_webhook (demo_env true)
         (mkRequest (Some (hmac_sha512_hexdigest "s3cr3t" "{}")) "{}"
                    (Some (Some (list_to_map [("order_id", VInt 7)]))))
         (demo_world "waiting"))
  = inr (error_response "Internal server error" 500).
Proof. vm_compute. reflexivity. Qed.

(** The activation of the bot schedules the expiry. *)
Example bot_activation_schedules_expiry :
  jobs active_world = [mkJob "expiry_42_mid" (1717000001000000 + timedelta_days 30) 42 "mid"]
  /\ find_one (by_user_id 42) (users active_world) = Some active42.
Proof. vm_compute. repeat split. Qed.

(** After a revocation the expiry job is still there; when it runs, it
    bans the user and writes the status expired over revoked. *)
Example stale_expiry_overrides_revocation :
  let w1 := fst (revoke_access (demo_env true) 42 active_world) in
  let w2 := fst (TelegramBot.handle_subscription_expiry (demo_env true) 42 "mid" w1) in
  status <$> find_one (by_user_id 42) (users w1) = Some (Some "revoked")
  /\ status <$> find_one (by_user_id 42) (users w2) = Some (Some "expired")
  /\ ("-1002", 42) ∈ members w1
  /\ ("-1002", 42) ∉ members w2.
Proof.
  vm_compute. repeat split. intros H. discriminate H.
Qed.

(** When the store raises on the activation, the grant has been made and
    the handler still acknowledges. *)
Example store_failure_on_activation :
  let env := mkEnv (Some "s3cr3t") (Some "-1001") (Some "-1002") (Some "-1003")
                   (fun n => 1717000000000000 + 1000000 * Z.of_nat n)
                   (fun _ _ => true) (fun n => (n =? 0)%nat) in
  let w' := fst (payment_webhook env confirmed100 (demo_world "waiting")) in
  snd (payment_webhook env confirmed100 (demo_world "waiting")) = inr success_response
  /\ p_status <$> find_one (by_payment_id (VStr "p-100")) (payments w')
     = Some (VStr "confirmed")
  /\ users w' = [user42]
  /\ ("-1002", 42) ∈ members w'
  /\ last (logs w') = Some (ERROR, Failed_to_process 42).
Proof. vm_compute. repeat split. Qed.

(** The second delivery of the confirmed callback of p-100 is activating,
    as the first is. *)
Example second_delivery_is_activating :
  activating (demo_env true)
             (callback_object "p-100" "confirmed" "hack_academy_42_mid_171700000") 42 "mid"
             (demo_world "waiting") = true
  /\ activating (demo_env true)
                (callback_object "p-100" "confirmed" "hack_academy_42_mid_171700000") 42 "mid"
                (deliver (demo_env true) confirmed100 1 (demo_world "waiting")) = true.
Proof. vm_compute. repeat split. Qed.

(** [int] as the handler applies it to the user id of an order id.  It
    reads the digits of other scripts (Arabic-Indic U+0664 U+0662,
    full-width U+FF14 U+FF12), skips Unicode spaces (U+00A0, U+0085)
    and ASCII whitespace around the number, and takes a sign and single
    underscores between digits. *)
Example int_reads :
  py_int (text_of_bytes [217; 164; 217; 162]) = Some 42
  /\ py_int (text_of_bytes [239; 188; 148; 239; 188; 146]) = Some 42
  /\ py_int (text_of_bytes [194; 160; 52; 50; 194; 133]) = Some 42
  /\ py_int (text_of_bytes [11; 52; 50; 12]) = Some 42
  /\ py_int " +4_2 " = Some 42
  /\ py_int "-007" = Some (-7).
Proof. vm_compute. repeat split. Qed.

(** It refuses the separator bytes 0x1c to 0x1f around the number, a
    double, leading or trailing underscore, two signs, a space after the
    sign or between digits, other bases, the empty text, and digits that
    are not decimal (superscript two, U+00B2). *)
Example int_refuses :
  py_int (text_of_bytes [28; 52; 50]) = None
  /\ py_int (text_of_bytes [52; 50; 31]) = None
  /\ py_int "4__2" = None /\ py_int "_42" = None /\ py_int "42_" = None
  /\ py_int "+-42" = None /\ py_int "- 42" = None /\ py_int "4 2" = None
  /\ py_int "0x10" = None /\ py_int "1e3" = None /\ py_int EmptyString = None
  /\ py_int (text_of_bytes [194; 178]) = None.
Proof. vm_compute. repeat split. Qed.

Example order_ids_in_other_digits :
  order_of (VStr ("hack_academy_" ++ text_of_bytes [217; 164; 217; 162] ++ "_mid_1"))
  = Some (42, "mid")
  /\ order_of (VStr ("hack_academy_" ++ text_of_bytes [28; 52; 50] ++ "_mid_1")) = None.
Proof. vm_compute. repeat split. Qed.

(** The range of dates in [extend_subscription]: two million days from
    2024 is a date, three million days is past year 9999, and a
    [timedelta] of a thousand million days does not exist. *)
Example extension_range :
  snd (extend_subscription (demo_env true) 42 2000000 active_world) = inr tt
  /\ snd (extend_subscription (demo_env true) 42 3000000 active_world) = inl OverflowError
  /\ snd (extend_subscription (demo_env true) 42 (-1000000) active_world) = inl OverflowError
  /\ snd (extend_subscription (demo_env true) 42 1000000000 active_world) = inl OverflowError.
Proof. vm_compute. repeat split. Qed.

(** * Further properties of the code *)

(** ** Requests the handler rejects *)

Lemma validly_signed_dec (env : Env) (req : Request) :
  validly_signed env req \/ ~ validly_signed env req.
Proof.
  unfold validly_signed.
  destruct (IPN_SECRET_KEY env) as [k |]; [| right; intros (k & [=] & _)].
  destruct (x_nowpayments_sig req) as [s |]; [| right; intros (k' & _ & [=])].
  destruct (String.eqb_spec s (hmac_sha512_hexdigest k (raw_body req))) as [-> | Hne].
  - left. by exists k.
  - right. intros (k' & [= <-] & [= Hs]). done.
Qed.

Lemma webhook_unsigned (env : Env) (req : Request) (w : World) :
  ~ validly_signed env req ->
  exists l msg,
    payment_webhook env req w = (add_logs l w, inr (error_response msg 400))
    /\ (msg = "No signature" \/ msg = "Invalid signature").
Proof.
  intros Hnot. unfold payment_webhook.
  destruct (x_nowpayments_sig req) as [s |] eqn:Hs.
  - destruct (String.eqb_spec s EmptyString) as [-> | Hne].
    + exists [(ERROR, No_signature_found)], "No signature". split; [reflexivity | by left].
    + destruct (verify_ipn_signature_run env (raw_body req) s w) as (l & Hrun & _).
      assert (Hb : match IPN_SECRET_KEY env with
                   | Some k => (s =? hmac_sha512_hexdigest k (raw_body req))%string
                   | None => false
                   end = false).
      { destruct (IPN_SECRET_KEY env) as [k |] eqn:Hk; [| done].
        destruct (String.eqb_spec s (hmac_sha512_hexdigest k (raw_body req))) as [-> |];
          [| done].
        destruct Hnot. exists k. by rewrite Hs. }
      rewrite Hb in Hrun.
      exists (l ++ [(ERROR, Invalid_signature)]), "Invalid signature".
      split; [| by right].
      apply try_ok. rewrite (bind_ok _ _ _ _ _ Hrun). cbn [negb].
      rewrite <- add_logs_app. reflexivity.
  - exists [(ERROR, No_signature_found)], "No signature". split; [reflexivity | by left].
Qed.

Lemma webhook_bad_json (env : Env) (req : Request) (w : World) :
  validly_signed env req ->
  json_body req = None \/ json_body req = Some None ->
  exists l,
    payment_webhook env req w
    = (add_logs l w, inr (error_response "Internal server error" 500)).
Proof.
  intros (k & Hk & Hsig) Hjson. unfold payment_webhook.
  rewrite Hsig, hmac_hexdigest_nonempty.
  destruct Hjson as [-> | ->].
  - exists [(ERROR, Error_processing_webhook BadRequest)].
    erewrite try_caught; [reflexivity |].
    rewrite (bind_ok _ _ _ _ _ (verify_valid env req w k Hk)). reflexivity.
  - exists [(INFO, Received_webhook None); (ERROR, Error_processing_webhook AttributeError)].
    erewrite try_caught;
      [| rewrite (bind_ok _ _ _ _ _ (verify_valid env req w k Hk)); reflexivity].
    unfold bind, log, ret, add_logs. cbn. by rewrite <- app_assoc.
Qed.

Lemma webhook_bad_order (env : Env) (req : Request) (w : World) (d : gmap string value) :
  validly_signed env req ->
  json_body req = Some (Some d) ->
  order_of (dict_get d "order_id") = None ->
  exists l msg code,
    payment_webhook env req w = (add_logs l w, inr (error_response msg code))
    /\ (code = 400 \/ code = 500).
Proof.
  intros Hsig Hjson Horder.
  rewrite (payment_webhook_signed env req w d Hsig Hjson).
  destruct (truthy (dict_get d "order_id")) eqn:Htruthy; cbn [negb].
  - destruct (order_of_None _ (add_logs [(INFO, Received_webhook (Some d))] w) Horder)
      as (l & [(msg & Hrun & _) | (Hrun & _)]).
    + eexists _, msg, 400. split; [| by left].
      apply try_ok. unfold bind at 1. cbn [log].
      fold (add_logs [(INFO, Received_webhook (Some d))] w).
      rewrite (bind_ok _ _ _ _ _ Hrun). rewrite add_logs_app. reflexivity.
    + eexists _, _, 500. split; [| by right].
      erewrite try_caught.
      2:{ unfold bind at 1. cbn [log].
          fold (add_logs [(INFO, Received_webhook (Some d))] w).
          rewrite (bind_raise _ _ _ _ _ Hrun). reflexivity. }
      unfold bind, log, ret. cbn [add_logs users payments members tg_calls jobs logs
                                    clock_reads db_ops].
      rewrite <- !app_assoc.
      change (mkWorld (users w) (payments w) (members w) (tg_calls w) (jobs w)
                (logs w ++ ?l) (clock_reads w) (db_ops w)) with (add_logs l w).
      reflexivity.
  - exists [(INFO, Received_webhook (Some d)); (ERROR, No_order_id)], "No order_id", 400.
    split; [| by left].
    apply try_ok. unfold bind, log, ret, add_logs. cbn. by rewrite <- app_assoc.
Qed.

Lemma webhook_store_down (env : Env) (req : Request) (w : World)
    (d : gmap string value) (uid : Z) (plan : string) :
  validly_signed env req ->
  json_body req = Some (Some d) ->
  order_of (dict_get d "order_id") = Some (uid, plan) ->
  mongo_answers env (db_ops w) = false ->
  payment_webhook env req w
  = (store_down_world env d w, inr (error_response "Internal server error" 500)).
Proof.
  intros Hsig Hjson Horder Hm.
  rewrite (payment_webhook_signed env req w d Hsig Hjson).
  erewrite try_caught.
  2:{ rewrite (order_of_Some_truthy _ _ Horder). cbn [negb].
      unfold bind at 1. cbn [log].
      rewrite (bind_ok _ _ _ _ _ (order_of_Some _ _ _ Horder)).
      erewrite bind_ok; [| reflexivity].
      erewrite bind_raise; [reflexivity |].
      unfold payments_update_one, mongo. cbn. rewrite Hm. reflexivity. }
  unfold bind, log, ret, store_down_world. cbn. by rewrite <- app_assoc.
Qed.

Lemma payment_webhook_outcome (env : Env) (req : Request) (w : World) :
  (exists l msg code,
      payment_webhook env req w = (add_logs l w, inr (error_response msg code))
      /\ (code = 400 \/ code = 500))
  \/ (exists d,
         payment_webhook env req w
         = (store_down_world env d w, inr (error_response "Internal server error" 500)))
  \/ (exists d uid plan,
         validly_signed env req
         /\ json_body req = Some (Some d)
         /\ order_of (dict_get d "order_id") = Some (uid, plan)
         /\ mongo_answers env (db_ops w) = true).
Proof.
  destruct (validly_signed_dec env req) as [Hsig | Hnot].
  2:{ left. destruct (webhook_unsigned env req w Hnot) as (l & msg & Hrun & _).
      exists l, msg, 400. auto. }
  destruct (json_body req) as [[d |] |] eqn:Hjson.
  - destruct (order_of (dict_get d "order_id")) as [[uid plan] |] eqn:Horder.
    + destruct (mongo_answers env (db_ops w)) eqn:Hm.
      * right. right. by exists d, uid, plan.
      * right. left. exists d. by apply (webhook_store_down env req w d uid plan).
    + left. by apply (webhook_bad_order env req w d).
  - left. destruct (webhook_bad_json env req w Hsig (or_intror Hjson)) as (l & Hrun).
    exists l, "Internal server error", 500. auto.
  - left. destruct (webhook_bad_json env req w Hsig (or_introl Hjson)) as (l & Hrun).
    exists l, "Internal server error", 500. auto.
Qed.

(** What the grant and the activation keep. *)
Lemma map_update_one_keep {A B : Type} (key : A -> B) (flt : A -> bool) (upd : A -> A)
    (l : list A) :
  (forall x, key (upd x) = key x) ->
  map key (update_one flt upd l) = map key l.
Proof.
  intros Hkey. induction l as [| x r IH]; [reflexivity |].
  cbn. destruct (flt x); cbn; [by rewrite Hkey | by rewrite IH].
Qed.

Lemma add_user_to_channel_frame (env : Env) (uid : Z) (plan : string) (w : World) :
  exists (w' : World) (b : bool),
    add_user_to_channel env uid plan w = (w', inr b)
    /\ users w' = users w /\ payments w' = payments w /\ jobs w' = jobs w
    /\ db_ops w' = db_ops w
    /\ members w ⊆ members w'
    /\ exists l, tg_calls w' = tg_calls w ++ l /\ List.filter is_ban l = [].
Proof.
  assert (Hnone : forall l : list (tg_call * bool),
             exists l', l = l ++ l' /\ List.filter is_ban l' = []).
  { intros l. exists []. split; [by rewrite app_nil_r | reflexivity]. }
  unfold add_user_to_channel. unfold_monad.
  destruct (plans !! plan) as [info |]; cbn;
    [| eexists _, _; repeat split; [reflexivity | apply Hnone]].
  destruct (channels env !! channel info) as [[chat |] |]; cbn;
    try (eexists _, _; repeat split; [reflexivity | apply Hnone]).
  destruct (chat =? EmptyString)%string; cbn;
    [eexists _, _; repeat split; [reflexivity | apply Hnone] |].
  destruct (telegram_answers env (length (tg_calls w)) _); cbn.
  - destruct (telegram_answers env _ _); cbn; eexists _, _;
      (repeat split; [set_solver | eexists; rewrite <- app_assoc; split; reflexivity]).
  - eexists _, _. repeat split; [reflexivity |]. eexists. split; reflexivity.
Qed.

Lemma handle_successful_payment_frame (env : Env) (uid : Z) (plan : string) (w : World) :
  exists (w' : World) (b : bool),
    handle_successful_payment env uid plan w = (w', inr b)
    /\ webhook_frame w w' /\ payments w' = payments w.
Proof.
  unfold handle_successful_payment.
  destruct (add_user_to_channel_frame env uid plan w)
    as (wa & b & Hrun & Hu & Hp & Hj & Hdb & Hmem & Htg).
  unfold try_except at 1. unfold bind at 1. rewrite Hrun.
  destruct b; unfold_monad; cbn.
  - destruct (mongo_answers env (db_ops wa)); cbn.
    + eexists _, _. split; [reflexivity |]. unfold webhook_frame. cbn.
      rewrite Hu, Hp, Hj. repeat split; try done.
      by apply map_update_one_keep.
    + eexists _, _. split; [reflexivity |]. unfold webhook_frame. cbn.
      rewrite Hu, Hp, Hj. repeat split; done.
  - eexists _, _. split; [reflexivity |]. unfold webhook_frame.
    rewrite Hu, Hp, Hj. repeat split; done.
Qed.

(** X1: the webhook handler never raises: whatever the request, the
    state and the outside world, it answers, with the success
    acknowledgement or with an error body and status 400 or 500. *)
Theorem webhook_always_answers (env : Env) (req : Request) (w : World) :
  exists (w' : World) (resp : Response),
    payment_webhook env req w = (w', inr resp)
    /\ (resp = success_response
        \/ exists msg, resp = error_response msg 400 \/ resp = error_response msg 500).
Proof.
  destruct (payment_webhook_outcome env req w)
    as [(l & msg & code & Hrun & Hcode) | [(d & Hrun) | (d & uid & plan & Hs & Hj & Ho & Hm)]].
  - eexists _, _. split; [exact Hrun |]. right. exists msg.
    destruct Hcode as [-> | ->]; auto.
  - eexists _, _. split; [exact Hrun |]. right. eexists. by right.
  - rewrite (payment_webhook_accepted env req w d uid plan Hs Hj Ho Hm).
    eexists _, _. split; [reflexivity |]. by left.
Qed.

(** X6: a run of the webhook handler neither adds nor removes a user or
    a payment document and changes no user id or payment id; it
    schedules and cancels no job, takes no channel access away and sends
    no ban. *)
Theorem webhook_keeps_documents (env : Env) (req : Request) (w : World) :
  webhook_frame w (fst (payment_webhook env req w)).
Proof.
  assert (Hrefl : forall l, webhook_frame w (add_logs l w)).
  { intros l. unfold webhook_frame. cbn. repeat split; try done.
    exists []. split; [by rewrite app_nil_r | reflexivity]. }
  destruct (payment_webhook_outcome env req w)
    as [(l & msg & code & Hrun & Hcode) | [(d & Hrun) | (d & uid & plan & Hs & Hj & Ho & Hm)]].
  - rewrite Hrun. apply Hrefl.
  - rewrite Hrun. unfold webhook_frame. cbn. repeat split; try done.
    exists []. split; [by rewrite app_nil_r | reflexivity].
  - rewrite (payment_webhook_accepted env req w d uid plan Hs Hj Ho Hm). cbn [fst].
    assert (Hrec : webhook_frame w (recorded env d w)).
    { unfold webhook_frame. cbn. repeat split; try done.
      - by apply map_update_one_keep.
      - exists []. split; [by rewrite app_nil_r | reflexivity]. }
    destruct (value_in (dict_get d "payment_status") ["finished"; "confirmed"]).
    + destruct (handle_successful_payment_frame env uid plan (confirmed_world env d uid plan w))
        as (w2 & b & Hrun & Hframe & _).
      cbv zeta. rewrite Hrun. cbn [fst snd].
      destruct Hframe as (Hu & Hp & Hjobs & Hmem & l & Htg & Hban).
      destruct Hrec as (Hu' & Hp' & Hjobs' & Hmem' & _).
      unfold webhook_frame. cbn [add_logs users payments jobs members tg_calls].
      cbn [confirmed_world add_logs users payments jobs members tg_calls] in *.
      rewrite Hu, Hp, Hjobs. repeat split; try done.
      by exists l.
    + destruct (value_in (dict_get d "payment_status") ["failed"; "refunded"; "expired"]);
        [| exact Hrec].
      destruct Hrec as (Hu' & Hp' & Hjobs' & Hmem' & Htg').
      unfold webhook_frame. by cbn [add_logs users payments jobs members tg_calls].
Qed.

(** X2: a request without the signature of its body under the secret
    (no header, an empty header, a signature that does not match, or no
    secret configured) is answered with status 400 and changes no state;
    the body is not looked at. *)
Theorem unsigned_request_rejected (env : Env) (req : Request) (w : World) :
  ~ validly_signed env req ->
  exists (w' : World) (msg : string),
    payment_webhook env req w = (w', inr (error_response msg 400))
    /\ same_but_logs w w'
    /\ (msg = "No signature" \/ msg = "Invalid signature").
Proof.
  intros Hnot. destruct (webhook_unsigned env req w Hnot) as (l & msg & Hrun & Hmsg).
  exists (add_logs l w), msg. split; [exact Hrun |]. split; [apply same_but_logs_add | exact Hmsg].
Qed.

Lemma unsigned_request_rejected_witness :
  exists (w' : World) (msg : string),
    payment_webhook (demo_env true) tampered100 (demo_world "waiting")
    = (w', inr (error_response msg 400))
    /\ same_but_logs (demo_world "waiting") w'
    /\ (msg = "No signature" \/ msg = "Invalid signature").
Proof.
  apply (unsigned_request_rejected (demo_env true) tampered100 (demo_world "waiting")).
  intros (k & Hk & Hs). injection Hk as <-. vm_compute in Hs. discriminate Hs.
Defined.

(** X3: a validly signed request whose body [get_json] cannot parse, or
    parses to something that is not an object, is answered with status
    500 and changes no state. *)
Theorem unparsable_body_is_internal_error (env : Env) (req : Request) (w : World) :
  validly_signed env req ->
  json_body req = None \/ json_body req = Some None ->
  exists w' : World,
    payment_webhook env req w = (w', inr (error_response "Internal server error" 500))
    /\ same_but_logs w w'.
Proof.
  intros Hsig Hjson. destruct (webhook_bad_json env req w Hsig Hjson) as (l & Hrun).
  exists (add_logs l w). split; [exact Hrun | apply same_but_logs_add].
Qed.

Lemma unparsable_body_is_internal_error_witness :
  exists w' : World,
    payment_webhook (demo_env true) garbled100 (demo_world "waiting")
    = (w', inr (error_response "Internal server error" 500))
    /\ same_but_logs (demo_world "waiting") w'.
Proof.
  apply (unparsable_body_is_internal_error (demo_env true) garbled100 (demo_world "waiting")).
  - exists "s3cr3t". split; reflexivity.
  - left. reflexivity.
Defined.

(** X4: when the store raises on the payment update of an accepted
    callback, the answer is status 500; no payment and no user is
    changed, and the grant is not attempted, whatever the status of the
    callback. *)
Theorem store_failure_is_internal_error (env : Env) (req : Request) (w : World)
    (d : gmap string value) (uid : Z) (plan : string) :
  validly_signed env req ->
  json_body req = Some (Some d) ->
  order_of (dict_get d "order_id") = Some (uid, plan) ->
  mongo_answers env (db_ops w) = false ->
  exists w' : World,
    payment_webhook env req w = (w', inr (error_response "Internal server error" 500))
    /\ users w' = users w /\ payments w' = payments w
    /\ members w' = members w /\ tg_calls w' = tg_calls w /\ jobs w' = jobs w.
Proof.
  intros Hsig Hjson Horder Hm.
  exists (store_down_world env d w).
  split; [by apply (webhook_store_down env req w d uid plan) | done].
Qed.

Lemma store_failure_is_internal_error_witness :
  exists w' : World,
    payment_webhook (service_env (fun _ _ => true) (fun _ => false)) confirmed100
                    (demo_world "waiting")
    = (w', inr (error_response "Internal server error" 500))
    /\ users w' = users (demo_world "waiting")
    /\ payments w' = payments (demo_world "waiting")
    /\ members w' = members (demo_world "waiting")
    /\ tg_calls w' = tg_calls (demo_world "waiting")
    /\ jobs w' = jobs (demo_world "waiting").
Proof.
  apply (store_failure_is_internal_error (service_env (fun _ _ => true) (fun _ => false))
           confirmed100 (demo_world "waiting")
           (callback_object "p-100" "confirmed" "hack_academy_42_mid_171700000") 42 "mid").
  - exists "s3cr3t". split; reflexivity.
  - reflexivity.
  - vm_compute. reflexivity.
  - reflexivity.
Defined.

(** X5: an accepted callback whose status is neither finished nor
    confirmed (failed, refunded, expired, or anything else, a missing
    status included) is acknowledged and recorded on the payment (the
    record with its payment id gets the status and the body of the
    callback and the time of the delivery), and touches no user and no
    channel: no Telegram call is made. *)
Theorem other_status_leaves_users (env : Env) (req : Request) (w : World)
    (d : gmap string value) (uid : Z) (plan : string) :
  validly_signed env req ->
  json_body req = Some (Some d) ->
  order_of (dict_get d "order_id") = Some (uid, plan) ->
  mongo_answers env (db_ops w) = true ->
  value_in (dict_get d "payment_status") ["finished"; "confirmed"] = false ->
  exists w' : World,
    payment_webhook env req w = (w', inr success_response)
    /\ users w' = users w /\ members w' = members w
    /\ tg_calls w' = tg_calls w /\ jobs w' = jobs w
    /\ payments w' =
       update_one (by_payment_id (dict_get d "payment_id"))
                  (record_callback (dict_get d "payment_status") d (clock env (clock_reads w)))
                  (payments w)
    /\ (forall p, find_one (by_payment_id (dict_get d "payment_id")) (payments w) = Some p ->
                  exists p', find_one (by_payment_id (dict_get d "payment_id")) (payments w')
                             = Some p'
                             /\ p_status p' = dict_get d "payment_status"
                             /\ webhook_data p' = Some d
                             /\ updated_at p' = Some (clock env (clock_reads w))
                             /\ (p_user_id p', p_plan p', payment_id p', amount p',
                                 created_at p', payment_url p')
                                = (p_user_id p, p_plan p, payment_id p, amount p,
                                   created_at p, payment_url p)).
Proof.
  intros Hsig Hjson Horder Hm Hst.
  rewrite (payment_webhook_accepted env req w d uid plan Hsig Hjson Horder Hm), Hst.
  assert (Hrec : forall p,
             find_one (by_payment_id (dict_get d "payment_id")) (payments w) = Some p ->
             exists p',
               find_one (by_payment_id (dict_get d "payment_id"))
                        (payments (recorded env d w)) = Some p'
               /\ p_status p' = dict_get d "payment_status"
               /\ webhook_data p' = Some d
               /\ updated_at p' = Some (clock env (clock_reads w))
               /\ (p_user_id p', p_plan p', payment_id p', amount p',
                   created_at p', payment_url p')
                  = (p_user_id p, p_plan p, payment_id p, amount p,
                     created_at p, payment_url p)).
  { intros p Hfind. eexists. split.
    - cbn [recorded payments]. rewrite find_one_update_one by done.
      rewrite Hfind. reflexivity.
    - done. }
  destruct (value_in (dict_get d "payment_status") ["failed"; "refunded"; "expired"]);
    eexists; (split; [reflexivity |]); repeat (split; [reflexivity |]); exact Hrec.
Qed.

Lemma other_status_leaves_users_witness :
  exists w' : World,
    payment_webhook (demo_env true) failed100 (demo_world "waiting")
    = (w', inr success_response)
    /\ users w' = users (demo_world "waiting")
    /\ members w' = members (demo_world "waiting")
    /\ tg_calls w' = tg_calls (demo_world "waiting")
    /\ jobs w' = jobs (demo_world "waiting")
    /\ payments w' =
       update_one (by_payment_id (dict_get (callback_object "p-100" "failed" "hack_academy_42_mid_171700000") "payment_id"))
                  (record_callback
                     (dict_get (callback_object "p-100" "failed" "hack_academy_42_mid_171700000") "payment_status")
                     (callback_object "p-100" "failed" "hack_academy_42_mid_171700000")
                     (clock (demo_env true) (clock_reads (demo_world "waiting"))))
                  (payments (demo_world "waiting"))
    /\ (forall p,
          find_one (by_payment_id (dict_get (callback_object "p-100" "failed" "hack_academy_42_mid_171700000") "payment_id"))
                   (payments (demo_world "waiting")) = Some p ->
          exists p',
            find_one (by_payment_id (dict_get (callback_object "p-100" "failed" "hack_academy_42_mid_171700000") "payment_id")) (payments w') = Some p'
            /\ p_status p' = dict_get (callback_object "p-100" "failed" "hack_academy_42_mid_171700000") "payment_status"
            /\ webhook_data p' = Some (callback_object "p-100" "failed" "hack_academy_42_mid_171700000")
            /\ updated_at p' = Some (clock (demo_env true) (clock_reads (demo_world "waiting")))
            /\ (p_user_id p', p_plan p', payment_id p', amount p',
                created_at p', payment_url p')
               = (p_user_id p, p_plan p, payment_id p, amount p,
                  created_at p, payment_url p)).
Proof.
  apply (other_status_leaves_users (demo_env true) failed100 (demo_world "waiting")
           (callback_object "p-100" "failed" "hack_academy_42_mid_171700000") 42 "mid").
  - exists "s3cr3t". split; reflexivity.
  - reflexivity.
  - vm_compute. reflexivity.
  - reflexivity.
  - vm_compute. reflexivity.
Defined.

(** ** Grants that cannot succeed, and grants without activation *)

Lemma channel_of_Some (env : Env) (plan chat : string) :
  channel_of env plan = Some chat ->
  exists info, plans !! plan = Some info
               /\ channels env !! channel info = Some (Some chat)
               /\ chat <> EmptyString.
Proof.
  unfold channel_of. destruct (plans !! plan) as [info |]; [| done].
  destruct (channels env !! channel info) as [[c |] |] eqn:Hc; try done.
  destruct (String.eqb_spec c EmptyString); [done |]. intros [= <-]. by exists info.
Qed.


Lemma add_user_to_channel_welcome_fails (env : Env) (uid : Z) (plan chat : string)
    (w : World) :
  channel_of env plan = Some chat ->
  telegram_answers env (length (tg_calls w)) (UnbanChatMember chat uid) = true ->
  (forall m, telegram_answers env (S (length (tg_calls w))) (SendMessage uid m) = false) ->
  exists w' : World,
    add_user_to_channel env uid plan w = (w', inr false)
    /\ members w' = {[ (chat, uid) ]} ∪ members w.
Proof.
  intros Hchan Hunban Hsend.
  destruct (channel_of_Some env plan chat Hchan) as (info & Hplan & Hch & Hne).
  unfold add_user_to_channel. unfold_monad. rewrite Hplan. cbn. rewrite Hch. cbn.
  destruct (String.eqb_spec chat EmptyString) as [-> |]; [done |]. cbn.
  rewrite Hunban. cbn. rewrite length_app, Nat.add_comm. cbn. rewrite Hsend. cbn.
  eexists. split; reflexivity.
Qed.



(** X8: when the unban answers and the welcome message raises (the user
    never wrote to the bot, or blocked it), the user has the access to
    the channel and is not activated: no user document is changed, the
    callback is acknowledged and the log has the failure. *)
Theorem welcome_failure_grants_without_activation (env : Env) (req : Request) (w : World)
    (d : gmap string value) (uid : Z) (plan chat : string) :
  validly_signed env req ->
  json_body req = Some (Some d) ->
  order_of (dict_get d "order_id") = Some (uid, plan) ->
  value_in (dict_get d "payment_status") ["finished"; "confirmed"] = true ->
  mongo_answers env (db_ops w) = true ->
  channel_of env plan = Some chat ->
  telegram_answers env (length (tg_calls w)) (UnbanChatMember chat uid) = true ->
  (forall m, telegram_answers env (S (length (tg_calls w))) (SendMessage uid m) = false) ->
  exists w' : World,
    payment_webhook env req w = (w', inr success_response)
    /\ (chat, uid) ∈ members w'
    /\ users w' = users w
    /\ last (logs w') = Some (ERROR, Failed_to_process uid).
Proof.
  intros Hsig Hjson Horder Hst Hm Hchan Hunban Hsend.
  rewrite (payment_webhook_accepted env req w d uid plan Hsig Hjson Horder Hm), Hst.
  destruct (add_user_to_channel_welcome_fails env uid plan chat
              (confirmed_world env d uid plan w) Hchan Hunban Hsend) as (wa & Hadd & Hmem).
  destruct (handle_successful_payment_fails env uid plan (confirmed_world env d uid plan w))
    as (w2 & Hrun & Hu & _ & _ & _ & Hmem2).
  { left. by rewrite Hadd. }
  rewrite Hadd in Hmem2. cbn [fst] in Hmem2.
  cbv zeta. rewrite Hrun. cbn [fst snd outcome_entry].
  eexists. split; [reflexivity |]. cbn [add_logs users members logs].
  rewrite Hu, Hmem2, Hmem. repeat split; [| apply last_snoc].
  apply elem_of_union. left. by apply elem_of_singleton.
Qed.

Lemma welcome_failure_grants_without_activation_witness :
  exists w' : World,
    payment_webhook (service_env (fun n _ => (n =? 0)%nat) (fun _ => true)) confirmed100
                    (demo_world "waiting")
    = (w', inr success_response)
    /\ ("-1002", 42) ∈ members w'
    /\ users w' = users (demo_world "waiting")
    /\ last (logs w') = Some (ERROR, Failed_to_process 42).
Proof.
  apply (welcome_failure_grants_without_activation
           (service_env (fun n _ => (n =? 0)%nat) (fun _ => true)) confirmed100
           (demo_world "waiting")
           (callback_object "p-100" "confirmed" "hack_academy_42_mid_171700000")
           42 "mid" "-1002").
  - exists "s3cr3t". split; reflexivity.
  - reflexivity.
  - vm_compute. reflexivity.
  - vm_compute. reflexivity.
  - reflexivity.
  - vm_compute. reflexivity.
  - reflexivity.
  - intros m. reflexivity.
Defined.

(** ** The confirmed callback, end to end *)

Lemma webhook_confirmed_granted (env : Env) (req : Request) (w : World)
    (d : gmap string value) (uid : Z) (plan chat : string) :
  validly_signed env req ->
  json_body req = Some (Some d) ->
  order_of (dict_get d "order_id") = Some (uid, plan) ->
  value_in (dict_get d "payment_status") ["finished"; "confirmed"] = true ->
  channel_of env plan = Some chat ->
  (forall n c, telegram_answers env n c = true) ->
  (forall n, mongo_answers env n = true) ->
  exists w' : World,
    payment_webhook env req w = (w', inr success_response)
    /\ payments w' =
       update_one (by_payment_id (dict_get d "payment_id"))
                  (record_callback (dict_get d "payment_status") d (clock env (clock_reads w)))
                  (payments w)
    /\ users w' =
       update_one (by_user_id uid)
                  (activate plan (clock env (3 + clock_reads w))
                            (clock env (2 + clock_reads w) + timedelta_days 30))
                  (users w)
    /\ members w' = {[ (chat, uid) ]} ∪ members w
    /\ jobs w' = jobs w
    /\ last (logs w') = Some (INFO, Successfully_processed uid).
Proof.
  intros Hsig Hjson Horder Hst Hchan Htg Hm.
  destruct (channel_of_Some env plan chat Hchan) as (info & Hplan & Hch & Hne).
  rewrite (payment_webhook_accepted env req w d uid plan Hsig Hjson Horder (Hm _)), Hst.
  pose proof (add_user_to_channel_granted env uid plan (confirmed_world env d uid plan w)
                info chat Hplan Hch Hne Htg) as Hgrant.
  rewrite (handle_successful_payment_activates env uid plan _ _ Hgrant (Hm _)).
  cbv zeta. cbn [fst snd outcome_entry].
  eexists. split; [reflexivity |].
  cbn [add_logs payments users members tg_calls jobs logs confirmed_world recorded
         clock_reads].
  repeat split. apply last_snoc.
Qed.

(** X9: a confirmed callback for a user id that has no document in the
    users collection is reported as a success, in the answer and in the
    log, and the channel is opened, but no user is activated: the update
    matches nothing and nothing is inserted. *)
Theorem unregistered_user_is_not_activated (env : Env) (req : Request) (w : World)
    (d : gmap string value) (uid : Z) (plan chat : string) :
  validly_signed env req ->
  json_body req = Some (Some d) ->
  order_of (dict_get d "order_id") = Some (uid, plan) ->
  value_in (dict_get d "payment_status") ["finished"; "confirmed"] = true ->
  channel_of env plan = Some chat ->
  (forall n c, telegram_answers env n c = true) ->
  (forall n, mongo_answers env n = true) ->
  find_one (by_user_id uid) (users w) = None ->
  exists w' : World,
    payment_webhook env req w = (w', inr success_response)
    /\ users w' = users w
    /\ (chat, uid) ∈ members w'
    /\ last (logs w') = Some (INFO, Successfully_processed uid).
Proof.
  intros Hsig Hjson Horder Hst Hchan Htg Hm Hnone.
  destruct (webhook_confirmed_granted env req w d uid plan chat Hsig Hjson Horder Hst Hchan
              Htg Hm) as (w' & Hrun & _ & Hu & Hmem & _ & Hlog).
  exists w'. split; [exact Hrun |]. rewrite Hu, Hmem. repeat split.
  - by apply update_one_no_match.
  - apply elem_of_union. left. by apply elem_of_singleton.
  - exact Hlog.
Qed.

Lemma unregistered_user_is_not_activated_witness :
  exists w' : World,
    payment_webhook (demo_env true) confirmed100
                    (mkWorld [] [payment100 "waiting"] ∅ [] [] [] 0 0)
    = (w', inr success_response)
    /\ users w' = []
    /\ ("-1002", 42) ∈ members w'
    /\ last (logs w') = Some (INFO, Successfully_processed 42).
Proof.
  apply (unregistered_user_is_not_activated (demo_env true) confirmed100
           (mkWorld [] [payment100 "waiting"] ∅ [] [] [] 0 0)
           (callback_object "p-100" "confirmed" "hack_academy_42_mid_171700000")
           42 "mid" "-1002").
  - exists "s3cr3t". split; reflexivity.
  - reflexivity.
  - vm_compute. reflexivity.
  - vm_compute. reflexivity.
  - vm_compute. reflexivity.
  - intros n c. reflexivity.
  - intros n. reflexivity.
  - reflexivity.
Defined.

(** X10: the confirmed callback of a recorded payment, for a registered
    user and a plan with a channel, with Telegram and the store
    answering: the payment document gets the status, the payload and the
    time of the callback, the user document gets the plan, the status
    active, a start and an end 30 days after the reading of the clock
    before the start, with its other fields kept, and the user has the
    access to the channel of the plan. *)
Theorem confirmed_callback_activates_user (env : Env) (req : Request) (w : World)
    (d : gmap string value) (uid : Z) (plan chat : string) (u : User) (p : Payment) :
  validly_signed env req ->
  json_body req = Some (Some d) ->
  order_of (dict_get d "order_id") = Some (uid, plan) ->
  value_in (dict_get d "payment_status") ["finished"; "confirmed"] = true ->
  channel_of env plan = Some chat ->
  (forall n c, telegram_answers env n c = true) ->
  (forall n, mongo_answers env n = true) ->
  find_one (by_user_id uid) (users w) = Some u ->
  find_one (by_payment_id (dict_get d "payment_id")) (payments w) = Some p ->
  exists (w' : World) (u' : User) (p' : Payment),
    payment_webhook env req w = (w', inr success_response)
    /\ find_one (by_payment_id (dict_get d "payment_id")) (payments w') = Some p'
    /\ p_status p' = dict_get d "payment_status"
    /\ webhook_data p' = Some d
    /\ updated_at p' = Some (clock env (clock_reads w))
    /\ find_one (by_user_id uid) (users w') = Some u'
    /\ status u' = Some "active"
    /\ subscription_plan u' = Some plan
    /\ subscription_start u' = Some (clock env (3 + clock_reads w))
    /\ subscription_end u' = Some (clock env (2 + clock_reads w) + 30 * microseconds_per_day)
    /\ (username u', first_seen u', last_interaction u', revoked_at u', expired_at u')
       = (username u, first_seen u, last_interaction u, revoked_at u, expired_at u)
    /\ (chat, uid) ∈ members w'.
Proof.
  intros Hsig Hjson Horder Hst Hchan Htg Hm Hu Hp.
  destruct (webhook_confirmed_granted env req w d uid plan chat Hsig Hjson Horder Hst Hchan
              Htg Hm) as (w' & Hrun & Hpay & Husers & Hmem & _).
  eexists w', _, _. split; [exact Hrun |]. rewrite Hpay, Husers, Hmem.
  rewrite !find_one_update_one by done. rewrite Hu, Hp. cbn.
  repeat split. apply elem_of_union. left. by apply elem_of_singleton.
Qed.

Lemma confirmed_callback_activates_user_witness :
  exists (w' : World) (u' : User) (p' : Payment),
    payment_webhook (demo_env true) confirmed100 (demo_world "waiting")
    = (w', inr success_response)
    /\ find_one (by_payment_id (dict_get (callback_object "p-100" "confirmed"
                                            "hack_academy_42_mid_171700000") "payment_id"))
                (payments w') = Some p'
    /\ p_status p' = dict_get (callback_object "p-100" "confirmed"
                                 "hack_academy_42_mid_171700000") "payment_status"
    /\ webhook_data p' = Some (callback_object "p-100" "confirmed"
                                 "hack_academy_42_mid_171700000")
    /\ updated_at p' = Some (clock (demo_env true) (clock_reads (demo_world "waiting")))
    /\ find_one (by_user_id 42) (users w') = Some u'
    /\ status u' = Some "active"
    /\ subscription_plan u' = Some "mid"
    /\ subscription_start u'
       = Some (clock (demo_env true) (3 + clock_reads (demo_world "waiting")))
    /\ subscription_end u'
       = Some (clock (demo_env true) (2 + clock_reads (demo_world "waiting"))
               + 30 * microseconds_per_day)
    /\ (username u', first_seen u', last_interaction u', revoked_at u', expired_at u')
       = (username user42, first_seen user42, last_interaction user42,
          revoked_at user42, expired_at user42)
    /\ ("-1002", 42) ∈ members w'.
Proof.
  apply (confirmed_callback_activates_user (demo_env true) confirmed100 (demo_world "waiting")
           (callback_object "p-100" "confirmed" "hack_academy_42_mid_171700000")
           42 "mid" "-1002" user42 (payment100 "waiting")).
  - exists "s3cr3t". split; reflexivity.
  - reflexivity.
  - vm_compute. reflexivity.
  - vm_compute. reflexivity.
  - vm_compute. reflexivity.
  - intros n c. reflexivity.
  - intros n. reflexivity.
  - reflexivity.
  - reflexivity.
Defined.

(** ** Order ids: what the bot issues, the webhook decodes *)

Lemma of_uint_acc_value (d : Decimal.uint) (acc : positive) :
  Z.pos (Pos.of_uint_acc d acc) = uint_value d (Z.pos acc).
Proof.
  revert acc. induction d as [| d IH | d IH | d IH | d IH | d IH | d IH | d IH | d IH
                              | d IH | d IH]; intros acc; cbn [Pos.of_uint_acc uint_value];
    [reflexivity | rewrite IH; f_equal; lia ..].
Qed.

Lemma of_uint_value (d : Decimal.uint) : Z.of_uint d = uint_value d 0.
Proof.
  unfold Z.of_uint.
  induction d as [| d IH | d IH | d IH | d IH | d IH | d IH | d IH | d IH | d IH | d IH];
    cbn [Pos.of_uint uint_value Z.of_N]; [reflexivity | exact IH | ..];
    rewrite of_uint_acc_value; reflexivity.
Qed.


Lemma uint_chars_digits (d : Decimal.uint) :
  forallb is_digit (map N_of_ascii (list_ascii_of_string (NilEmpty.string_of_uint d))) = true.
Proof.
  induction d; cbn [NilEmpty.string_of_uint list_ascii_of_string map forallb];
    [reflexivity | rewrite IHd; reflexivity ..].
Qed.

Lemma uint_chars_value (d : Decimal.uint) (acc : Z) :
  fold_left (fun a c => 10 * a + (Z.of_N c - 48))
            (map N_of_ascii (list_ascii_of_string (NilEmpty.string_of_uint d))) acc
  = uint_value d acc.
Proof.
  revert acc.
  induction d; intros acc;
    cbn [NilEmpty.string_of_uint list_ascii_of_string map fold_left uint_value];
    [reflexivity | rewrite IHd; f_equal; cbn; lia ..].
Qed.

Lemma digits_from_digits (l : list N) (acc : Z) :
  forallb is_digit l = true ->
  digits_from l acc = Some (fold_left (fun a c => 10 * a + (Z.of_N c - 48)) l acc).
Proof.
  revert acc. induction l as [| c r IH]; intros acc H; [reflexivity |].
  cbn in H. apply andb_true_iff in H as [Hc Hr].
  cbn [digits_from fold_left]. rewrite Hc. apply IH, Hr.
Qed.

Lemma digits_value_uint (d : Decimal.uint) :
  digits_value (map N_of_ascii (list_ascii_of_string (NilZero.string_of_uint d)))
  = Some (Z.of_uint d).
Proof.
  rewrite of_uint_value.
  assert (H : forall d', d' <> Decimal.Nil ->
            digits_value (map N_of_ascii (list_ascii_of_string (NilEmpty.string_of_uint d')))
            = Some (uint_value d' 0)).
  { intros d' Hd'. rewrite <- uint_chars_value.
    pose proof (uint_chars_digits d') as Hdig.
    destruct (map N_of_ascii (list_ascii_of_string (NilEmpty.string_of_uint d')))
      as [| c r] eqn:E.
    - destruct d'; [by destruct Hd' | discriminate E ..].
    - cbn in Hdig. apply andb_true_iff in Hdig as [Hc Hr].
      unfold digits_value. rewrite Hc, (digits_from_digits r _ Hr). reflexivity. }
  destruct d; [reflexivity | apply H; discriminate ..].
Qed.

Lemma uint_chars_digits_zero (d : Decimal.uint) :
  forallb is_digit (map N_of_ascii (list_ascii_of_string (NilZero.string_of_uint d))) = true.
Proof. destruct d; [reflexivity | apply uint_chars_digits ..]. Qed.

Lemma is_digit_range (c : N) : is_digit c = true -> (48 <= c <= 57)%N.
Proof.
  unfold is_digit. intros H. apply andb_true_iff in H as [H1 H2].
  apply N.leb_le in H1. apply N.leb_le in H2. lia.
Qed.

Lemma is_digit_not_space (c : N) : is_digit c = true -> is_space c = false.
Proof.
  intros H. apply is_digit_range in H. unfold is_space.
  apply orb_false_iff. split; [apply andb_false_iff; right; apply N.leb_gt; lia |].
  apply N.eqb_neq. lia.
Qed.

Lemma lstrip_no_space (l : list N) :
  forallb (fun c => negb (is_space c)) l = true -> lstrip l = l.
Proof.
  destruct l as [| c r]; [reflexivity |]. cbn. intros H.
  apply andb_true_iff in H as [H _]. by destruct (is_space c).
Qed.

Lemma strip_no_space (l : list N) :
  forallb (fun c => negb (is_space c)) l = true -> strip l = l.
Proof.
  intros H. unfold strip. rewrite (lstrip_no_space l H).
  rewrite lstrip_no_space; [apply rev_involutive |].
  rewrite forallb_forall in *. intros c Hc. apply H. by apply in_rev.
Qed.

Lemma code_points_ascii (l : list N) :
  forallb (fun c => (c <? 127)%N) l = true ->
  code_points l = Some l /\ map to_ascii l = l.
Proof.
  induction l as [| c r IH]; [done |]. cbn [forallb]. intros H.
  apply andb_true_iff in H as [Hc Hr]. destruct (IH Hr) as [IH1 IH2].
  cbn [code_points map]. unfold to_ascii at 1. rewrite Hc, IH1, IH2.
  apply N.ltb_lt in Hc. replace (c <? 128)%N with true by (symmetry; apply N.ltb_lt; lia).
  done.
Qed.

(** [int] on a text of ASCII characters that are no whitespace: a sign,
    then the digits. *)
Lemma py_int_plain (s : string) :
  forallb (fun c => (c <? 127)%N && negb (is_space c))
          (map N_of_ascii (list_ascii_of_string s)) = true ->
  py_int s
  = match map N_of_ascii (list_ascii_of_string s) with
    | c :: ds =>
        if (c =? 43)%N then digits_value ds
        else if (c =? 45)%N then Z.opp <$> digits_value ds
        else digits_value (c :: ds)
    | [] => None
    end.
Proof.
  intros H. unfold py_int.
  assert (H1 : forallb (fun c => (c <? 127)%N) (map N_of_ascii (list_ascii_of_string s)) = true).
  { rewrite forallb_forall in *. intros c Hc.
    specialize (H c Hc). by apply andb_true_iff in H as [H _]. }
  assert (H2 : forallb (fun c => negb (is_space c))
                 (map N_of_ascii (list_ascii_of_string s)) = true).
  { rewrite forallb_forall in *. intros c Hc.
    specialize (H c Hc). by apply andb_true_iff in H as [_ H]. }
  destruct (code_points_ascii _ H1) as [-> ->]. by rewrite (strip_no_space _ H2).
Qed.

Lemma digits_plain (l : list N) :
  forallb is_digit l = true ->
  forallb (fun c => (c <? 127)%N && negb (is_space c)) l = true.
Proof.
  rewrite !forallb_forall. intros H c Hc. specialize (H c Hc).
  rewrite (is_digit_not_space c H). apply is_digit_range in H.
  apply andb_true_iff. split; [apply N.ltb_lt; lia | reflexivity].
Qed.

Lemma py_int_digits (s : string) :
  forallb is_digit (map N_of_ascii (list_ascii_of_string s)) = true ->
  py_int s = digits_value (map N_of_ascii (list_ascii_of_string s)).
Proof.
  intros H. rewrite (py_int_plain s (digits_plain _ H)).
  destruct (map N_of_ascii (list_ascii_of_string s)) as [| c r]; [reflexivity |].
  cbn in H. apply andb_true_iff in H as [H _]. apply is_digit_range in H.
  replace (c =? 43)%N with false by (symmetry; apply N.eqb_neq; lia).
  replace (c =? 45)%N with false by (symmetry; apply N.eqb_neq; lia).
  reflexivity.
Qed.

Lemma py_int_minus_digits (s : string) :
  forallb is_digit (map N_of_ascii (list_ascii_of_string s)) = true ->
  py_int (String "-" s) = Z.opp <$> digits_value (map N_of_ascii (list_ascii_of_string s)).
Proof.
  intros H. rewrite py_int_plain; [reflexivity |].
  cbn [list_ascii_of_string map forallb]. by rewrite (digits_plain _ H).
Qed.

(** [int(str(n)) == n] *)
Lemma py_int_str_of_int (n : Z) : py_int (str_of_int n) = Some n.
Proof.
  unfold str_of_int. rewrite <- (DecimalZ.of_to n) at 2.
  destruct (Z.to_int n) as [d | d]; cbn [NilZero.string_of_int Z.of_int].
  - rewrite py_int_digits by apply uint_chars_digits_zero. apply digits_value_uint.
  - rewrite py_int_minus_digits by apply uint_chars_digits_zero.
    by rewrite digits_value_uint.
Qed.

Lemma str_of_int_underscore_free (n : Z) : underscore_free (str_of_int n) = true.
Proof.
  assert (Hd : forall l, forallb is_digit (map N_of_ascii l) = true ->
                         forallb (fun c => negb (Ascii.eqb c "_")) l = true).
  { intros l. rewrite !forallb_forall. intros H c Hc.
    specialize (H (N_of_ascii c) (in_map _ _ _ Hc)).
    destruct (Ascii.eqb_spec c "_") as [-> |]; [discriminate H | reflexivity]. }
  unfold str_of_int, underscore_free.
  destruct (Z.to_int n) as [d | d]; cbn [NilZero.string_of_int list_ascii_of_string forallb].
  - apply Hd, uint_chars_digits_zero.
  - cbn. apply Hd, uint_chars_digits_zero.
Qed.

Lemma split_on_free (s : string) :
  underscore_free s = true -> split_on "_" s = [s].
Proof.
  unfold underscore_free. induction s as [| c r IH]; [reflexivity |].
  cbn. intros H. apply andb_true_iff in H as [Hc Hr].
  destruct (Ascii.eqb c "_"); [discriminate Hc |]. by rewrite (IH Hr).
Qed.

Lemma split_on_app (a r : string) :
  underscore_free a = true ->
  split_on "_" (a ++ String "_" r)%string = a :: split_on "_" r.
Proof.
  unfold underscore_free. induction a as [| c a IH]; [reflexivity |].
  cbn. intros H. apply andb_true_iff in H as [Hc Ha].
  change (String c a ++ String "_" r)%string with (String c (a ++ String "_" r))%string.
  cbn [split_on].
  destruct (Ascii.eqb c "_"); [discriminate Hc |]. by rewrite (IH Ha).
Qed.

Lemma plans_keys (plan : string) (info : plan_info) :
  plans !! plan = Some info -> plan = "beginner" \/ plan = "mid" \/ plan = "complete".
Proof.
  unfold plans. intros H. apply elem_of_list_to_map_2 in H.
  rewrite !elem_of_cons, elem_of_nil in H.
  destruct H as [[= -> _] | [[= -> _] | [[= -> _] | []]]]; auto.
Qed.

(** X11: the order id the bot sends to the gateway for a user and a plan
    decodes, in the webhook handler, to that user id and that plan, for
    every user id (negative ones included) and every timestamp, provided
    the plan has no underscore in its name; the plans of the table have
    none. *)
Theorem order_id_round_trip (uid ts : Z) (plan : string) :
  underscore_free plan = true \/ is_Some (plans !! plan) ->
  order_of (VStr (make_order_id uid plan ts)) = Some (uid, plan).
Proof.
  intros Hplan.
  assert (Hfree : underscore_free plan = true).
  { destruct Hplan as [H | [info H]]; [exact H |].
    destruct (plans_keys plan info H) as [-> | [-> | ->]]; reflexivity. }
  apply order_of_spec.
  exists (make_order_id uid plan ts), (str_of_int uid), [str_of_int ts].
  split; [reflexivity |]. split; [| apply py_int_str_of_int].
  change (make_order_id uid plan ts)
    with ("hack" ++ String "_" ("academy" ++ String "_"
            (str_of_int uid ++ String "_" (plan ++ String "_" (str_of_int ts)))))%string.
  rewrite !split_on_app by (reflexivity || apply str_of_int_underscore_free || exact Hfree).
  by rewrite (split_on_free _ (str_of_int_underscore_free ts)).
Qed.

Lemma order_id_round_trip_witness :
  order_of (VStr (make_order_id (-1001234) "complete" 1717000000)) = Some (-1001234, "complete").
Proof.
  apply (order_id_round_trip (-1001234) 1717000000 "complete").
  left. reflexivity.
Defined.

(** ** Administration: unknown users, reports, compositions *)

Lemma update_one_same {A : Type} (flt : A -> bool) (upd : A -> A) (l : list A) (x : A) :
  find_one flt l = Some x -> upd x = x -> update_one flt upd l = l.
Proof.
  unfold find_one. induction l as [| y r IH]; [done |].
  cbn. destruct (flt y).
  - intros [= ->] ->. reflexivity.
  - intros Hf Hx. by rewrite (IH Hf Hx).
Qed.

(** X12: [extend_subscription] for a user id without a document changes
    nothing, does not read the clock, and prints that the user was not
    found. *)
Theorem extend_subscription_unknown_user (env : Env) (uid days : Z) (w : World) :
  find_one (by_user_id uid) (users w) = None ->
  mongo_answers env (db_ops w) = true ->
  exists w' : World,
    extend_subscription env uid days w = (w', inr tt)
    /\ users w' = users w
    /\ clock_reads w' = clock_reads w
    /\ logs w' = logs w ++ [(STDOUT, User_not_found uid)].
Proof.
  intros Hu Hm. unfold extend_subscription. unfold_monad. rewrite Hm. cbn. rewrite Hu.
  eexists. split; [reflexivity | done].
Qed.

Lemma extend_subscription_unknown_user_witness :
  exists w' : World,
    extend_subscription (demo_env true) 7 10 active_world = (w', inr tt)
    /\ users w' = users active_world
    /\ clock_reads w' = clock_reads active_world
    /\ logs w' = logs active_world ++ [(STDOUT, User_not_found 7)].
Proof.
  apply (extend_subscription_unknown_user (demo_env true) 7 10 active_world);
    vm_compute; reflexivity.
Defined.

(** X13: two extensions in a row, by [d1] and then by [d2] days, leave
    the users as one extension by [d1 + d2] days does, whether the user
    had an end of subscription or not, as long as each of the three
    extensions stays within the range of dates (otherwise the one that
    leaves it raises [OverflowError] and writes nothing). *)
Theorem extend_subscription_twice (env : Env) (uid d1 d2 : Z) (w : World) (u : User) :
  find_one (by_user_id uid) (users w) = Some u ->
  (forall n, mongo_answers env n = true) ->
  let base := match subscription_end u with
              | Some current_end => current_end
              | None => clock env (clock_reads w)
              end in
  in_range base d1 = true ->
  in_range (base + d1 * microseconds_per_day) d2 = true ->
  in_range base (d1 + d2) = true ->
  users (fst (extend_subscription env uid d2 (fst (extend_subscription env uid d1 w))))
  = users (fst (extend_subscription env uid (d1 + d2) w)).
Proof.
  intros Hu Hm base Hr1 Hr2 Hr3.
  destruct (extend_subscription_run env uid d1 w u Hu (Hm _) (Hm _) Hr1)
    as (w1 & Hrun1 & Hu1 & _).
  destruct (extend_subscription_run env uid (d1 + d2) w u Hu (Hm _) (Hm _) Hr3)
    as (w3 & Hrun3 & Hu3 & _).
  rewrite Hrun1, Hrun3. cbn [fst].
  assert (Hfind : find_one (by_user_id uid) (users w1)
                  = Some (extended (base + timedelta_days d1) u)).
  { rewrite Hu1, find_one_update_one by done. by rewrite Hu. }
  destruct (extend_subscription_run env uid d2 w1 _ Hfind (Hm _) (Hm _) Hr2)
    as (w2 & Hrun2 & Hu2 & _).
  rewrite Hrun2. cbn [fst]. rewrite Hu2, Hu1, Hu3. cbn [extended subscription_end].
  rewrite update_one_absorb by done.
  fold base.
  replace (base + timedelta_days d1 + timedelta_days d2)
    with (base + timedelta_days (d1 + d2)) by (unfold timedelta_days; lia).
  reflexivity.
Qed.

Lemma extend_subscription_twice_witness :
  users (fst (extend_subscription (demo_env true) 42 20
                (fst (extend_subscription (demo_env true) 42 10 (demo_world "waiting")))))
  = users (fst (extend_subscription (demo_env true) 42 (10 + 20) (demo_world "waiting"))).
Proof.
  apply (extend_subscription_twice (demo_env true) 42 10 20 (demo_world "waiting") user42).
  - reflexivity.
  - intros n. reflexivity.
  - vm_compute. reflexivity.
  - vm_compute. reflexivity.
  - vm_compute. reflexivity.
Defined.

(** X14: what [revoke_access] prints.  It prints that the access was
    revoked when a document has the user id and the update changed it;
    it prints that the user was not found, and changes nothing, when no
    document has the user id, and also when the document already had
    the status revoked with the same time. *)
Theorem revoke_access_report (env : Env) (uid : Z) (w : World) :
  mongo_answers env (db_ops w) = true ->
  exists w' : World,
    revoke_access env uid w = (w', inr tt)
    /\ (find_one (by_user_id uid) (users w) = None ->
        users w' = users w /\ last (logs w') = Some (STDOUT, User_not_found uid))
    /\ (forall u, find_one (by_user_id uid) (users w) = Some u ->
                  revoked (clock env (clock_reads w)) u <> u ->
                  last (logs w') = Some (STDOUT, Access_revoked uid))
    /\ (forall u, find_one (by_user_id uid) (users w) = Some u ->
                  revoked (clock env (clock_reads w)) u = u ->
                  users w' = users w /\ last (logs w') = Some (STDOUT, User_not_found uid)).
Proof.
  intros Hm. unfold revoke_access. unfold_monad. cbn. rewrite Hm. cbn.
  unfold modified_one.
  destruct (find_one (by_user_id uid) (users w)) as [u |] eqn:Hu.
  - destruct (decide (revoked (clock env (clock_reads w)) u = u)) as [Heq | Hne]; cbn.
    + eexists. split; [reflexivity |]. cbn. split; [done |]. split.
      * intros u' [= <-] Hne. done.
      * intros u' [= <-] _. split; [by apply (update_one_same _ _ _ u) | apply last_snoc].
    + eexists. split; [reflexivity |]. cbn. split; [done |]. split.
      * intros u' [= <-] _. apply last_snoc.
      * intros u' [= <-] Heq. done.
  - eexists. split; [reflexivity |]. cbn. split; [| done].
    intros _. split; [by apply update_one_no_match | apply last_snoc].
Qed.

Lemma revoke_access_report_witness :
  exists w' : World,
    revoke_access (demo_env true) 7 active_world = (w', inr tt)
    /\ (find_one (by_user_id 7) (users active_world) = None ->
        users w' = users active_world
        /\ last (logs w') = Some (STDOUT, User_not_found 7))
    /\ (forall u, find_one (by_user_id 7) (users active_world) = Some u ->
                  revoked (clock (demo_env true) (clock_reads active_world)) u <> u ->
                  last (logs w') = Some (STDOUT, Access_revoked 7))
    /\ (forall u, find_one (by_user_id 7) (users active_world) = Some u ->
                  revoked (clock (demo_env true) (clock_reads active_world)) u = u ->
                  users w' = users active_world
                  /\ last (logs w') = Some (STDOUT, User_not_found 7)).
Proof.
  apply (revoke_access_report (demo_env true) 7 active_world). reflexivity.
Defined.

Lemma overdue_changes (t t' : time) (u : User) :
  overdue t u = true -> expired t' u <> u.
Proof.
  unfold overdue. intros H. apply andb_true_iff in H as [_ H].
  apply bool_decide_eq_true in H. intros Heq.
  assert (Hst : status (expired t' u) = status u) by (by rewrite Heq).
  rewrite H in Hst. discriminate Hst.
Qed.

Lemma modified_many_overdue (t t' : time) (l : list User) :
  modified_many (overdue t) (expired t') l = length (List.filter (overdue t) l).
Proof.
  unfold modified_many. induction l as [| u r IH]; [reflexivity |].
  rewrite filter_cons. cbn [List.filter].
  destruct (overdue t u) eqn:Ho.
  - rewrite decide_True by (split; [done | by apply (overdue_changes t)]).
    cbn. by rewrite IH.
  - rewrite decide_False by (intros [[=] _]). exact IH.
Qed.

(** X15: the number [cleanup_expired] prints is the number of users that
    were active with an end of subscription before now, each of which it
    changed. *)
Theorem cleanup_expired_reports_count (env : Env) (w : World) :
  mongo_answers env (db_ops w) = true ->
  exists w' : World,
    cleanup_expired env w = (w', inr tt)
    /\ logs w' = logs w ++ [(STDOUT, Cleaned_up (length (List.filter
                                (overdue (clock env (clock_reads w))) (users w))))]
    /\ length (List.filter (overdue (clock env (clock_reads w))) (users w))
       = length (List.filter (fun p => negb (bool_decide (fst p = snd p)))
                             (combine (users w) (users w'))).
Proof.
  intros Hm. unfold cleanup_expired. unfold_monad. cbn -[modified_many].
  rewrite Hm. cbn -[modified_many].
  eexists. split; [reflexivity |]. cbn -[modified_many]. rewrite modified_many_overdue.
  split; [reflexivity |].
  unfold update_many. induction (users w) as [| u r IH]; [reflexivity |].
  cbn. destruct (overdue (clock env (clock_reads w)) u) eqn:Ho; cbn.
  - rewrite bool_decide_eq_false_2; [cbn; by rewrite IH |].
    intros Heq. by apply (overdue_changes _ (clock env (S (clock_reads w))) u Ho).
  - rewrite bool_decide_eq_true_2 by done. cbn. exact IH.
Qed.

Lemma cleanup_expired_reports_count_witness :
  exists w' : World,
    cleanup_expired (demo_env true) overdue_world = (w', inr tt)
    /\ logs w' = logs overdue_world
                 ++ [(STDOUT, Cleaned_up (length (List.filter
                        (overdue (clock (demo_env true) (clock_reads overdue_world)))
                        (users overdue_world))))]
    /\ length (List.filter (overdue (clock (demo_env true) (clock_reads overdue_world)))
                           (users overdue_world))
       = length (List.filter (fun p => negb (bool_decide (fst p = snd p)))
                             (combine (users overdue_world) (users w'))).
Proof.
  apply (cleanup_expired_reports_count (demo_env true) overdue_world). reflexivity.
Defined.

(** X16: after [cleanup_expired] no user is left active with an end of
    subscription before the time the cleanup took as now. *)
Theorem cleanup_expired_leaves_no_overdue (env : Env) (w : World) (u : User) :
  mongo_answers env (db_ops w) = true ->
  In u (users (fst (cleanup_expired env w))) ->
  ~ (status u = Some "active"
     /\ exists e, subscription_end u = Some e /\ e < clock env (clock_reads w)).
Proof.
  intros Hm. unfold cleanup_expired. unfold_monad. cbn. rewrite Hm. cbn.
  unfold update_many. rewrite in_map_iff. intros (u0 & Hu0 & _) (Hst & e & He & Hlt).
  destruct (overdue (clock env (clock_reads w)) u0) eqn:Ho.
  - subst u. discriminate Hst.
  - subst u0. unfold overdue in Ho. rewrite He, Hst in Ho.
    rewrite bool_decide_eq_true_2 in Ho by done.
    destruct (Z.ltb_spec e (clock env (clock_reads w))); [discriminate Ho | lia].
Qed.

Lemma cleanup_expired_leaves_no_overdue_witness :
  ~ (status (expired (clock (demo_env true) 1)
                     (activate "mid" 1714000000000000 1716592000000000 user42))
     = Some "active"
     /\ exists e,
          subscription_end (expired (clock (demo_env true) 1)
                                    (activate "mid" 1714000000000000 1716592000000000 user42))
          = Some e
          /\ e < clock (demo_env true) (clock_reads overdue_world)).
Proof.
  apply (cleanup_expired_leaves_no_overdue (demo_env true) overdue_world).
  - reflexivity.
  - vm_compute. left. reflexivity.
Defined.

Lemma revoke_access_run (env : Env) (uid : Z) (w : World) :
  mongo_answers env (db_ops w) = true ->
  exists w' : World,
    revoke_access env uid w = (w', inr tt)
    /\ users w' = update_one (by_user_id uid) (revoked (clock env (clock_reads w))) (users w)
    /\ clock_reads w' = S (clock_reads w)
    /\ db_ops w' = S (db_ops w).
Proof.
  intros Hm. unfold revoke_access. unfold_monad. cbn. rewrite Hm. cbn.
  destruct (modified_one (by_user_id uid) (revoked (clock env (clock_reads w))) (users w));
    cbn; eexists; (split; [reflexivity | done]).
Qed.

(** X17: an extension after a revocation makes the user active again,
    from the end of subscription the user had (the revocation does not
    touch it), and the time of the revocation stays on the document;
    this for an extension within the range of dates.  One that leaves
    the range raises [OverflowError] and the user stays revoked. *)
Theorem extend_after_revoke_reactivates (env : Env) (uid days : Z) (w : World) (u : User) :
  find_one (by_user_id uid) (users w) = Some u ->
  (forall n, mongo_answers env n = true) ->
  let base := match subscription_end u with
              | Some current_end => current_end
              | None => clock env (S (clock_reads w))
              end in
  (in_range base days = true ->
   exists u' : User,
     find_one (by_user_id uid)
              (users (fst (extend_subscription env uid days (fst (revoke_access env uid w)))))
     = Some u'
     /\ status u' = Some "active"
     /\ revoked_at u' = Some (clock env (clock_reads w))
     /\ subscription_end u' = Some (base + days * microseconds_per_day))
  /\ (in_range base days = false ->
      exists u' : User,
        snd (extend_subscription env uid days (fst (revoke_access env uid w)))
        = inl OverflowError
        /\ find_one (by_user_id uid)
                    (users (fst (extend_subscription env uid days
                                   (fst (revoke_access env uid w)))))
           = Some u'
        /\ status u' = Some "revoked"
        /\ revoked_at u' = Some (clock env (clock_reads w))
        /\ subscription_end u' = subscription_end u).
Proof.
  intros Hu Hm base.
  destruct (revoke_access_run env uid w (Hm _)) as (w1 & Hrun1 & Hu1 & Hc1 & _).
  rewrite Hrun1. cbn [fst].
  assert (Hfind : find_one (by_user_id uid) (users w1)
                  = Some (revoked (clock env (clock_reads w)) u)).
  { rewrite Hu1, find_one_update_one by done. by rewrite Hu. }
  assert (Hbase : match subscription_end (revoked (clock env (clock_reads w)) u) with
                  | Some current_end => current_end
                  | None => clock env (clock_reads w1)
                  end = base).
  { cbn. by rewrite Hc1. }
  split; intros Hr; rewrite <- Hbase in Hr.
  - destruct (extend_subscription_run env uid days w1 _ Hfind (Hm _) (Hm _) Hr)
      as (w2 & Hrun2 & Hu2 & _).
    rewrite Hrun2. cbn [fst]. rewrite Hu2, find_one_update_one by done.
    rewrite Hfind.
    eexists. split; [reflexivity |]. cbn. unfold base. rewrite Hc1. done.
  - destruct (extend_subscription_overflow env uid days w1 _ Hfind (Hm _) Hr)
      as (w2 & Hrun2 & Hu2 & _).
    rewrite Hrun2. cbn [fst snd]. rewrite Hu2, Hfind.
    eexists. split; [reflexivity |]. split; [reflexivity |]. done.
Qed.

Lemma extend_after_revoke_reactivates_witness :
  exists u' : User,
    find_one (by_user_id 42)
             (users (fst (extend_subscription (demo_env true) 42 10
                            (fst (revoke_access (demo_env true) 42 active_world)))))
    = Some u'
    /\ status u' = Some "active"
    /\ revoked_at u' = Some (clock (demo_env true) (clock_reads active_world))
    /\ subscription_end u' =
       Some (1717000001000000 + 30 * microseconds_per_day + 10 * microseconds_per_day).
Proof.
  apply (extend_after_revoke_reactivates (demo_env true) 42 10 active_world active42).
  - vm_compute. reflexivity.
  - intros n. reflexivity.
  - vm_compute. reflexivity.
Defined.

(** ** The bot: expiry and scheduling *)

Lemma bot_add_user_to_channel_same (env : Env) (uid : Z) (plan : string) :
  TelegramBot.add_user_to_channel env uid plan = add_user_to_channel env uid plan.
Proof. reflexivity. Qed.

Lemma remove_user_from_channel_run (env : Env) (uid : Z) (plan : string) (w : World) :
  exists (w' : World) (b : bool),
    TelegramBot.remove_user_from_channel env uid plan w = (w', inr b)
    /\ users w' = users w /\ payments w' = payments w /\ jobs w' = jobs w
    /\ clock_reads w' = clock_reads w /\ db_ops w' = db_ops w
    /\ members w' ⊆ members w
    /\ (forall chat, channel_of env plan = Some chat ->
          telegram_answers env (length (tg_calls w)) (BanChatMember chat uid) = true ->
          (chat, uid) ∉ members w')
    /\ (channel_of env plan = None
        \/ (exists chat, channel_of env plan = Some chat
                         /\ telegram_answers env (length (tg_calls w))
                                             (BanChatMember chat uid) = false) ->
        members w' = members w).
Proof.
  unfold TelegramBot.remove_user_from_channel, channel_of. unfold_monad.
  destruct (plans !! plan) as [info |]; cbn;
    [| eexists _, _; split; [reflexivity |]; cbn; repeat split; try done].
  destruct (channels env !! channel info) as [[chat |] |]; cbn;
    try (eexists _, _; split; [reflexivity |]; cbn; repeat split; done).
  destruct (String.eqb_spec chat EmptyString) as [-> | Hne]; cbn;
    [eexists _, _; split; [reflexivity |]; cbn; repeat split; done |].
  destruct (telegram_answers env (length (tg_calls w)) (BanChatMember chat uid)) eqn:Hban;
    cbn; eexists _, _; (split; [reflexivity |]); cbn; repeat split; try done.
  - apply subseteq_difference_l. reflexivity.
  - intros c [= <-] _. apply not_elem_of_difference. right. by apply elem_of_singleton.
  - intros [[=] | (c & [= <-] & Hf)]. congruence.
  - intros c [= <-] Ht. congruence.
Qed.

(** X18: when an expiry job runs, the bot bans the user from the channel
    of the plan and sets the status to expired with the time of the run,
    whatever the status and the end of subscription of the user are at
    that time: a user extended or revoked in the meantime is expired all
    the same; the end of subscription is not changed. *)
Theorem expiry_job_does_not_recheck (env : Env) (uid : Z) (plan chat : string)
    (w : World) (u : User) :
  channel_of env plan = Some chat ->
  find_one (by_user_id uid) (users w) = Some u ->
  telegram_answers env (length (tg_calls w)) (BanChatMember chat uid) = true ->
  mongo_answers env (db_ops w) = true ->
  exists (w' : World) (u' : User),
    TelegramBot.handle_subscription_expiry env uid plan w = (w', inr tt)
    /\ find_one (by_user_id uid) (users w') = Some u'
    /\ status u' = Some "expired"
    /\ expired_at u' = Some (clock env (clock_reads w))
    /\ subscription_end u' = subscription_end u
    /\ (chat, uid) ∉ members w'.
Proof.
  intros Hchan Hu Hban Hm. unfold TelegramBot.handle_subscription_expiry.
  destruct (remove_user_from_channel_run env uid plan w)
    as (w1 & b & Hrun & Hu1 & _ & _ & Hc1 & Hdb1 & _ & Hout & _).
  specialize (Hout chat Hchan Hban).
  unfold try_except at 1. unfold bind at 1. rewrite Hrun.
  unfold_monad. cbn. rewrite Hdb1, Hm. cbn.
  destruct (telegram_answers env (length (tg_calls w1)) _); cbn;
    eexists _, _; (split; [reflexivity |]); cbn;
    rewrite Hu1, find_one_update_one by done; rewrite Hu, Hc1; cbn; done.
Qed.

Lemma expiry_job_does_not_recheck_witness :
  exists (w' : World) (u' : User),
    TelegramBot.handle_subscription_expiry (demo_env true) 42 "mid"
      (fst (extend_subscription (demo_env true) 42 365 active_world)) = (w', inr tt)
    /\ find_one (by_user_id 42) (users w') = Some u'
    /\ status u' = Some "expired"
    /\ expired_at u'
       = Some (clock (demo_env true)
                 (clock_reads (fst (extend_subscription (demo_env true) 42 365 active_world))))
    /\ subscription_end u'
       = subscription_end (extended (1717000001000000 + timedelta_days 30
                                     + timedelta_days 365) active42)
    /\ ("-1002", 42) ∉ members w'.
Proof.
  apply (expiry_job_does_not_recheck (demo_env true) 42 "mid" "-1002"
           (fst (extend_subscription (demo_env true) 42 365 active_world))
           (extended (1717000001000000 + timedelta_days 30 + timedelta_days 365) active42));
    vm_compute; reflexivity.
Defined.

(** X19: when the ban cannot be made (the plan has no channel, or the
    call raises), the expiry still sets the status to expired: the user
    keeps the access to the channel and is expired in the store. *)
Theorem expiry_without_ban (env : Env) (uid : Z) (plan : string) (w : World) (u : User) :
  find_one (by_user_id uid) (users w) = Some u ->
  mongo_answers env (db_ops w) = true ->
  channel_of env plan = None
  \/ (exists chat, channel_of env plan = Some chat
                   /\ telegram_answers env (length (tg_calls w)) (BanChatMember chat uid)
                      = false) ->
  exists (w' : World) (u' : User),
    TelegramBot.handle_subscription_expiry env uid plan w = (w', inr tt)
    /\ find_one (by_user_id uid) (users w') = Some u'
    /\ status u' = Some "expired"
    /\ members w' = members w.
Proof.
  intros Hu Hm Hnoban. unfold TelegramBot.handle_subscription_expiry.
  destruct (remove_user_from_channel_run env uid plan w)
    as (w1 & b & Hrun & Hu1 & _ & _ & Hc1 & Hdb1 & _ & _ & Hkeep).
  specialize (Hkeep Hnoban).
  unfold try_except at 1. unfold bind at 1. rewrite Hrun.
  unfold_monad. cbn. rewrite Hdb1, Hm. cbn.
  destruct (telegram_answers env (length (tg_calls w1)) _); cbn;
    eexists _, _; (split; [reflexivity |]); cbn;
    rewrite Hu1, find_one_update_one by done; rewrite Hu; cbn; done.
Qed.

Lemma expiry_without_ban_witness :
  exists (w' : World) (u' : User),
    TelegramBot.handle_subscription_expiry (demo_env false) 42 "mid" active_world
    = (w', inr tt)
    /\ find_one (by_user_id 42) (users w') = Some u'
    /\ status u' = Some "expired"
    /\ members w' = members active_world.
Proof.
  apply (expiry_without_ban (demo_env false) 42 "mid" active_world active42).
  - vm_compute. reflexivity.
  - reflexivity.
  - right. exists "-1002". split; vm_compute; reflexivity.
Defined.

Lemma bot_activation_run (env : Env) (uid : Z) (plan chat : string) (w : World) :
  channel_of env plan = Some chat ->
  (forall n c, telegram_answers env n c = true) ->
  mongo_answers env (db_ops w) = true ->
  exists w1 : World,
    TelegramBot.handle_successful_payment env uid plan w =
    (if existsb (fun j' => (job_id j' =? ("expiry_" ++ str_of_int uid ++ "_" ++ plan))%string)
                (jobs w)
     then (add_logs [(ERROR, Error_handling_successful_payment ConflictingIdError)] w1,
           inr false)
     else (mkWorld (users w1) (payments w1) (members w1) (tg_calls w1)
                   (jobs w ++ [mkJob ("expiry_" ++ str_of_int uid ++ "_" ++ plan)%string
                                     (clock env (S (clock_reads w)) + timedelta_days 30)
                                     uid plan])
                   (logs w1 ++ [(INFO, Successfully_activated uid plan)])
                   (clock_reads w1) (db_ops w1),
           inr true))
    /\ users w1 =
       update_one (by_user_id uid)
                  (activate plan (clock env (2 + clock_reads w))
                            (clock env (S (clock_reads w)) + timedelta_days 30))
                  (users w)
    /\ jobs w1 = jobs w
    /\ members w1 = {[ (chat, uid) ]} ∪ members w.
Proof.
  intros Hchan Htg Hm.
  destruct (channel_of_Some env plan chat Hchan) as (info & Hplan & Hch & Hne).
  pose proof (add_user_to_channel_granted env uid plan w info chat Hplan Hch Hne Htg)
    as Hgrant.
  unfold TelegramBot.handle_successful_payment.
  rewrite bot_add_user_to_channel_same.
  unfold try_except at 1. unfold bind at 1. rewrite Hgrant.
  unfold TelegramBot.add_job. unfold_monad. cbn. rewrite Hm. cbn.
  exists (mkWorld (update_one (by_user_id uid)
                     (activate plan (clock env (2 + clock_reads w))
                               (clock env (S (clock_reads w)) + timedelta_days 30))
                     (users w))
                  (payments w) ({[ (chat, uid) ]} ∪ members w)
                  ((tg_calls w ++ [(UnbanChatMember chat uid, true)])
                     ++ [(SendMessage uid (Welcome (name info)
                            (clock env (clock_reads w) + timedelta_days 30)), true)])
                  (jobs w) (logs w) (S (S (S (clock_reads w)))) (S (db_ops w))).
  destruct (existsb _ (jobs w)); cbn; (split; [reflexivity | done]).
Qed.

(** X20: an activation by the bot schedules the expiry: when no job has
    the id [expiry_<user id>_<plan>], a job with this id is added for
    the user and the plan, and its run date is the end of subscription
    written on the user document. *)
Theorem bot_activation_adds_expiry_job (env : Env) (uid : Z) (plan chat : string)
    (w : World) (u : User) :
  channel_of env plan = Some chat ->
  (forall n c, telegram_answers env n c = true) ->
  mongo_answers env (db_ops w) = true ->
  find_one (by_user_id uid) (users w) = Some u ->
  existsb (fun j' => (job_id j' =? ("expiry_" ++ str_of_int uid ++ "_" ++ plan))%string)
          (jobs w) = false ->
  exists (w' : World) (u' : User) (E : time),
    TelegramBot.handle_successful_payment env uid plan w = (w', inr true)
    /\ jobs w' = jobs w ++ [mkJob ("expiry_" ++ str_of_int uid ++ "_" ++ plan)%string
                                  E uid plan]
    /\ find_one (by_user_id uid) (users w') = Some u'
    /\ status u' = Some "active"
    /\ subscription_end u' = Some E
    /\ E = clock env (S (clock_reads w)) + 30 * microseconds_per_day.
Proof.
  intros Hchan Htg Hm Hu Hfree.
  destruct (bot_activation_run env uid plan chat w Hchan Htg Hm) as (w1 & Hrun & Hu1 & _).
  rewrite Hfree in Hrun. rewrite Hrun.
  eexists _, _, _. split; [reflexivity |]. cbn [jobs users].
  split; [reflexivity |]. rewrite Hu1, find_one_update_one by done. rewrite Hu.
  split; [reflexivity |]. done.
Qed.

Lemma bot_activation_adds_expiry_job_witness :
  exists (w' : World) (u' : User) (E : time),
    TelegramBot.handle_successful_payment (demo_env true) 42 "mid" (demo_world "confirmed")
    = (w', inr true)
    /\ jobs w' = jobs (demo_world "confirmed")
                 ++ [mkJob ("expiry_" ++ str_of_int 42 ++ "_" ++ "mid")%string E 42 "mid"]
    /\ find_one (by_user_id 42) (users w') = Some u'
    /\ status u' = Some "active"
    /\ subscription_end u' = Some E
    /\ E = clock (demo_env true) (S (clock_reads (demo_world "confirmed")))
           + 30 * microseconds_per_day.
Proof.
  apply (bot_activation_adds_expiry_job (demo_env true) 42 "mid" "-1002"
           (demo_world "confirmed") user42).
  - vm_compute. reflexivity.
  - intros n c. reflexivity.
  - reflexivity.
  - reflexivity.
  - reflexivity.
Defined.

(** X21: an activation by the bot for a user and a plan whose expiry job
    is still pending writes the new end of subscription on the user
    document, then fails on the job id that is taken: the answer is
    [False], the jobs are as before, and the pending job keeps its run
    date, not the new end. *)
Theorem bot_reactivation_keeps_old_job (env : Env) (uid : Z) (plan chat : string)
    (w : World) (u : User) :
  channel_of env plan = Some chat ->
  (forall n c, telegram_answers env n c = true) ->
  mongo_answers env (db_ops w) = true ->
  find_one (by_user_id uid) (users w) = Some u ->
  existsb (fun j' => (job_id j' =? ("expiry_" ++ str_of_int uid ++ "_" ++ plan))%string)
          (jobs w) = true ->
  exists (w' : World) (u' : User),
    TelegramBot.handle_successful_payment env uid plan w = (w', inr false)
    /\ jobs w' = jobs w
    /\ find_one (by_user_id uid) (users w') = Some u'
    /\ status u' = Some "active"
    /\ subscription_end u' = Some (clock env (S (clock_reads w)) + 30 * microseconds_per_day)
    /\ last (logs w') = Some (ERROR, Error_handling_successful_payment ConflictingIdError).
Proof.
  intros Hchan Htg Hm Hu Htaken.
  destruct (bot_activation_run env uid plan chat w Hchan Htg Hm)
    as (w1 & Hrun & Hu1 & Hj1 & _).
  rewrite Htaken in Hrun. rewrite Hrun.
  eexists _, _. split; [reflexivity |]. cbn [add_logs jobs users logs].
  split; [exact Hj1 |]. rewrite Hu1, find_one_update_one by done. rewrite Hu.
  split; [reflexivity |]. repeat split. apply last_snoc.
Qed.

Lemma bot_reactivation_keeps_old_job_witness :
  exists (w' : World) (u' : User),
    TelegramBot.handle_successful_payment (demo_env true) 42 "mid" active_world
    = (w', inr false)
    /\ jobs w' = jobs active_world
    /\ find_one (by_user_id 42) (users w') = Some u'
    /\ status u' = Some "active"
    /\ subscription_end u'
       = Some (clock (demo_env true) (S (clock_reads active_world))
               + 30 * microseconds_per_day)
    /\ last (logs w') = Some (ERROR, Error_handling_successful_payment ConflictingIdError).
Proof.
  apply (bot_reactivation_keeps_old_job (demo_env true) 42 "mid" "-1002" active_world
           active42).
  - vm_compute. reflexivity.
  - intros n c. reflexivity.
  - reflexivity.
  - vm_compute. reflexivity.
  - vm_compute. reflexivity.
Defined.
